(** * Airbyte connectors [source-snapchat-marketing] and [source-freshchat]

    A shallow embedding of the two connector sources
    ([source_snapchat_marketing/source.py], [source_freshchat/source.py])
    and the properties of their slicing, incremental-state, pagination,
    stats-merging and token-refresh code.

    Conventions.
    - JSON data is the inductive [value]; a Python dict of JSON data is a
      [gmap string value] (lookup, [in], item assignment and [==] of a dict
      do not depend on insertion order).  Where the code iterates a dict or
      returns its [values()], the dict is an insertion-ordered association
      list instead ([odict]).
    - A call that may raise returns a [result]; a generator returns a [gen]:
      the items yielded so far and the exception that ended it, if any.
    - Module-level state ([auxiliary_record_map]), the logger and the HTTP
      traffic are threaded through the state monad [M].
    - Code that is not part of the two sources (the HTTP layer of the CDK,
      [pendulum], [urllib.parse], [requests], the JSON schema files, Python's
      [int] and [str] on text) is the interface [Runtime].
    - Text is a string of bytes, UTF-8 encoded; where the code counts
      characters ([s[:-1]], iteration) a character is one code point.  The
      order of the keys of a dict, where the code walks one, is the
      interface [Iteration]. *)

From stdpp Require Import gmap strings list fin_maps.
From Stdlib Require Import ZArith Permutation.

Set Warnings "-register-all".
Local Open Scope string_scope.
Local Open Scope list_scope.
Local Open Scope Z_scope.

(** ** Python values, exceptions and results *)

(** JSON data as Python sees it.  Numbers are integers only: floats do not
    occur in the fields the connectors inspect.  [True] and [False] behave
    as the integers 1 and 0, as in Python. *)
Inductive value : Type :=
  | VNone
  | VBool (b : bool)
  | VInt (z : Z)
  | VStr (s : string)
  | VList (l : list value)
  | VDict (m : gmap string value).

Abbreviation dict := (gmap string value).

Inductive exn : Type :=
  | KeyError (key : string)
  | IndexError
  | TypeError
  | ValueError
  | AttributeError
  | SnapchatMarketingException (error_text : string)
  | RequestException (text : string)
  | Exception (text : string).

Inductive result (A : Type) : Type :=
  | Ok (a : A)
  | Raise (e : exn).
Arguments Ok {A} a.
Arguments Raise {A} e.

#[global] Instance result_ret : MRet result := fun _ a => Ok a.
#[global] Instance result_bind : MBind result :=
  fun _ _ f m => match m with Ok a => f a | Raise e => Raise e end.
#[global] Instance result_fmap : FMap result :=
  fun _ _ f m => match m with Ok a => Ok (f a) | Raise e => Raise e end.

(** A generator run to its end: what it yielded, and the exception that
    stopped it ([None] when it was exhausted normally). *)
Record gen (A : Type) : Type := Gen { yielded : list A; raised : option exn }.
Arguments Gen {A} yielded raised.
Arguments yielded {A} g.
Arguments raised {A} g.

(** [bool(v)] *)
Definition truthy (v : value) : bool :=
  match v with
  | VNone => false
  | VBool b => b
  | VInt z => negb (z =? 0)
  | VStr s => negb (String.eqb s "")
  | VList l => match l with [] => false | _ => true end
  | VDict m => negb (bool_decide (m = ∅))
  end.

(** [bool(d)] for a dict *)
Definition dict_truthy (d : dict) : bool := negb (bool_decide (d = ∅)).

(** [bool(x)] for [x : Optional[Mapping]] *)
Definition opt_truthy (d : option dict) : bool :=
  match d with Some m => dict_truthy m | None => false end.

(** [d.get(k, default)] *)
Definition dict_get (d : dict) (k : string) (default : value) : value :=
  match d !! k with Some v => v | None => default end.

(** [d[k]] *)
Definition subscript (d : dict) (k : string) : result value :=
  match d !! k with Some v => Ok v | None => Raise (KeyError k) end.

(** The integer behind a number or a boolean. *)
Definition as_int (v : value) : option Z :=
  match v with
  | VInt z => Some z
  | VBool b => Some (if b then 1 else 0)
  | _ => None
  end.

(** [a == b] on JSON data: structural equality, numbers by value. *)
Fixpoint py_eq (a b : value) {struct a} : bool :=
  match a, b with
  | VNone, VNone => true
  | (VInt _ | VBool _), (VInt _ | VBool _) =>
      bool_decide (as_int a = as_int b)
  | VStr x, VStr y => String.eqb x y
  | VList la, VList lb =>
      (fix go (la lb : list value) {struct la} : bool :=
         match la, lb with
         | [], [] => true
         | x :: la', y :: lb' => py_eq x y && go la' lb'
         | _, _ => false
         end) la lb
  | VDict ma, VDict mb =>
      map_fold (fun _ (ok : bool) acc => ok && acc) true
        (merge (fun (x y : option value) =>
                  match x, y with
                  | Some u, Some v => Some (py_eq u v)
                  | None, None => None
                  | _, _ => Some false
                  end) ma mb)
  | _, _ => false
  end.

(** [a > b].  Numbers by value, text by code point (for UTF-8 text that is
    the byte order of [String.compare]), lists lexicographically; every
    other pairing raises TypeError. *)
Fixpoint py_gt (a b : value) {struct a} : result bool :=
  match a, b with
  | (VInt _ | VBool _), (VInt _ | VBool _) =>
      match as_int a, as_int b with
      | Some x, Some y => Ok (y <? x)
      | _, _ => Raise TypeError
      end
  | VStr x, VStr y => Ok (String.ltb y x)
  | VList la, VList lb =>
      (fix go (la lb : list value) {struct la} : result bool :=
         match la, lb with
         | [], _ => Ok false
         | _ :: _, [] => Ok true
         | x :: la', y :: lb' => if py_eq x y then go la' lb' else py_gt x y
         end) la lb
  | _, _ => Raise TypeError
  end.

(** [max(a, b)]: the first argument unless the second is greater. *)
Definition py_max (a b : value) : result value :=
  gt ← py_gt b a;
  Ok (if gt : bool then b else a).

(** ** Stream classes and instances (source-snapchat-marketing) *)

(** Which class body a stream class inherits its methods from. *)
Inductive stream_base : Type :=
  | SnapchatMarketingStream
  | IncrementalSnapchatMarketingStream
  | AdaccountStatsStream.

(** A stream class: its [__name__], the stream [name] the CDK derives from
    it, and the class attributes the code reads. *)
Inductive stream_class : Type := StreamClass {
  __name__ : string;
  name : string;
  base : stream_base;
  cursor_field : string;
  depends_on_stream : option stream_class;
  slice_key_names : list string
}.

Definition Organizations : stream_class :=
  StreamClass "Organizations" "organizations" SnapchatMarketingStream
    "" None [].
Definition incremental (cls_name stream_name : string)
    (depends_on : stream_class) : stream_class :=
  StreamClass cls_name stream_name IncrementalSnapchatMarketingStream
    "updated_at" (Some depends_on) ["id"].
Definition Adaccounts : stream_class :=
  incremental "Adaccounts" "adaccounts" Organizations.
Definition Creatives : stream_class :=
  incremental "Creatives" "creatives" Adaccounts.
Definition Media : stream_class := incremental "Media" "media" Adaccounts.
Definition Campaigns : stream_class :=
  incremental "Campaigns" "campaigns" Adaccounts.
Definition Ads : stream_class := incremental "Ads" "ads" Adaccounts.
Definition Adsquads : stream_class :=
  incremental "Adsquads" "adsquads" Adaccounts.
Definition Segments : stream_class :=
  incremental "Segments" "segments" Adaccounts.
Definition AdaccountStats : stream_class :=
  StreamClass "AdaccountStats" "adaccount_stats" AdaccountStatsStream
    "end_time" (Some Adaccounts) ["id"; "timezone"].

(** A stream object: its class and its instance attributes. *)
Record stream : Type := Stream {
  cls : stream_class;
  start_date : string;
  granularity : value;
  last_slice : option dict;
  current_slice : option dict;
  first_run : bool
}.

(** ** Incremental state *)

(** [IncrementalSnapchatMarketingStream.get_updated_state] *)
Definition get_updated_state (self : stream) (current_stream_state : dict)
    (latest_record : dict) : result dict :=
  let cursor_field := cursor_field (cls self) in
  let current_stream_state :=
    if negb (dict_truthy current_stream_state)
    then {[ cursor_field := VStr (start_date self) ]}
    else current_stream_state in
  m ← py_max (dict_get latest_record cursor_field (VStr ""))
             (dict_get current_stream_state cursor_field (VStr ""));
  Ok {[ cursor_field := m ]}.

(** The state after a run: [get_updated_state] applied to each record in
    turn, each call receiving the state the previous one returned. *)
Fixpoint fold_updated_state (self : stream) (stream_state : dict)
    (records : list dict) : result dict :=
  match records with
  | [] => Ok stream_state
  | latest_record :: records' =>
      stream_state' ← get_updated_state self stream_state latest_record;
      fold_updated_state self stream_state' records'
  end.

(** The cursor value the code reads from a record, and from a state (the
    start date stands in for an empty state). *)
Definition record_cursor (self : stream) (record : dict) : value :=
  dict_get record (cursor_field (cls self)) (VStr "").
Definition state_cursor (self : stream) (stream_state : dict) : value :=
  if dict_truthy stream_state
  then dict_get stream_state (cursor_field (cls self)) (VStr "")
  else VStr (start_date self).

(** The greater of two texts, as [max(VStr a, VStr b)] picks it. *)
Definition str_max (a b : string) : string :=
  if String.ltb a b then b else a.

(** [m] is the greatest of the texts [l]. *)
Definition is_maximum (m : string) (l : list string) : Prop :=
  m ∈ l ∧ ∀ c, c ∈ l → String.leb c m = true.

(** [record[cursor_field] > stream_state.get(cursor_field)] applied to
    each record a generator yields: the records that pass are yielded until
    a lookup or a comparison raises, or the source generator does. *)
Fixpoint filter_by_cursor (cursor_field : string) (stream_state : dict)
    (records : list dict) (ending : option exn) : gen dict :=
  match records with
  | [] => Gen [] ending
  | record :: records' =>
      match c ← subscript record cursor_field;
            py_gt c (dict_get stream_state cursor_field VNone) with
      | Raise e => Gen [] (Some e)
      | Ok true =>
          let rest := filter_by_cursor cursor_field stream_state records' ending in
          Gen (record :: yielded rest) (raised rest)
      | Ok false => filter_by_cursor cursor_field stream_state records' ending
      end
  end.

(** ** The run's state and the outside world *)

(** An error written by [self.logger.error]: the three values the
    f-string of [stream_slices] interpolates. *)
Inductive log_record : Type :=
  | KeysNotFound (slice_key_names : list string) (depends_on : string)
      (stream_name : string).

(** The module-level [auxiliary_record_map], the logger's output, and the
    reads made through the HTTP layer so far (class name and slice), oldest
    first.  A cached list is handed to the callers as it is; none of them
    changes it. *)
Record world : Type := World {
  auxiliary_record_map : gmap string (list (option dict));
  logger : list log_record;
  reads : list (string * option dict)
}.

Definition M (A : Type) : Type := world → result A * world.

#[global] Instance M_ret : MRet M := fun _ a w => (Ok a, w).
#[global] Instance M_bind : MBind M :=
  fun _ _ f m w =>
    match m w with
    | (Ok a, w') => f a w'
    | (Raise e, w') => (Raise e, w')
    end.

Definition lift {A : Type} (r : result A) : M A := fun w => (r, w).

(** What the sources call but do not define. *)
Class Runtime : Type := {
  (** [HttpStream.read_records] of the CDK for one stream and slice: the
      records of all pages, or those yielded before a request or
      [parse_response] raised.  The first argument counts the reads made
      before this one, so the API may answer differently each time. *)
  http_read_records : nat → stream → option dict → gen dict;
  (** The pagination loop of [AdaccountStats.read_records] for one
      breakdown level and its fields: the list [parsed_responses], or the
      exception that ended the loop. *)
  stats_parsed_responses :
    nat → stream → option dict → string → string → result (list dict);
  (** The items of [properties.breakdown_stats.properties] of the stream's
      JSON schema, in file order: each breakdown level with the
      comma-joined names of its stats properties. *)
  breakdown_entities : list (string * string);
  (** [pendulum.parse(d).to_rfc3339_string()] *)
  to_rfc3339_string : string → string;
  (** [pendulum]'s date-times, with [pendulum.parse(d).in_timezone(tz)],
      [pendulum.now(tz)] and [start_of(unit)]; a time zone is whatever the
      slice holds under ["timezone"]. *)
  datetime : Type;
  parse_in_timezone : string → value → result datetime;
  now : value → result datetime;
  start_of : string → datetime → datetime;
  (** [dict(parse_qsl(urlparse(link).query))["cursor"]] *)
  query_cursor : value → result string;
  (** [int(s)] and [repr(v)] *)
  int_of_text : string → result Z;
  py_repr : value → string
}.

(** The keyword arguments [get_depend_on_records] builds a parent stream
    from; the authenticator is passed along untouched and left out.  The
    start date is the [start_date] attribute of the stream that resolves
    its parent ([stream_slices] passes [self.start_date]): text that
    [pendulum] wrote and reads again. *)
Record stream_config : Type := StreamConfig { config_start_date : string }.

(** Calling the class [depends_on_stream] on the keyword arguments
    [depends_on_stream_config]: [AdaccountStats] cannot be built without
    its [granularity]. *)
Definition new_stream `{Runtime} (c : stream_class)
    (depends_on_stream_config : stream_config) : result stream :=
  match base c with
  | AdaccountStatsStream => Raise TypeError
  | _ =>
      Ok (Stream c (to_rfc3339_string (config_start_date depends_on_stream_config))
            VNone None None true)
  end.

Definition set_current_slice (self : stream) (s : option dict) : stream :=
  Stream (cls self) (start_date self) (granularity self) (last_slice self)
    s (first_run self).
Definition set_last_slice (self : stream) (s : option dict) : stream :=
  Stream (cls self) (start_date self) (granularity self) s
    (current_slice self) (first_run self).

(** A read through the CDK's [HttpStream.read_records]. *)
Definition http_read `{Runtime} (self : stream) (stream_slice : option dict)
    : M (gen dict) :=
  fun w =>
    (Ok (http_read_records (length (reads w)) self stream_slice),
     World (auxiliary_record_map w) (logger w)
       (reads w ++ [(__name__ (cls self), stream_slice)])).

(** ** Reading records *)

(** [IncrementalSnapchatMarketingStream.read_records] *)
Definition Incremental_read_records `{Runtime} (self : stream)
    (stream_state : option dict) (stream_slice : option dict)
    : M (stream * gen dict) :=
  let self := set_current_slice self stream_slice in
  records ← http_read self stream_slice;
  match stream_state with
  | Some state =>
      if dict_truthy state
      then mret (self, filter_by_cursor (cursor_field (cls self)) state
                         (yielded records) (raised records))
      else mret (self, records)
  | None => mret (self, records)
  end.

(** ** Account statistics: merging the breakdown levels *)

(** An insertion-ordered dict from text to records ([merged_response]). *)
Abbreviation odict := (list (string * dict)).

Fixpoint od_lookup (k : string) (d : odict) : option dict :=
  match d with
  | [] => None
  | (k', v) :: d' => if decide (k = k') then Some v else od_lookup k d'
  end.

(** Replace the value at an existing key, which keeps its position. *)
Fixpoint od_replace (k : string) (v : dict) (d : odict) : odict :=
  match d with
  | [] => []
  | (k', v') :: d' =>
      if decide (k = k') then (k', v) :: d' else (k', v') :: od_replace k v d'
  end.

(** ["".join(parts)] *)
Fixpoint str_join (parts : list value) : result string :=
  match parts with
  | [] => Ok ""
  | VStr s :: parts' => rest ← str_join parts'; Ok (s +:+ rest)
  | _ :: _ => Raise TypeError
  end.

(** An operand unpacked into a dict display must be a mapping. *)
Definition as_mapping (v : value) : result dict :=
  match v with VDict m => Ok m | _ => Raise TypeError end.

Definition account_stats_key (resp : dict) : result string :=
  str_join [dict_get resp "id" VNone; dict_get resp "type" VNone;
            dict_get resp "start_time" VNone; dict_get resp "end_time" VNone].

(** The body of [for resp in parsed_responses].  The entry stored under a
    fresh key is the parsed record itself; the loop visits each parsed
    record once, so updating that record in place is replacing the value
    of its entry. *)
Definition merge_response (merged_response : odict) (resp : dict)
    : result odict :=
  account_stats_key ← account_stats_key resp;
  match od_lookup account_stats_key merged_response with
  | Some existing =>
      old ← as_mapping (dict_get existing "breakdown_stats" (VDict ∅));
      new ← as_mapping (dict_get resp "breakdown_stats" (VDict ∅));
      Ok (od_replace account_stats_key
            (<["breakdown_stats" := VDict (new ∪ old)]> existing)
            merged_response)
  | None => Ok (merged_response ++ [(account_stats_key, resp)])
  end.

Fixpoint merge_responses (merged_response : odict)
    (parsed_responses : list dict) : result odict :=
  match parsed_responses with
  | [] => Ok merged_response
  | resp :: rest =>
      merged_response' ← merge_response merged_response resp;
      merge_responses merged_response' rest
  end.

(** The same loop over whatever [parse_response] yielded: a parsed item
    that is not a JSON object has no [get], so the first statement of the
    body raises AttributeError. *)
Definition merge_parsed_response (merged_response : odict) (resp : value)
    : result odict :=
  match resp with
  | VDict resp => merge_response merged_response resp
  | _ => Raise AttributeError
  end.

Fixpoint merge_parsed_responses (merged_response : odict)
    (parsed_responses : list value) : result odict :=
  match parsed_responses with
  | [] => Ok merged_response
  | resp :: rest =>
      merged_response' ← merge_parsed_response merged_response resp;
      merge_parsed_responses merged_response' rest
  end.

(** One pass of the pagination loop, as the HTTP layer answers it. *)
Definition stats_fetch `{Runtime} (self : stream) (stream_slice : option dict)
    (breakdown_level stats_fields : string) : M (list dict) :=
  fun w =>
    (stats_parsed_responses (length (reads w)) self stream_slice
       breakdown_level stats_fields,
     World (auxiliary_record_map w) (logger w)
       (reads w ++ [(__name__ (cls self), stream_slice)])).

(** The loop [for breakdown_level, breakdown_fields in ...]. *)
Fixpoint merge_breakdown_levels `{Runtime} (self : stream)
    (stream_slice : option dict) (levels : list (string * string))
    (merged_response : odict) : M odict :=
  match levels with
  | [] => mret merged_response
  | (breakdown_level, stats_fields) :: levels' =>
      parsed_responses ← stats_fetch self stream_slice breakdown_level stats_fields;
      merged_response' ← lift (merge_responses merged_response parsed_responses);
      merge_breakdown_levels self stream_slice levels' merged_response'
  end.

(** [AdaccountStats.read_records]: the values of [merged_response].  The
    stream state only travels to the request builders, which ignore it. *)
Definition AdaccountStats_read_records `{Runtime} (self : stream)
    (stream_state : option dict) (stream_slice : option dict)
    : M (list dict) :=
  merged_response ← merge_breakdown_levels self stream_slice breakdown_entities [];
  mret (merged_response.*2).

(** [self.read_records(stream_state=..., stream_slice=...)], by the class
    that defines it. *)
Definition read_records `{Runtime} (self : stream)
    (stream_state : option dict) (stream_slice : option dict)
    : M (stream * gen dict) :=
  match base (cls self) with
  | SnapchatMarketingStream =>
      records ← http_read self stream_slice; mret (self, records)
  | IncrementalSnapchatMarketingStream =>
      Incremental_read_records self stream_state stream_slice
  | AdaccountStatsStream =>
      fun w =>
        match AdaccountStats_read_records self stream_state stream_slice w with
        | (Ok records, w') => (Ok (self, Gen records None), w')
        | (Raise e, w') => (Ok (self, Gen [] (Some e)), w')
        end
  end.

(** ** Parent identifiers and slices *)

(** [default_stream_slices_return_value] *)
Definition default_stream_slices_return_value : list (option dict) := [None].

(** [{key_name: record[key_name] for key_name in slice_key_names}] *)
Fixpoint extract_slice (record : dict) (slice_key_names : list string)
    (stream_slice : dict) : result dict :=
  match slice_key_names with
  | [] => Ok stream_slice
  | key_name :: rest =>
      v ← subscript record key_name;
      extract_slice record rest (<[key_name := v]> stream_slice)
  end.

(** The loop [for record in records]: one slice appended per record, until
    a key is missing or the generator itself raises. *)
Fixpoint append_slices (slice_key_names : list string) (records : list dict)
    (ending : option exn) (depend_on_stream_records : list (option dict))
    : result (list (option dict)) :=
  match records with
  | [] =>
      match ending with
      | Some e => Raise e
      | None => Ok depend_on_stream_records
      end
  | record :: records' =>
      stream_slice ← extract_slice record slice_key_names ∅;
      append_slices slice_key_names records' ending
        (depend_on_stream_records ++ [Some stream_slice])
  end.

(** The loop [for depend_on_stream_slice in depend_on_stream_slices], given
    the stream's [read_records]. *)
Fixpoint read_slices
    (read_records : stream → option dict → option dict → M (stream * gen dict))
    (slice_key_names : list string) (depend_on_stream : stream)
    (depend_on_stream_slices : list (option dict)) (ending : option exn)
    (depend_on_stream_records : list (option dict))
    : M (list (option dict)) :=
  match depend_on_stream_slices with
  | [] =>
      match ending with
      | Some e => lift (Raise e)
      | None => mret depend_on_stream_records
      end
  | depend_on_stream_slice :: slices' =>
      '(depend_on_stream, records) ←
        (if opt_truthy depend_on_stream_slice
         then read_records depend_on_stream None depend_on_stream_slice
         else read_records depend_on_stream None None);
      depend_on_stream_records ←
        lift (append_slices slice_key_names (yielded records) (raised records)
                depend_on_stream_records);
      read_slices read_records slice_key_names depend_on_stream slices' ending
        depend_on_stream_records
  end.

(** [get_depend_on_records], given the [stream_slices] method of stream
    objects (the two functions call each other). *)
Definition get_depend_on_records_with `{Runtime}
    (stream_slices : stream_class → stream → M (stream * gen (option dict)))
    (depends_on_stream : option stream_class)
    (depends_on_stream_config : stream_config)
    (slice_key_names : list string) : M (list (option dict)) :=
  match depends_on_stream with
  | None => mret default_stream_slices_return_value
  | Some parent =>
      fun w =>
        match auxiliary_record_map w !! __name__ parent with
        | Some cached => (Ok cached, w)
        | None =>
            (depend_on_stream ← lift (new_stream parent depends_on_stream_config);
             '(depend_on_stream, depend_on_stream_slices) ←
               stream_slices parent depend_on_stream;
             depend_on_stream_records ←
               read_slices read_records slice_key_names depend_on_stream
                 (yielded depend_on_stream_slices)
                 (raised depend_on_stream_slices) [];
             match depend_on_stream_records with
             | [] => mret []
             | _ :: _ =>
                 fun w' =>
                   (Ok depend_on_stream_records,
                    World (<[__name__ parent := depend_on_stream_records]>
                             (auxiliary_record_map w'))
                      (logger w') (reads w'))
             end : M (list (option dict))) w
        end
  end.

(** [stream_slices] of a stream object of class [c].  The base class
    inherits the CDK's [[None]]; the incremental classes resolve their
    parent's identifiers.  After [yield from []] the generator goes on to
    [stream_slices[-1]]. *)
Fixpoint stream_slices_of `{Runtime} (c : stream_class) (self : stream)
    {struct c} : M (stream * gen (option dict)) :=
  match base c with
  | SnapchatMarketingStream => mret (self, Gen [None] None)
  | _ =>
      fun w =>
        let depends_on_stream_config := StreamConfig (start_date self) in
        match get_depend_on_records_with stream_slices_of (depends_on_stream c)
                depends_on_stream_config (slice_key_names c) w with
        | (Raise e, w') => (Ok (self, Gen [] (Some e)), w')
        | (Ok [], w') =>
            match depends_on_stream c with
            | None => (Ok (self, Gen [] (Some AttributeError)), w')
            | Some parent =>
                (Ok (self, Gen [] (Some IndexError)),
                 World (auxiliary_record_map w')
                   (logger w' ++ [KeysNotFound (slice_key_names c)
                                    (__name__ parent) (name c)])
                   (reads w'))
            end
        | (Ok (s :: stream_slices), w') =>
            (Ok (set_last_slice self (List.last (s :: stream_slices) s),
                 Gen (s :: stream_slices) None), w')
        end
  end.

(** [self.stream_slices()] *)
Definition stream_slices `{Runtime} (self : stream)
    : M (stream * gen (option dict)) :=
  stream_slices_of (cls self) self.

(** [get_depend_on_records] *)
Definition get_depend_on_records `{Runtime}
    (depends_on_stream : option stream_class)
    (depends_on_stream_config : stream_config)
    (slice_key_names : list string) : M (list (option dict)) :=
  get_depend_on_records_with stream_slices_of depends_on_stream
    depends_on_stream_config slice_key_names.

(** ** Pagination *)

(** [v.get(k, default)] on any value: only a mapping has [get]. *)
Definition value_get (v : value) (k : string) (default : value) : result value :=
  match v with
  | VDict m => Ok (dict_get m k default)
  | _ => Raise AttributeError
  end.

(** [v[k]] for a text key: a key lookup on a mapping, a TypeError on
    anything else. *)
Definition value_subscript (v : value) (k : string) : result value :=
  match v with
  | VDict m => subscript m k
  | _ => Raise TypeError
  end.

(** [SnapchatMarketingStream.next_page_token], on [response.json()]. *)
Definition next_page_token `{Runtime} (response_json : value)
    : result (option dict) :=
  next_page_cursor ← value_get response_json "paging" (VBool false);
  if truthy next_page_cursor
  then
    next_link ← value_subscript next_page_cursor "next_link";
    cursor ← query_cursor next_link;
    Ok (Some {[ "cursor" := VStr cursor ]})
  else Ok None.

(** [SnapchatMarketingStream.request_params]: [next_page_token or {}] *)
Definition request_params (next_page_token : option dict) : dict :=
  if opt_truthy next_page_token then default ∅ next_page_token else ∅.

Module Freshchat.

(** [int(v)] *)
Definition py_int `{Runtime} (v : value) : result Z :=
  match v with
  | VInt z => Ok z
  | VBool b => Ok (if b then 1 else 0)
  | VStr s => int_of_text s
  | _ => Raise TypeError
  end.

(** [FreshchatStream.next_page_token], on [response.json()]. *)
Definition next_page_token `{Runtime} (response_json : value)
    : result (option dict) :=
  pagination ← value_get response_json "pagination" (VDict ∅);
  current_page ← value_get pagination "current_page" VNone ≫= py_int;
  total_pages ← value_get pagination "total_pages" VNone ≫= py_int;
  if current_page <? total_pages
  then Ok (Some {[ "page" := VInt (current_page + 1) ]})
  else Ok None.

End Freshchat.

(** ** Account statistics: requests *)

(** [AdaccountStats.response_root_name]; every other class answers with
    its stream name.  In the last branch the ValueError is built and
    dropped. *)
Definition response_root_name (self : stream) : result value :=
  match base (cls self) with
  | AdaccountStatsStream =>
      let root_name := VNone in
      let root_name :=
        if py_eq (granularity self) (VStr "TOTAL") then VStr "total_stats"
        else if py_eq (granularity self) (VStr "LIFETIME")
        then VStr "lifetime_stats"
        else if py_eq (granularity self) (VStr "DAY")
                || py_eq (granularity self) (VStr "HOUR")
        then VStr "timeseries_stats"
        else let _ := ValueError in root_name in
      Ok root_name
  | _ => Ok (VStr (name (cls self)))
  end.

(** A value of the request parameters: JSON data, [None], or a date-time. *)
Inductive param `{Runtime} : Type :=
  | ParamNone
  | ParamDatetime (d : datetime)
  | ParamValue (v : value).

(** [AdaccountStats._get_rounded_datetime] *)
Definition _get_rounded_datetime `{Runtime} (datetime : string)
    (timezone : value) (granularity : value) : result param :=
  result ← (if negb (String.eqb datetime "")
            then parse_in_timezone datetime timezone
            else now timezone);
  if py_eq granularity (VStr "LIFETIME") then Ok ParamNone
  else if py_eq granularity (VStr "DAY")
  then Ok (ParamDatetime (start_of "day" result))
  else Ok (ParamDatetime (start_of "hour" result)).

(** The first statement of [AdaccountStats.request_params]: the time zone
    of the slice, [None] without one. *)
Definition account_timezone (stream_slice : option dict) : value :=
  match stream_slice with
  | Some s => if dict_truthy s then dict_get s "timezone" VNone else VNone
  | None => VNone
  end.

(** [AdaccountStats.request_params] *)
Definition AdaccountStats_request_params `{Runtime} (self : stream)
    (stream_state : dict) (stream_slice : option dict)
    (next_page_token : option dict) : result (gmap string param) :=
  let account_timezone := account_timezone stream_slice in
  start_time ← _get_rounded_datetime (start_date self) account_timezone
                  (granularity self);
  end_time ← _get_rounded_datetime "" account_timezone (granularity self);
  Ok (<["granularity" := ParamValue (granularity self)]>
        (<["end_time" := end_time]> {[ "start_time" := start_time ]})).

(** [p is None] *)
Definition param_is_none `{Runtime} (p : param) : bool :=
  match p with
  | ParamNone | ParamValue VNone => true
  | _ => false
  end.

(** The query string [requests] encodes from [params] when the request is
    prepared: a parameter whose value is [None] is left out. *)
Definition encode_params `{Runtime} (params : gmap string param)
    : gmap string param :=
  filter (fun kv => param_is_none kv.2 = false) params.

(** The query of the request that one pass of the loop in
    [AdaccountStats.read_records] sends: [_create_prepared_request] with
    [params=self.request_params(...)], then [prepare_url] adding
    [breakdown] and [fields]. *)
Definition stats_request_query `{Runtime} (self : stream)
    (stream_state : dict) (stream_slice next_page_token : option dict)
    (breakdown_level stats_fields : string) : result (gmap string param) :=
  params ← AdaccountStats_request_params self stream_state stream_slice
              next_page_token;
  Ok (<["fields" := ParamValue (VStr stats_fields)]>
        (<["breakdown" := ParamValue (VStr breakdown_level)]>
           (encode_params params))).

(** ** Refreshing the access token *)

(** What [requests.request] hands back: [response.json()] and
    [response.raise_for_status()], each a value or an exception. *)
Record http_response : Type := HttpResponse {
  json : result value;
  raise_for_status : result unit
}.

(** [str(v)] *)
Definition py_str `{Runtime} (v : value) : string :=
  match v with VStr s => s | _ => py_repr v end.

(** [k in v] for a text [k] *)
Definition value_contains (k : string) (v : value) : result bool :=
  match v with
  | VDict m => Ok (bool_decide (is_Some (m !! k)))
  | VList l => Ok (existsb (py_eq (VStr k)) l)
  | VStr s => Ok (match String.index 0 k s with Some _ => true | None => false end)
  | _ => Raise TypeError
  end.

(** The [except requests.exceptions.RequestException as e] clause, entered
    with the value [response_json] has at that point. *)
Definition refresh_handler `{Runtime} (response_json : value) (e : exn)
    : result (value * value) :=
  match e with
  | RequestException text =>
      has_error ← (if truthy response_json
                   then value_contains "error" response_json
                   else Ok false);
      if has_error : bool
      then
        error ← value_subscript response_json "error";
        error_description ← value_subscript response_json "error_description";
        Raise (Exception
                 ("Error refreshing access token. Error: " +:+ py_str error +:+
                  "; Error details: " +:+ py_str error_description +:+
                  "; Exception: " +:+ text))
      else Raise (Exception ("Error refreshing access token: " +:+ text))
  | _ => Raise e
  end.

(** [SnapchatAdsOauth2Authenticator.refresh_access_token], given what the
    POST to the token endpoint does. *)
Definition refresh_access_token `{Runtime} (request : result http_response)
    : result (value * value) :=
  let response_json := VNone in
  match request with
  | Raise e => refresh_handler response_json e
  | Ok response =>
      match json response with
      | Raise e => refresh_handler response_json e
      | Ok response_json =>
          match raise_for_status response with
          | Raise e => refresh_handler response_json e
          | Ok _ =>
              access_token ← value_subscript response_json "access_token";
              expires_in ← value_subscript response_json "expires_in";
              Ok (access_token, expires_in)
          end
      end
  end.

(** ** Parsing responses *)

(** The order in which Python walks the keys of a dict is the order of
    their insertion, which a [gmap] does not record. *)
Class Iteration : Type := {
  keys_in_order : dict → list string;
  keys_in_order_keys : ∀ m, keys_in_order m ≡ₚ (map_to_list m).*1
}.

(** A byte of the form 10xxxxxx: in UTF-8, a byte that continues a
    character. *)
Definition is_continuation (a : Ascii.ascii) : bool :=
  let n := Ascii.N_of_ascii a in ((128 <=? n)%N && (n <? 192)%N)%bool.

(** The characters of the text after the continuation bytes it starts
    with, and those bytes. *)
Fixpoint code_points (s : string) : string * list string :=
  match s with
  | EmptyString => (EmptyString, [])
  | String a s' =>
      let '(continuation, l) := code_points s' in
      if is_continuation a then (String a continuation, l)
      else (EmptyString, String a continuation :: l)
  end.

(** The characters of a text, one code point each. *)
Definition characters (s : string) : list string :=
  let '(continuation, l) := code_points s in
  match continuation with
  | EmptyString => l
  | _ => continuation :: l
  end.

(** [iter(v)], run to its end. *)
Definition py_iter `{Iteration} (v : value) : result (list value) :=
  match v with
  | VList l => Ok l
  | VDict m => Ok (VStr <$> keys_in_order m)
  | VStr s => Ok (VStr <$> characters s)
  | _ => Raise TypeError
  end.

(** [s[:-1]] *)
Definition drop_last_char (s : string) : string :=
  String.concat EmptyString (removelast (characters s)).

(** [Media] is the one class that overrides [response_item_name]. *)
Definition overrides_response_item_name (c : stream_class) : bool :=
  String.eqb (__name__ c) "Media" &&
  match base c with IncrementalSnapchatMarketingStream => true | _ => false end.

(** [response_item_name]: [self.response_root_name[:-1]], and for [Media]
    the root name itself.  [None] cannot be sliced. *)
Definition response_item_name (self : stream) : result string :=
  root_name ← response_root_name self;
  match root_name with
  | VStr s =>
      if overrides_response_item_name (cls self) then Ok s
      else Ok (drop_last_char s)
  | _ => Raise TypeError
  end.

(** [d.get(k)] where the key may be [None]: JSON objects have text keys
    only, lists and dicts cannot be hashed. *)
Definition value_get_key (v : value) (k : value) : result value :=
  match v with
  | VDict m =>
      match k with
      | VStr s => Ok (dict_get m s VNone)
      | VList _ | VDict _ => Raise TypeError
      | _ => Ok VNone
      end
  | _ => Raise AttributeError
  end.

(** The text [parse_response] logs and raises. *)
Definition absent_field_text (response_item_name stream_name : string) : string :=
  "JSON field named '" +:+ response_item_name +:+
  "' is absent in the response for " +:+ stream_name +:+ " stream".

(** The loop [for resp in json_response] of [parse_response]: the items
    yielded, the exception that ended the generator, and the texts written
    by [self.logger.error]. *)
Fixpoint parse_items (self : stream) (json_response : list value)
    : gen value * list string :=
  match json_response with
  | [] => (Gen [] None, [])
  | resp :: rest =>
      match response_item_name self with
      | Raise e => (Gen [] (Some e), [])
      | Ok item_name =>
          match value_contains item_name resp with
          | Raise e => (Gen [] (Some e), [])
          | Ok false =>
              let error_text := absent_field_text item_name (name (cls self)) in
              (Gen [] (Some (SnapchatMarketingException error_text)), [error_text])
          | Ok true =>
              match value_get resp item_name VNone with
              | Raise e => (Gen [] (Some e), [])
              | Ok item =>
                  let '(items, errors) := parse_items self rest in
                  (Gen (item :: yielded items) (raised items), errors)
              end
          end
      end
  end.

(** [SnapchatMarketingStream.parse_response], on [response.json()]. *)
Definition parse_response `{Iteration} (self : stream) (response_json : value)
    : gen value * list string :=
  match (root_name ← response_root_name self;
         json_response ← value_get_key response_json root_name;
         py_iter json_response) with
  | Raise e => (Gen [] (Some e), [])
  | Ok json_response => parse_items self json_response
  end.

(** ** Checking the connection *)

(** The [try] statement of both [check_connection] methods: the request
    and its status check succeed, or raise. *)
Definition try_request (attempt : result unit) : result (bool * option exn) :=
  match attempt with
  | Ok _ => Ok (true, None)
  | Raise (RequestException text) => Ok (false, Some (RequestException text))
  | Raise e => Raise e
  end.

(** [SnapchatAdsOauth2Authenticator.__init__]: the three settings it reads. *)
Definition SnapchatAdsOauth2Authenticator (config : dict)
    : result (value * value * value) :=
  client_id ← subscript config "client_id";
  client_secret ← subscript config "client_secret";
  refresh_token ← subscript config "refresh_token";
  Ok (client_id, client_secret, refresh_token).

(** [SourceSnapchatMarketing.check_connection], given what
    [auth.get_access_token()] does and what [requests.get] does with a URL
    and a bearer token. *)
Definition check_connection (config : dict) (get_access_token : result value)
    (requests_get : string → value → result http_response)
    : result (bool * option exn) :=
  try_request
    (auth ← SnapchatAdsOauth2Authenticator config;
     token ← get_access_token;
     session ← requests_get "https://adsapi.snapchat.com/v1/me" token;
     raise_for_status session).

(** ** source-freshchat: requests, responses and the connection check *)

Module FreshchatStream.

(** A stream object after [__init__]: [records_key] is set. *)
Record stream : Type := Stream {
  name : string;
  order_field : value;
  order_type : string;
  items_per_page : Z;
  records_key : string
}.

(** [Agents], [Channels] and [Groups] keep the attributes of
    [FreshchatStream]. *)
Definition basic (stream_name : string) : stream :=
  Stream stream_name VNone "asc" 100 stream_name.
Definition Agents : stream := basic "agents".
Definition Channels : stream := basic "channels".
Definition Groups : stream := basic "groups".

(** [FreshchatStream.request_params]; the default of [next_page_token] is
    [None], which has no [get]. *)
Definition request_params (self : stream) (next_page_token : option dict)
    : result dict :=
  match next_page_token with
  | None => Raise AttributeError
  | Some token =>
      let params : dict :=
        <["items_per_page" := VInt (items_per_page self)]>
          {[ "page" := dict_get token "page" VNone ]} in
      if truthy (order_field self)
      then Ok (<["sort_order" := VStr (order_type self)]>
                 (<["sort_by" := order_field self]> params))
      else Ok params
  end.

(** [FreshchatStream.parse_response], on [response.json()]. *)
Definition parse_response `{Iteration} (self : stream) (response_json : value)
    : gen value :=
  match (records ← value_get response_json (records_key self) (VList []);
         py_iter records) with
  | Ok records => Gen records None
  | Raise e => Gen [] (Some e)
  end.

End FreshchatStream.

Module SourceFreshchat.

Definition API_REGIONS : gmap string string :=
  {[ "United States" := "api"; "Europe" := "api.eu"; "India" := "api.in";
     "Australia" := "api.au" ]}.

(** [API_REGIONS.get(region)] *)
Definition api_region (region : value) : result (option string) :=
  match region with
  | VStr r => Ok (API_REGIONS !! r)
  | VList _ | VDict _ => Raise TypeError
  | _ => Ok None
  end.

(** The URL the f-string builds; [None] is formatted as its name. *)
Definition channels_url (api_region : option string) : string :=
  "https://" +:+ default "None" api_region +:+ ".freshchat.com/v2/channels".

(** [SourceFreshchat.check_connection], given what [requests.get] does with
    a URL and a bearer token. *)
Definition check_connection (config : dict)
    (requests_get : string → value → result http_response)
    : result (bool * option exn) :=
  token ← subscript config "api_key";
  region ← subscript config "region";
  api_region ← api_region region;
  try_request
    (session ← requests_get (channels_url api_region) token;
     raise_for_status session).

End SourceFreshchat.

(** ** Vocabulary of the properties *)

(** The record's cursor is text strictly greater than [p]. *)
Definition newer_than (cursor_field p : string) (record : dict) : bool :=
  match record !! cursor_field with
  | Some (VStr c) => String.ltb p c
  | _ => false
  end.

(** A read keeps to its stream state: every record it yields has a cursor
    strictly greater than the state's. *)
Definition yields_only_newer `{Runtime} (self : stream) (stream_state : dict)
    (stream_slice : option dict) (w : world) : Prop :=
  ∀ self' records w',
    read_records self (Some stream_state) stream_slice w
    = (Ok (self', records), w') →
    Forall (fun record =>
              py_gt (record_cursor self record) (state_cursor self stream_state)
              = Ok true)
           (yielded records).

(** A parsed stats record the merge accepts: its four key fields are text
    and its [breakdown_stats], when present, is a mapping. *)
Definition is_text (v : option value) : bool :=
  match v with Some (VStr _) => true | _ => false end.
Definition stats_record (resp : dict) : bool :=
  is_text (resp !! "id") && is_text (resp !! "type") &&
  is_text (resp !! "start_time") && is_text (resp !! "end_time") &&
  match resp !! "breakdown_stats" with
  | None | Some (VDict _) => true
  | Some _ => false
  end.

(** The merge key: the four fields, concatenated. *)
Definition text_of (v : option value) : string :=
  match v with Some (VStr s) => s | _ => "" end.
Definition stats_key (resp : dict) : string :=
  text_of (resp !! "id") +:+ text_of (resp !! "type") +:+
  text_of (resp !! "start_time") +:+ text_of (resp !! "end_time").

(** The [breakdown_stats] sub-mapping of a record (empty when absent). *)
Definition breakdown_stats (resp : dict) : dict :=
  match resp !! "breakdown_stats" with Some (VDict m) => m | _ => ∅ end.

(** The earlier record, its [breakdown_stats] replaced by the union of
    both sub-mappings; [∪] on maps keeps the left value of a shared key,
    which is the later record's. *)
Definition absorb (earlier later : dict) : dict :=
  <["breakdown_stats" := VDict (breakdown_stats later ∪ breakdown_stats earlier)]>
    earlier.

(** [merged] holds one entry per distinct key of [parsed]; the entry of a
    key is the first record with that key, having absorbed the later ones
    in order. *)
Definition merged_by_key (parsed : list dict) (merged : odict) : Prop :=
  NoDup merged.*1 ∧
  (∀ k, k ∈ merged.*1 ↔ ∃ resp, resp ∈ parsed ∧ stats_key resp = k) ∧
  (∀ k first later,
     filter (fun resp => stats_key resp = k) parsed = first :: later →
     od_lookup k merged = Some (fold_left absorb later first)).

(** What a run does to the world: the connector's entry points, called in
    any order with any arguments. *)
Inductive action : Type :=
  | CallGetDependOnRecords (depends_on_stream : option stream_class)
      (depends_on_stream_config : stream_config) (slice_key_names : list string)
  | CallStreamSlices (self : stream)
  | CallReadRecords (self : stream) (stream_state stream_slice : option dict).

Definition perform `{Runtime} (a : action) (w : world) : world :=
  match a with
  | CallGetDependOnRecords d config keys =>
      (get_depend_on_records d config keys w).2
  | CallStreamSlices self => (stream_slices self w).2
  | CallReadRecords self stream_state stream_slice =>
      (read_records self stream_state stream_slice w).2
  end.

Definition run `{Runtime} (actions : list action) (w : world) : world :=
  fold_left (fun w a => perform a w) actions w.

(** A computation only ever adds entries to [auxiliary_record_map]. *)
Definition keeps_cache {A : Type} (m : M A) : Prop :=
  ∀ w, auxiliary_record_map w ⊆ auxiliary_record_map (m w).2.

(** The distinct texts of a list, each where it occurs first. *)
Fixpoint first_occurrences (l : list string) : list string :=
  match l with
  | [] => []
  | k :: l' => k :: filter (fun k' => k' ≠ k) (first_occurrences l')
  end.

(** The value a breakdown level has after the records [later] have been
    absorbed one by one: that of the last record that has the level. *)
Definition level_after (level : string) (later : list dict)
    (earlier : option value) : option value :=
  fold_left (fun acc resp =>
               match breakdown_stats resp !! level with
               | Some v => Some v
               | None => acc
               end) later earlier.

(** The HTTP layer answers the fetches of the breakdown levels, made one
    after the other from read number [t] on, with the lists
    [parsed_lists]. *)
Fixpoint levels_answer `{Runtime} (t : nat) (self : stream)
    (stream_slice : option dict) (levels : list (string * string))
    (parsed_lists : list (list dict)) : Prop :=
  match levels, parsed_lists with
  | [], [] => True
  | (breakdown_level, stats_fields) :: levels', parsed_responses :: rest =>
      stats_parsed_responses t self stream_slice breakdown_level stats_fields
      = Ok parsed_responses ∧
      levels_answer (S t) self stream_slice levels' rest
  | _, _ => False
  end.

(** The record cut down to the keys [keys]. *)
Definition project (keys : list string) (record : dict) : dict :=
  filter (fun kv => kv.1 ∈ keys) record.

(** Every slice of the list is a mapping with exactly the keys [keys]. *)
Definition slices_with_keys (keys : list string)
    (slices : list (option dict)) : Prop :=
  Forall (fun s => ∃ d : dict, s = Some d ∧ dom d = (list_to_set keys : gset string))
    slices.

(** Every list in [auxiliary_record_map] is non-empty and holds mappings
    with the same keys. *)
Definition cache_well_formed (w : world) : Prop :=
  map_Forall (fun _ slices => slices ≠ [] ∧ ∃ keys, slices_with_keys keys slices)
    (auxiliary_record_map w).

(** A computation leaves [auxiliary_record_map] as it is. *)
Definition same_cache {A : Type} (m : M A) : Prop :=
  ∀ w, auxiliary_record_map (m w).2 = auxiliary_record_map w.

(** ** Example data *)

Definition empty_world : world := World ∅ [] [].

Module Examples.

(** Two slices of a nested stream, as in the docstring of
    [get_updated_state]. *)
Definition updated_at (t : string) : dict := {[ "updated_at" := VStr t ]}.
Definition slice_1 : list dict :=
  [updated_at "2021-07-22T10:32:05.719Z"; updated_at "2021-07-22T10:47:05.780Z";
   updated_at "2021-07-22T10:42:03.830Z"; updated_at "2021-07-21T12:20:34.927Z"].
Definition slice_2 : list dict :=
  [updated_at "2021-07-07T07:40:09.531Z"; updated_at "2021-06-11T08:04:42.202Z";
   updated_at "2021-06-09T13:12:56.350Z"].
Definition ad_account_id_1 : dict := {[ "id" := VStr "ad_account_id_1" ]}.
Definition ad_account_id_2 : dict := {[ "id" := VStr "ad_account_id_2" ]}.

(** A Creatives stream reading the first of its two slices. *)
Definition creatives : stream :=
  Stream Creatives "2021-01-01T00:00:00+00:00" VNone
    (Some ad_account_id_2) (Some ad_account_id_1) true.
Definition persisted_state : dict := updated_at "2021-07-01T00:00:00.000Z".

(** The stream, state and record of [test_get_updated_state_ad_account_stats]. *)
Definition adaccount_stats : stream :=
  Stream AdaccountStats "2021-11-01T00:00:00+00:00" (VStr "DAY") None None true.
Definition end_time (t : string) : dict := {[ "end_time" := VStr t ]}.

(** The organizations and ad accounts of the unit tests' mocked API: the
    first organization has two ad accounts, the second has none.  The
    creatives of the first account are [slice_1], those of the second
    [slice_2]. *)
Definition organization (id : string) : dict :=
  {[ "id" := VStr id; "type" := VStr "ENTERPRISE" ]}.
Definition adaccount (id updated : string) : dict :=
  {[ "id" := VStr id; "updated_at" := VStr updated; "timezone" := VStr "UTC" ]}.
Definition organizations : list dict :=
  [organization "40d6719b-da09-410b-9185-0cc9c0dfed1d";
   organization "507d7a57-94de-4239-8a74-e93c00ca53e6"].
Definition adaccounts : list dict :=
  [adaccount "8adc3db7-8148-4fbf-999c-8d2266369d74" "2016-08-11T22:03:58.869Z";
   adaccount "81cf9302-764c-429a-8561-e3bc329cf987" "2016-08-12T13:21:47.645Z"].

Definition mocked_read (t : nat) (self : stream) (stream_slice : option dict)
    : gen dict :=
  if String.eqb (__name__ (cls self)) "Organizations"
  then Gen organizations None
  else if String.eqb (__name__ (cls self)) "Adaccounts"
  then match stream_slice with
       | Some s =>
           if py_eq (dict_get s "id" VNone)
                (VStr "40d6719b-da09-410b-9185-0cc9c0dfed1d")
           then Gen adaccounts None
           else Gen [] None
       | None => Gen [] None
       end
  else if String.eqb (__name__ (cls self)) "Creatives"
  then match stream_slice with
       | Some s =>
           if py_eq (dict_get s "id" VNone)
                (VStr "8adc3db7-8148-4fbf-999c-8d2266369d74")
           then Gen slice_1 None
           else Gen slice_2 None
       | None => Gen [] None
       end
  else Gen [] None.

(** One day of account statistics with its campaign breakdown. *)
Definition timeseries_stat (start_time end_time : string) (level : string)
    (spend : Z) : dict :=
  {[ "id" := VStr "8adc3db7-8148-4fbf-999c-8d2266369d74";
     "type" := VStr "AD_ACCOUNT";
     "start_time" := VStr start_time;
     "end_time" := VStr end_time;
     "breakdown_stats" :=
       VDict {[ level := VList [VDict {[ "spend" := VInt spend ]}] ]} ]}.

Definition mocked_stats (t : nat) (self : stream) (stream_slice : option dict)
    (breakdown_level stats_fields : string) : result (list dict) :=
  Ok [timeseries_stat "2021-11-01T00:00:00+00:00" "2021-11-02T00:00:00+00:00"
        breakdown_level 50000000].

(** Date-times as text, rounded by cutting the text; the cursor of a link
    is what follows ["cursor="]. *)
Definition round_text (unit : string) (d : string) : string :=
  if String.eqb unit "day" then String.substring 0 10 d +:+ "T00:00:00"
  else String.substring 0 13 d +:+ ":00:00".
Definition cursor_after (link : value) : result string :=
  match link with
  | VStr url =>
      match String.index 0 "cursor=" url with
      | Some i => Ok (String.substring (i + 7) (String.length url) url)
      | None => Raise (KeyError "cursor")
      end
  | _ => Raise AttributeError
  end.

#[local] Instance mocked_api : Runtime := {|
  http_read_records := mocked_read;
  stats_parsed_responses := mocked_stats;
  breakdown_entities := [("campaign", "spend"); ("adsquad", "spend")];
  to_rfc3339_string := fun d => d;
  datetime := string;
  parse_in_timezone := fun d tz => Ok d;
  now := fun tz => Ok "2021-11-08T09:41:27";
  start_of := round_text;
  query_cursor := cursor_after;
  int_of_text := fun s => Raise ValueError;
  py_repr := fun v => "<value>"
|}.

(** The same API when no organization has an ad account. *)
#[local] Instance no_adaccounts_api : Runtime := {|
  http_read_records := fun t self stream_slice =>
    if String.eqb (__name__ (cls self)) "Organizations"
    then Gen organizations None else Gen [] None;
  stats_parsed_responses := mocked_stats;
  breakdown_entities := [("campaign", "spend"); ("adsquad", "spend")];
  to_rfc3339_string := fun d => d;
  datetime := string;
  parse_in_timezone := fun d tz => Ok d;
  now := fun tz => Ok "2021-11-08T09:41:27";
  start_of := round_text;
  query_cursor := cursor_after;
  int_of_text := fun s => Raise ValueError;
  py_repr := fun v => "<value>"
|}.

(** A Creatives stream before its first use. *)
Definition new_creatives : stream :=
  Stream Creatives "2021-01-01T00:00:00+00:00" VNone None None true.

(** Statistics for two days, the first day at two breakdown levels. *)
Definition parsed_stats : list dict :=
  [timeseries_stat "2021-11-01T00:00:00.000Z" "2021-11-02T00:00:00.000Z"
     "campaign" 50000000;
   timeseries_stat "2021-11-02T00:00:00.000Z" "2021-11-03T00:00:00.000Z"
     "campaign" 40000000;
   timeseries_stat "2021-11-01T00:00:00.000Z" "2021-11-02T00:00:00.000Z"
     "adsquad" 50000000].

(** An AdaccountStats stream with LIFETIME granularity and its slice. *)
Definition lifetime_stats : stream :=
  Stream AdaccountStats "2021-11-01T00:00:00+00:00" (VStr "LIFETIME")
    None None true.
Definition utc_account : dict :=
  {[ "id" := VStr "8adc3db7-8148-4fbf-999c-8d2266369d74";
     "timezone" := VStr "UTC" ]}.

(** A Snapchat response whose paging object has no [next_link], and one
    that has it. *)
Definition paging_without_link : value :=
  VDict {[ "request_status" := VStr "SUCCESS";
           "paging" := VDict {[ "limit" := VInt 50 ]} ]}.
Definition paging_with_link : dict :=
  {[ "next_link" :=
       VStr "https://adsapi.snapchat.com/v1/me/organizations?cursor=CMi7vOkBEg" ]}.

(** A Freshchat response on page 2 of 5. *)
Definition page_2_of_5 : dict :=
  {[ "pagination" := VDict {[ "current_page" := VInt 2; "total_pages" := VInt 5 ]} ]}.

(** The token endpoint rejects the refresh token; the body names the error
    and gives no description (RFC 6749 makes [error_description] optional). *)
Definition invalid_grant : result http_response :=
  Ok (HttpResponse (Ok (VDict {[ "error" := VStr "invalid_grant" ]}))
        (Raise (RequestException "400 Client Error: Bad Request for url"))).

End Examples.

Module MoreExamples.

(** A page of creatives whose third record has no [updated_at]. *)
Definition creatives_page : list dict :=
  [Examples.updated_at "2021-07-22T10:32:05.719Z";
   Examples.updated_at "2021-06-11T08:04:42.202Z";
   {[ "id" := VStr "c3c2a3b0-79b1-4b57-b0ae-7a9a526ea8fd" ]};
   Examples.updated_at "2021-07-22T10:47:05.780Z"].

#[local] Instance gappy_api : Runtime := {|
  http_read_records := fun t self stream_slice => Gen creatives_page None;
  stats_parsed_responses := Examples.mocked_stats;
  breakdown_entities := [("campaign", "spend"); ("adsquad", "spend")];
  to_rfc3339_string := fun d => d;
  datetime := string;
  parse_in_timezone := fun d tz => Ok d;
  now := fun tz => Ok "2021-11-08T09:41:27";
  start_of := Examples.round_text;
  query_cursor := Examples.cursor_after;
  int_of_text := fun s => Raise ValueError;
  py_repr := fun v => "<value>"
|}.

(** The slice of the first ad account of the mocked API. *)
Definition first_account : dict :=
  {[ "id" := VStr "8adc3db7-8148-4fbf-999c-8d2266369d74" ]}.

(** The record of [total_stats] in the unit tests' mocked response. *)
Definition total_stat : dict :=
  {[ "id" := VStr "8adc3db7-8148-4fbf-999c-8d2266369d74";
     "type" := VStr "AD_ACCOUNT";
     "granularity" := VStr "TOTAL";
     "stats" := VDict {[ "spend" := VInt 89196290 ]};
     "finalized_data_end_time" := VStr "2019-08-29T03:00:00.000-07:00" ]}.

(** Python's dict order, for the examples: the keys in the order of the
    map's own enumeration. *)
#[local] Instance enumerated_keys : Iteration := {|
  keys_in_order := fun m => (map_to_list m).*1;
  keys_in_order_keys := fun m => reflexivity _
|}.

(** An organizations stream, and the response the unit tests mock for it,
    cut down to the fields the code reads. *)
Definition organizations_stream : stream :=
  Stream Organizations "2021-01-01T00:00:00+00:00" VNone None None true.
Definition organizations_response : dict :=
  {[ "request_status" := VStr "success";
     "organizations" :=
       VList [VDict {[ "sub_request_status" := VStr "success";
                       "organization" :=
                         VDict (Examples.organization
                                  "40d6719b-da09-410b-9185-0cc9c0dfed1d") ]};
              VDict {[ "sub_request_status" := VStr "success";
                       "organization" :=
                         VDict (Examples.organization
                                  "507d7a57-94de-4239-8a74-e93c00ca53e6") ]}] ]}.

(** The same response when the second entry reports a failure instead of
    an organization. *)
Definition organizations_partial_response : dict :=
  {[ "request_status" := VStr "success";
     "organizations" :=
       VList [VDict {[ "sub_request_status" := VStr "success";
                       "organization" :=
                         VDict (Examples.organization
                                  "40d6719b-da09-410b-9185-0cc9c0dfed1d") ]};
              VDict {[ "sub_request_status" := VStr "ERROR" ]}] ]}.

(** The response the unit tests mock for an account without statistics. *)
Definition empty_stats_response : dict :=
  {[ "request_status" := VStr "success" ]}.

(** The settings of the Snapchat source. *)
Definition snapchat_config : dict :=
  {[ "client_id" := VStr "client-id"; "client_secret" := VStr "client-secret";
     "refresh_token" := VStr "refresh-token";
     "start_date" := VStr "2021-01-01"; "granularity" := VStr "DAY" ]}.

(** The API as before, with [pendulum] rejecting the time zones it does not
    know. *)
#[local] Instance strict_time_zones : Runtime := {|
  http_read_records := Examples.mocked_read;
  stats_parsed_responses := Examples.mocked_stats;
  breakdown_entities := [("campaign", "spend"); ("adsquad", "spend")];
  to_rfc3339_string := fun d => d;
  datetime := string;
  parse_in_timezone := fun d tz =>
    if py_eq tz (VStr "UTC") || py_eq tz VNone then Ok d else Raise ValueError;
  now := fun tz =>
    if py_eq tz (VStr "UTC") || py_eq tz VNone
    then Ok "2021-11-08T09:41:27" else Raise ValueError;
  start_of := Examples.round_text;
  query_cursor := Examples.cursor_after;
  int_of_text := fun s => Raise ValueError;
  py_repr := fun v => "<value>"
|}.

(** An ad account whose time zone [pendulum] does not know. *)
Definition misplaced_account : dict :=
  {[ "id" := VStr "8adc3db7-8148-4fbf-999c-8d2266369d74";
     "timezone" := VStr "America/Los_Angles" ]}.

(** The settings of the Freshchat source with a region that is not in
    [API_REGIONS], and a server that answers every request. *)
Definition freshchat_config : dict :=
  {[ "api_key" := VStr "api-key"; "region" := VStr "Canada" ]}.
Definition always_ok (url : string) (token : value) : result http_response :=
  Ok (HttpResponse (Ok (VDict ∅)) (Ok ())).

(** A Freshchat page of two agents. *)
Definition agents_page : dict :=
  {[ "agents" := VList [VDict {[ "id" := VStr "a-1" ]};
                        VDict {[ "id" := VStr "a-2" ]}];
     "pagination" := VDict {[ "current_page" := VInt 1; "total_pages" := VInt 3 ]} ]}.

(** The API of an account that belongs to no organization. *)
#[local] Instance no_organizations_api : Runtime := {|
  http_read_records := fun t self stream_slice => Gen [] None;
  stats_parsed_responses := Examples.mocked_stats;
  breakdown_entities := [("campaign", "spend"); ("adsquad", "spend")];
  to_rfc3339_string := fun d => d;
  datetime := string;
  parse_in_timezone := fun d tz => Ok d;
  now := fun tz => Ok "2021-11-08T09:41:27";
  start_of := Examples.round_text;
  query_cursor := Examples.cursor_after;
  int_of_text := fun s => Raise ValueError;
  py_repr := fun v => "<value>"
|}.

(** The API when the second organization comes without its [id]. *)
#[local] Instance nameless_organization_api : Runtime := {|
  http_read_records := fun t self stream_slice =>
    Gen [Examples.organization "40d6719b-da09-410b-9185-0cc9c0dfed1d";
         {[ "type" := VStr "ENTERPRISE" ]};
         Examples.organization "507d7a57-94de-4239-8a74-e93c00ca53e6"] None;
  stats_parsed_responses := Examples.mocked_stats;
  breakdown_entities := [("campaign", "spend"); ("adsquad", "spend")];
  to_rfc3339_string := fun d => d;
  datetime := string;
  parse_in_timezone := fun d tz => Ok d;
  now := fun tz => Ok "2021-11-08T09:41:27";
  start_of := Examples.round_text;
  query_cursor := Examples.cursor_after;
  int_of_text := fun s => Raise ValueError;
  py_repr := fun v => "<value>"
|}.

(** A state saved under another cursor field. *)
Definition foreign_state : dict :=
  {[ "created_at" := VStr "2021-07-01T00:00:00.000Z" ]}.

End MoreExamples.

(** * Properties *)

(** ** The order on text *)

Lemma ascii_compare_refl (a : Ascii.ascii) : Ascii.compare a a = Eq.
Proof. unfold Ascii.compare. apply N.compare_refl. Qed.

Lemma string_compare_refl (s : string) : String.compare s s = Eq.
Proof.
  induction s as [|a s IH]; simpl; [done|].
  by rewrite ascii_compare_refl.
Qed.

Lemma string_compare_lt_trans (s1 s2 s3 : string) :
  String.compare s1 s2 = Lt → String.compare s2 s3 = Lt →
  String.compare s1 s3 = Lt.
Proof.
  revert s2 s3.
  induction s1 as [|a1 s1 IH]; intros [|a2 s2] [|a3 s3]; simpl; try done.
  unfold Ascii.compare.
  destruct (N.compare_spec (Ascii.N_of_ascii a1) (Ascii.N_of_ascii a2)) as [E12|L12|G12];
    destruct (N.compare_spec (Ascii.N_of_ascii a2) (Ascii.N_of_ascii a3)) as [E23|L23|G23];
    try done; intros H12 H23.
  - rewrite E12, E23, N.compare_refl. eauto.
  - rewrite E12. by apply N.compare_lt_iff in L23 as ->.
  - rewrite <- E23. by apply N.compare_lt_iff in L12 as ->.
  - assert (Ascii.N_of_ascii a1 < Ascii.N_of_ascii a3)%N as L13 by lia.
    by apply N.compare_lt_iff in L13 as ->.
Qed.

Lemma string_ltb_leb (s1 s2 : string) :
  String.ltb s1 s2 = negb (String.leb s2 s1).
Proof.
  unfold String.ltb, String.leb. rewrite (String.compare_antisym s1 s2).
  by destruct (String.compare s2 s1).
Qed.

Lemma string_leb_refl (s : string) : String.leb s s = true.
Proof. unfold String.leb. by rewrite string_compare_refl. Qed.

Lemma string_leb_trans (s1 s2 s3 : string) :
  String.leb s1 s2 = true → String.leb s2 s3 = true → String.leb s1 s3 = true.
Proof.
  unfold String.leb.
  destruct (String.compare s1 s2) eqn:E12; [| |done];
    destruct (String.compare s2 s3) eqn:E23; try done; intros _ _.
  - apply String.compare_eq_iff in E12 as ->. by rewrite E23.
  - apply String.compare_eq_iff in E12 as ->. by rewrite E23.
  - apply String.compare_eq_iff in E23 as <-. by rewrite E12.
  - by rewrite (string_compare_lt_trans _ _ _ E12 E23).
Qed.

Lemma string_leb_ltb_false (s1 s2 : string) :
  String.ltb s1 s2 = false → String.leb s2 s1 = true.
Proof. rewrite string_ltb_leb. by destruct (String.leb s2 s1). Qed.

Lemma string_ltb_leb_true (s1 s2 : string) :
  String.ltb s1 s2 = true → String.leb s1 s2 = true.
Proof.
  unfold String.ltb, String.leb. by destruct (String.compare s1 s2).
Qed.

Lemma str_max_ge_l (a b : string) : String.leb a (str_max a b) = true.
Proof.
  unfold str_max. destruct (String.ltb a b) eqn:E.
  - by apply string_ltb_leb_true.
  - apply string_leb_refl.
Qed.

Lemma str_max_ge_r (a b : string) : String.leb b (str_max a b) = true.
Proof.
  unfold str_max. destruct (String.ltb a b) eqn:E.
  - apply string_leb_refl.
  - by apply string_leb_ltb_false.
Qed.

Lemma str_max_cases (a b : string) : str_max a b = a ∨ str_max a b = b.
Proof. unfold str_max. destruct (String.ltb a b); auto. Qed.

Lemma is_maximum_unique (m1 m2 : string) (l : list string) :
  is_maximum m1 l → is_maximum m2 l → m1 = m2.
Proof.
  intros [In1 Up1] [In2 Up2]. apply String.leb_antisym; auto.
Qed.

Lemma is_maximum_perm (m : string) (l1 l2 : list string) :
  l1 ≡ₚ l2 → is_maximum m l1 → is_maximum m l2.
Proof.
  intros P [In1 Up1]. split.
  - by rewrite <- P.
  - intros c Hc. apply Up1. by rewrite P.
Qed.

(** Folding [str_max] over a list computes its maximum. *)
Lemma is_maximum_fold (cs : list string) (b : string) :
  is_maximum (fold_left (fun acc c => str_max c acc) cs b) (b :: cs).
Proof.
  revert b. induction cs as [|c cs IH]; intros b; simpl.
  - split; [apply list_elem_of_here|].
    intros x Hx. apply list_elem_of_singleton in Hx as ->.
    apply string_leb_refl.
  - destruct (IH (str_max c b)) as [Hin Up]. split.
    + apply elem_of_cons in Hin as [->|Hin].
      * destruct (str_max_cases c b) as [->| ->].
        -- apply list_elem_of_further, list_elem_of_here.
        -- apply list_elem_of_here.
      * by do 2 apply list_elem_of_further.
    + intros x Hx.
      assert (String.leb (str_max c b)
                (fold_left (fun acc c0 => str_max c0 acc) cs (str_max c b)) = true)
        as Hm by apply Up, list_elem_of_here.
      apply elem_of_cons in Hx as [->|Hx].
      * eapply string_leb_trans; [apply str_max_ge_r|exact Hm].
      * apply elem_of_cons in Hx as [->|Hx].
        -- eapply string_leb_trans; [apply str_max_ge_l|exact Hm].
        -- by apply Up, list_elem_of_further.
Qed.

(** ** Incremental state *)

Lemma py_max_str (a b : string) :
  py_max (VStr a) (VStr b) = Ok (VStr (str_max a b)).
Proof. unfold py_max, str_max. simpl. by destruct (String.ltb a b). Qed.

Lemma dict_truthy_singleton (k : string) (v : value) :
  dict_truthy ({[ k := v ]} : dict) = true.
Proof.
  unfold dict_truthy. rewrite bool_decide_eq_false_2; [done|].
  apply map_non_empty_singleton.
Qed.

Lemma state_cursor_singleton (self : stream) (v : value) :
  state_cursor self {[ cursor_field (cls self) := v ]} = v.
Proof.
  unfold state_cursor, dict_get.
  by rewrite dict_truthy_singleton, lookup_singleton_eq.
Qed.

(** One call on text cursors returns the greater of the two. *)
Lemma get_updated_state_str (self : stream) (st r : dict) (b c : string) :
  state_cursor self st = VStr b →
  record_cursor self r = VStr c →
  get_updated_state self st r
  = Ok {[ cursor_field (cls self) := VStr (str_max c b) ]}.
Proof.
  unfold state_cursor, record_cursor, get_updated_state. intros Hst Hr.
  rewrite Hr. destruct (dict_truthy st); simpl.
  - rewrite Hst, py_max_str. reflexivity.
  - unfold dict_get. rewrite lookup_singleton_eq. injection Hst as <-.
    rewrite py_max_str. reflexivity.
Qed.

Lemma fold_updated_state_str (self : stream) (rs : list dict) :
  ∀ (st : dict) (b : string) (cs : list string),
  state_cursor self st = VStr b →
  Forall2 (fun r c => record_cursor self r = VStr c) rs cs →
  ∃ final,
    fold_updated_state self st rs = Ok final ∧
    state_cursor self final
    = VStr (fold_left (fun acc c => str_max c acc) cs b) ∧
    (rs = [] → final = st) ∧
    (rs ≠ [] → final = {[ cursor_field (cls self) :=
                  VStr (fold_left (fun acc c => str_max c acc) cs b) ]}).
Proof.
  induction rs as [|r rs IH]; intros st b cs Hst Hcs.
  - apply Forall2_nil_inv_l in Hcs as ->. exists st. simpl.
    split; [done|]. split; [done|]. split; [done|]. intros E. by destruct E.
  - apply Forall2_cons_inv_l in Hcs as (c & cs' & Hc & Hcs & ->).
    simpl. rewrite (get_updated_state_str self st r b c Hst Hc). simpl.
    destruct (IH {[ cursor_field (cls self) := VStr (str_max c b) ]}
                (str_max c b) cs' (state_cursor_singleton _ _) Hcs)
      as (final & Hfold & Hcur & Hnil & Hcons).
    exists final. split; [done|]. split; [done|]. split; [done|]. intros _.
    destruct rs as [|r' rs].
    + apply Forall2_nil_inv_l in Hcs as ->. simpl. by apply Hnil.
    + by apply Hcons.
Qed.

(** C1.  Folding [get_updated_state] over the records of all slices, from
    the pre-run state (the start date when that state is empty), ends in a
    state whose cursor is the maximum of the pre-run cursor and all record
    cursors, and every reordering of the records and slices ends in the
    same state. *)
Theorem incremental_state_is_maximum (self : stream) (pre : dict)
    (slices : list (list dict)) (b : string) (cursors : list string) :
  state_cursor self pre = VStr b →
  Forall2 (fun r c => record_cursor self r = VStr c) (concat slices) cursors →
  ∃ final m,
    fold_updated_state self pre (concat slices) = Ok final ∧
    state_cursor self final = VStr m ∧
    (concat slices ≠ [] → final = {[ cursor_field (cls self) := VStr m ]}) ∧
    is_maximum m (b :: cursors) ∧
    ∀ slices' : list (list dict),
      concat slices ≡ₚ concat slices' →
      fold_updated_state self pre (concat slices') = Ok final.
Proof.
  intros Hpre Hcs.
  destruct (fold_updated_state_str self _ pre b cursors Hpre Hcs)
    as (final & Hfold & Hcur & Hnil & Hcons).
  exists final, (fold_left (fun acc c => str_max c acc) cursors b).
  split; [done|]. split; [done|]. split; [done|].
  split; [apply is_maximum_fold|]. intros slices' P.
  destruct (Permutation_Forall2 P Hcs) as (cursors' & P' & Hcs').
  destruct (fold_updated_state_str self _ pre b cursors' Hpre Hcs')
    as (final' & Hfold' & Hcur' & Hnil' & Hcons').
  rewrite Hfold'. f_equal.
  assert (fold_left (fun acc c => str_max c acc) cursors' b
          = fold_left (fun acc c => str_max c acc) cursors b) as Hm.
  { eapply is_maximum_unique; [apply is_maximum_fold|].
    eapply is_maximum_perm; [|apply is_maximum_fold]. by constructor. }
  destruct (concat slices) as [|r rs] eqn:E.
  - apply Permutation_nil_l in P. rewrite P in *.
    by rewrite Hnil, Hnil'.
  - assert (concat slices' ≠ []) as Hne.
    { intros E'. rewrite E' in P. by apply Permutation_nil_r in P. }
    rewrite Hcons, Hcons' by done. by rewrite Hm.
Qed.

Lemma incremental_state_is_maximum_witness :
  ∃ final m,
    fold_updated_state Examples.creatives Examples.persisted_state
      (List.concat [Examples.slice_1; Examples.slice_2]) = Ok final ∧
    state_cursor Examples.creatives final = VStr m ∧
    (List.concat [Examples.slice_1; Examples.slice_2] ≠ [] →
     final = {[ "updated_at" := VStr m ]}) ∧
    is_maximum m
      ["2021-07-01T00:00:00.000Z";
       "2021-07-22T10:32:05.719Z"; "2021-07-22T10:47:05.780Z";
       "2021-07-22T10:42:03.830Z"; "2021-07-21T12:20:34.927Z";
       "2021-07-07T07:40:09.531Z"; "2021-06-11T08:04:42.202Z";
       "2021-06-09T13:12:56.350Z"] ∧
    ∀ slices' : list (list dict),
      List.concat [Examples.slice_1; Examples.slice_2] ≡ₚ List.concat slices' →
      fold_updated_state Examples.creatives Examples.persisted_state
        (List.concat slices') = Ok final.
Proof.
  apply (incremental_state_is_maximum Examples.creatives
           Examples.persisted_state [Examples.slice_1; Examples.slice_2]
           "2021-07-01T00:00:00.000Z").
  - reflexivity.
  - repeat constructor.
Defined.

(** The run of the docstring ends at the first slice's 10:47, whichever
    slice is read first. *)
Lemma docstring_run :
  fold_updated_state Examples.creatives Examples.persisted_state
    (Examples.slice_1 ++ Examples.slice_2)
  = Ok (Examples.updated_at "2021-07-22T10:47:05.780Z") ∧
  fold_updated_state Examples.creatives Examples.persisted_state
    (Examples.slice_2 ++ Examples.slice_1)
  = Ok (Examples.updated_at "2021-07-22T10:47:05.780Z").
Proof. split; reflexivity. Qed.

(** [get_updated_state] never looks at the slice bookkeeping of the
    stream object. *)
Lemma get_updated_state_ignores_slices (self : stream)
    (last current : option dict) (st r : dict) :
  get_updated_state (set_last_slice (set_current_slice self current) last) st r
  = get_updated_state self st r.
Proof. reflexivity. Qed.

(** A record newer than the state moves the state, whatever slice is
    being read. *)
Lemma get_updated_state_advances (self : stream) (st r : dict) (b c : string) :
  state_cursor self st = VStr b →
  record_cursor self r = VStr c →
  String.ltb b c = true →
  get_updated_state self st r = Ok {[ cursor_field (cls self) := VStr c ]} ∧
  {[ cursor_field (cls self) := VStr c ]} ≠ st.
Proof.
  intros Hst Hr Hlt. split.
  - rewrite (get_updated_state_str self st r b c Hst Hr).
    unfold str_max. rewrite string_ltb_leb.
    by rewrite (string_ltb_leb_true b c Hlt).
  - intros <-. rewrite state_cursor_singleton in Hst. injection Hst as ->.
    unfold String.ltb in Hlt. by rewrite string_compare_refl in Hlt.
Qed.

(** C2.  The stream state does change before the last slice is finished.
    A Creatives stream resolves two slices; while it reads the first one
    ([current_slice] is not [last_slice]), [get_updated_state] on the first
    record read returns that record's cursor, not the persisted state. *)
Theorem state_advances_before_last_slice :
  ∃ (self self' : stream) (slice_1 slice_2 : option dict) (w w' : world)
    (record : dict) (records : list dict),
    @stream_slices Examples.mocked_api Examples.new_creatives empty_world
    = (Ok (self, Gen [slice_1; slice_2] None), w) ∧
    last_slice self = slice_2 ∧
    @read_records Examples.mocked_api self (Some Examples.persisted_state)
      slice_1 w
    = (Ok (self', Gen (record :: records) None), w') ∧
    current_slice self' = slice_1 ∧
    current_slice self' ≠ last_slice self' ∧
    get_updated_state self' Examples.persisted_state record
    = Ok (Examples.updated_at "2021-07-22T10:32:05.719Z") ∧
    Examples.updated_at "2021-07-22T10:32:05.719Z" ≠ Examples.persisted_state.
Proof.
  do 8 eexists.
  split; [reflexivity|]. split; [reflexivity|]. split; [reflexivity|].
  split; [reflexivity|]. split; [|split].
  - intros E.
    assert (Some (VStr "8adc3db7-8148-4fbf-999c-8d2266369d74")
            = Some (VStr "81cf9302-764c-429a-8561-e3bc329cf987")) as E'.
    { match type of E with ?a = ?b =>
        change (a ≫= lookup "id" = b ≫= lookup "id") end.
      by rewrite E. }
    discriminate.
  - reflexivity.
  - intros E.
    assert (Some (VStr "2021-07-22T10:32:05.719Z")
            = Some (VStr "2021-07-01T00:00:00.000Z")) as E'.
    { change (Examples.updated_at "2021-07-22T10:32:05.719Z" !! "updated_at"
              = Examples.persisted_state !! "updated_at").
      by rewrite E. }
    discriminate.
Qed.

(** The first assertion of the unit test
    [test_get_updated_state_ad_account_stats] expects the start date back;
    the code returns the cursor of the record. *)
Lemma unit_test_first_call :
  get_updated_state Examples.adaccount_stats ∅
    (Examples.end_time "2021-11-02T00:00:00+00:00")
  = Ok (Examples.end_time "2021-11-02T00:00:00+00:00").
Proof. reflexivity. Qed.

(** ** Reading records *)

(** On text cursors the generator's filter is a plain list filter. *)
Lemma filter_by_cursor_str (cf p : string) (state : dict)
    (records : list dict) (ending : option exn) :
  state !! cf = Some (VStr p) →
  Forall (fun r => ∃ c, r !! cf = Some (VStr c)) records →
  filter_by_cursor cf state records ending
  = Gen (List.filter (newer_than cf p) records) ending.
Proof.
  intros Hst. induction 1 as [|r rs [c Hc] _ IH]; simpl; [done|].
  unfold subscript, dict_get, newer_than. rewrite Hc, Hst. simpl.
  destruct (String.ltb p c); rewrite IH; reflexivity.
Qed.



(** What AdaccountStats reads in the mocked run, with a state of November
    5: the record of November 1, merged over both breakdown levels. *)
Lemma adaccount_stats_read :
  (@read_records Examples.mocked_api Examples.adaccount_stats
     (Some (Examples.end_time "2021-11-05T00:00:00+00:00"))
     (Some Examples.utc_account) empty_world).1
  = Ok (Examples.adaccount_stats,
        Gen [ {[ "id" := VStr "8adc3db7-8148-4fbf-999c-8d2266369d74";
                 "type" := VStr "AD_ACCOUNT";
                 "start_time" := VStr "2021-11-01T00:00:00+00:00";
                 "end_time" := VStr "2021-11-02T00:00:00+00:00";
                 "breakdown_stats" :=
                   VDict {[ "campaign" := VList [VDict {[ "spend" := VInt 50000000 ]}];
                            "adsquad" := VList [VDict {[ "spend" := VInt 50000000 ]}] ]} ]} ]
          None).
Proof. reflexivity. Qed.

(** AdaccountStats has a [read_records] of its own, which returns every
    merged record: here one whose [end_time] lies before the cursor of the
    state it was called with. *)
Lemma adaccount_stats_yields_older_record :
  ¬ @yields_only_newer Examples.mocked_api Examples.adaccount_stats
      (Examples.end_time "2021-11-05T00:00:00+00:00")
      (Some Examples.utc_account) empty_world.
Proof.
  intros Hclaim.
  pose proof (Hclaim _ _ _ eq_refl) as Hall.
  apply Forall_cons in Hall as [Hgt _].
  change (Ok false = Ok true) in Hgt. discriminate.
Qed.

(** C3.  Records are compared with the state of the moment, not with the
    pre-run state.  A Creatives stream resolves two slices and reads the
    first with the persisted state; [get_updated_state], applied to each
    record yielded, leaves the state at the first slice's 10:47.  Read
    with that state, the second slice yields nothing, although its first
    record (2021-07-07) is newer than the persisted state (2021-07-01);
    read with the persisted state it would yield that record. *)
Theorem later_slice_compared_with_running_state :
  let slice_1 := Some MoreExamples.first_account in
  let slice_2 :=
    Some ({[ "id" := VStr "81cf9302-764c-429a-8561-e3bc329cf987" ]} : dict) in
  let self := set_last_slice Examples.new_creatives slice_2 in
  let self1 := set_current_slice self slice_1 in
  let self2 := set_current_slice self1 slice_2 in
  let state1 := Examples.updated_at "2021-07-22T10:47:05.780Z" in
  ∃ w w1 w2 : world,
    @stream_slices Examples.mocked_api Examples.new_creatives empty_world
    = (Ok (self, Gen [slice_1; slice_2] None), w) ∧
    @read_records Examples.mocked_api self (Some Examples.persisted_state)
      slice_1 w
    = (Ok (self1, Gen Examples.slice_1 None), w1) ∧
    fold_updated_state self1 Examples.persisted_state Examples.slice_1
    = Ok state1 ∧
    @http_read_records Examples.mocked_api (length (reads w1)) self2 slice_2
    = Gen Examples.slice_2 None ∧
    List.filter (newer_than "updated_at" "2021-07-01T00:00:00.000Z")
      Examples.slice_2
    = [Examples.updated_at "2021-07-07T07:40:09.531Z"] ∧
    @read_records Examples.mocked_api self1 (Some state1) slice_2 w1
    = (Ok (self2, Gen [] None), w2) ∧
    (@read_records Examples.mocked_api self1 (Some Examples.persisted_state)
       slice_2 w1).1
    = Ok (self2, Gen [Examples.updated_at "2021-07-07T07:40:09.531Z"] None).
Proof.
  intros. do 3 eexists.
  split; [reflexivity|]. split; [reflexivity|]. split; [reflexivity|].
  split; [reflexivity|]. split; [reflexivity|]. split; reflexivity.
Qed.

(** ** Merging account statistics *)

Lemma od_lookup_None (k : string) (d : odict) :
  od_lookup k d = None ↔ k ∉ d.*1.
Proof.
  induction d as [|[k' v] d IH]; cbn [od_lookup].
  - split; [intros _; apply not_elem_of_nil|done].
  - rewrite fmap_cons, not_elem_of_cons. simpl. case_decide; [|tauto].
    split; [done|]. intros [? _]. done.
Qed.

Lemma od_lookup_app (k k' : string) (v : dict) (d : odict) :
  od_lookup k (d ++ [(k', v)])
  = match od_lookup k d with
    | Some x => Some x
    | None => if decide (k = k') then Some v else None
    end.
Proof.
  induction d as [|[k0 v0] d IH]; simpl; [done|].
  destruct (decide (k = k0)); [done|exact IH].
Qed.

Lemma od_replace_keys (k : string) (v : dict) (d : odict) :
  (od_replace k v d).*1 = d.*1.
Proof.
  induction d as [|[k0 v0] d IH]; [done|]. cbn [od_replace].
  case_decide; [done|]. rewrite !fmap_cons. by rewrite IH.
Qed.

Lemma od_lookup_replace (k k' : string) (v : dict) (d : odict) :
  od_lookup k' (od_replace k v d)
  = if decide (k' = k)
    then match od_lookup k d with Some _ => Some v | None => None end
    else od_lookup k' d.
Proof.
  induction d as [|[k0 v0] d IH]; simpl.
  - by case_decide.
  - destruct (decide (k = k0)) as [->|Hk]; simpl.
    + destruct (decide (k' = k0)) as [->|Hk']; simpl; [done|].
      done.
    + destruct (decide (k' = k0)) as [->|Hk'].
      * rewrite decide_False by done. done.
      * exact IH.
Qed.

Lemma str_join_text (vs : list (option value)) :
  forallb is_text vs = true →
  str_join (map (fun v => default VNone v) vs)
  = Ok (foldr (fun v acc => text_of v +:+ acc) "" vs).
Proof.
  induction vs as [|[[]|] vs IH]; simpl; try done.
  intros Hvs. by rewrite (IH Hvs).
Qed.

Lemma string_app_empty (s : string) : s +:+ "" = s.
Proof.
  induction s as [|a s IH]; [done|].
  change (String a (s +:+ "") = String a s). by rewrite IH.
Qed.

Lemma account_stats_key_text (resp : dict) :
  stats_record resp = true → account_stats_key resp = Ok (stats_key resp).
Proof.
  unfold stats_record. rewrite !andb_true_iff.
  intros [[[[Hid Hty] Hst] Hen] _].
  unfold account_stats_key, stats_key.
  rewrite <- (string_app_empty (text_of (resp !! "end_time"))).
  apply (str_join_text [resp !! "id"; resp !! "type"; resp !! "start_time";
                        resp !! "end_time"]).
  simpl. by rewrite Hid, Hty, Hst, Hen.
Qed.

Lemma as_mapping_breakdown_stats (resp : dict) :
  stats_record resp = true →
  as_mapping (dict_get resp "breakdown_stats" (VDict ∅))
  = Ok (breakdown_stats resp).
Proof.
  unfold stats_record, dict_get, breakdown_stats. rewrite !andb_true_iff.
  intros [_ Hbs]. by destruct (resp !! "breakdown_stats") as [[]|].
Qed.

Lemma absorb_stats_record (earlier later : dict) :
  stats_record earlier = true → stats_record (absorb earlier later) = true.
Proof.
  unfold stats_record, absorb. intros Hwf.
  rewrite lookup_insert_eq.
  rewrite !lookup_insert_ne by done.
  rewrite !andb_true_iff in *. tauto.
Qed.

Lemma absorb_stats_key (earlier later : dict) :
  stats_key (absorb earlier later) = stats_key earlier.
Proof. unfold stats_key, absorb. by rewrite !lookup_insert_ne by done. Qed.

(** One step of the merge on accepted records. *)
Lemma merge_response_step (merged_response : odict) (resp : dict) :
  Forall (fun kv => stats_record kv.2 = true) merged_response →
  stats_record resp = true →
  merge_response merged_response resp
  = Ok match od_lookup (stats_key resp) merged_response with
       | Some existing =>
           od_replace (stats_key resp) (absorb existing resp) merged_response
       | None => merged_response ++ [(stats_key resp, resp)]
       end.
Proof.
  intros Hall Hwf. unfold merge_response.
  rewrite (account_stats_key_text resp Hwf). simpl.
  destruct (od_lookup (stats_key resp) merged_response) as [existing|] eqn:E;
    [|done].
  assert (stats_record existing = true) as Hex.
  { clear -Hall E. induction merged_response as [|[k v] d IH]; [done|].
    simpl in E. apply Forall_cons in Hall as [Hv Hd].
    case_decide; [by injection E as <-|by apply IH]. }
  rewrite (as_mapping_breakdown_stats existing Hex),
    (as_mapping_breakdown_stats resp Hwf). reflexivity.
Qed.

Lemma merged_by_key_nil : merged_by_key [] [].
Proof.
  split; [constructor|]. split.
  - intros k. split; [by intros ?%elem_of_nil|].
    by intros (? & ?%elem_of_nil & _).
  - intros k first later E. discriminate.
Qed.

Lemma filter_key_nil (k : string) (parsed : list dict) :
  filter (fun resp => stats_key resp = k) parsed = [] ↔
  ¬ ∃ resp, resp ∈ parsed ∧ stats_key resp = k.
Proof.
  split.
  - intros F (resp & Hin & Hk).
    assert (resp ∈ filter (fun resp => stats_key resp = k) parsed) as Hf
      by (by apply list_elem_of_filter).
    rewrite F in Hf. by apply elem_of_nil in Hf.
  - intros Hno.
    destruct (filter (fun resp => stats_key resp = k) parsed) as [|x l] eqn:F;
      [done|].
    assert (x ∈ filter (fun resp => stats_key resp = k) parsed) as Hf
      by (rewrite F; apply list_elem_of_here).
    apply list_elem_of_filter in Hf as [Hk Hin]. destruct Hno. eauto.
Qed.

Lemma merged_by_key_step (seen : list dict) (merged : odict) (resp : dict) :
  merged_by_key seen merged →
  merged_by_key (seen ++ [resp])
    match od_lookup (stats_key resp) merged with
    | Some existing =>
        od_replace (stats_key resp) (absorb existing resp) merged
    | None => merged ++ [(stats_key resp, resp)]
    end.
Proof.
  intros (Hnodup & Hkeys & Hgroups).
  destruct (od_lookup (stats_key resp) merged) as [existing|] eqn:E.
  - assert (stats_key resp ∈ merged.*1) as Hin.
    { destruct (decide (stats_key resp ∈ merged.*1)) as [|Hn]; [done|].
      apply od_lookup_None in Hn. congruence. }
    split; [by rewrite od_replace_keys|]. split.
    + intros k. rewrite od_replace_keys, Hkeys. split.
      * intros (r & Hr & Hk). exists r. split; [|done].
        apply elem_of_app. by left.
      * intros (r & [Hr| ->%list_elem_of_singleton]%elem_of_app & Hk).
        -- eauto.
        -- subst k. by apply Hkeys.
    + intros k first later. rewrite filter_app, od_lookup_replace.
      rewrite filter_cons, filter_nil.
      destruct (decide (k = stats_key resp)) as [->|Hne].
      * rewrite decide_True by done. rewrite E.
        destruct (filter (fun r => stats_key r = stats_key resp) seen)
          as [|first0 later0] eqn:F.
        { apply filter_key_nil in F. destruct F. by apply Hkeys. }
        simpl. intros [= <- <-].
        rewrite fold_left_app. simpl.
        specialize (Hgroups _ _ _ F). rewrite E in Hgroups.
        by injection Hgroups as <-.
      * rewrite decide_False by done. rewrite app_nil_r. apply Hgroups.
  - apply od_lookup_None in E as Hnotin.
    assert (filter (fun r => stats_key r = stats_key resp) seen = []) as F.
    { apply filter_key_nil. intros Hex. by apply Hkeys in Hex. }
    split; [|split].
    + rewrite fmap_app. apply NoDup_app. split; [done|]. split.
      * intros k Hk ->%list_elem_of_singleton. done.
      * apply NoDup_singleton.
    + intros k. rewrite fmap_app, elem_of_app, Hkeys. simpl. split.
      * intros [(r & Hr & Hk)| ->%list_elem_of_singleton].
        -- exists r. split; [|done]. apply elem_of_app. by left.
        -- exists resp. split; [|done]. apply elem_of_app. right.
           by apply list_elem_of_singleton.
      * intros (r & [Hr| ->%list_elem_of_singleton]%elem_of_app & Hk).
        -- left. eauto.
        -- right. by apply list_elem_of_singleton.
    + intros k first later. rewrite filter_app, od_lookup_app.
      rewrite filter_cons, filter_nil.
      destruct (decide (k = stats_key resp)) as [->|Hne].
      * rewrite decide_True by done. rewrite F, E.
        simpl. by intros [= <- <-].
      * rewrite decide_False by done. rewrite app_nil_r. intros G.
        by rewrite (Hgroups _ _ _ G).
Qed.

Lemma merge_responses_inv (parsed seen : list dict) (merged : odict) :
  Forall (fun resp => stats_record resp = true) parsed →
  Forall (fun kv => stats_record kv.2 = true) merged →
  merged_by_key seen merged →
  ∃ out, merge_responses merged parsed = Ok out ∧
         merged_by_key (seen ++ parsed) out.
Proof.
  revert seen merged.
  induction parsed as [|resp parsed IH]; intros seen merged Hwf Hall Hinv.
  - exists merged. by rewrite app_nil_r.
  - apply Forall_cons in Hwf as [Hresp Hwf]. simpl.
    rewrite (merge_response_step merged resp Hall Hresp). simpl.
    replace (seen ++ resp :: parsed) with ((seen ++ [resp]) ++ parsed)
      by (by rewrite <- app_assoc).
    apply IH; [done| |by apply merged_by_key_step].
    destruct (od_lookup (stats_key resp) merged) as [existing|] eqn:E.
    + clear -Hall E. induction merged as [|[k v] d IHd]; [done|].
      apply Forall_cons in Hall as [Hv Hd]. simpl in *.
      case_decide.
      * injection E as <-. apply Forall_cons. split; [|done].
        by apply absorb_stats_record.
      * apply Forall_cons. split; [done|]. by apply IHd.
    + apply Forall_app. split; [done|]. by apply Forall_singleton.
Qed.

(** Merging the records of several breakdown levels one level after the
    other is merging their concatenation. *)
Lemma merge_responses_app (merged : odict) (parsed later : list dict) :
  merge_responses merged (parsed ++ later)
  = merge_responses merged parsed ≫= fun merged' => merge_responses merged' later.
Proof.
  revert merged. induction parsed as [|resp parsed IH]; intros merged; simpl;
    [done|].
  destruct (merge_response merged resp) as [merged'|e]; simpl; [apply IH|done].
Qed.

(** C4.  On parsed stats records (key fields text, [breakdown_stats] a
    mapping when present) the merge returns one record per distinct key
    [id ++ type ++ start_time ++ end_time]: a record with a fresh key is
    inserted as it is, a record with a known key leaves the earlier record
    in place with its [breakdown_stats] replaced by the union of both
    sub-mappings, the later record's value winning on a shared level. *)
Theorem merge_one_record_per_key (parsed_responses : list dict) :
  Forall (fun resp => stats_record resp = true) parsed_responses →
  (∃ merged_response,
     merge_responses [] parsed_responses = Ok merged_response ∧
     merged_by_key parsed_responses merged_response) ∧
  (∀ merged_response resp,
     Forall (fun kv => stats_record kv.2 = true) merged_response →
     resp ∈ parsed_responses →
     merge_response merged_response resp
     = Ok match od_lookup (stats_key resp) merged_response with
          | Some existing =>
              od_replace (stats_key resp) (absorb existing resp)
                merged_response
          | None => merged_response ++ [(stats_key resp, resp)]
          end) ∧
  (∀ earlier later level,
     breakdown_stats (absorb earlier later) !! level
     = match breakdown_stats later !! level with
       | Some v => Some v
       | None => breakdown_stats earlier !! level
       end).
Proof.
  intros Hwf. split; [|split].
  - apply (merge_responses_inv parsed_responses [] []);
      [done|constructor|apply merged_by_key_nil].
  - intros merged resp Hall Hin. apply merge_response_step; [done|].
    rewrite Forall_forall in Hwf. by apply Hwf.
  - intros earlier later level. unfold absorb, breakdown_stats at 1.
    rewrite lookup_insert_eq, lookup_union.
    destruct (breakdown_stats later !! level), (breakdown_stats earlier !! level);
      reflexivity.
Qed.

Lemma merge_one_record_per_key_witness :
  ∃ merged_response,
    merge_responses [] Examples.parsed_stats = Ok merged_response ∧
    merged_by_key Examples.parsed_stats merged_response.
Proof.
  apply (merge_one_record_per_key Examples.parsed_stats).
  repeat (constructor; [reflexivity|]). constructor.
Defined.

(** The merge of the example: two records, the first with both levels. *)
Lemma merge_example :
  (fun merged => merged.*2) <$> merge_responses [] Examples.parsed_stats
  = Ok [ <["breakdown_stats" :=
             VDict {[ "campaign" := VList [VDict {[ "spend" := VInt 50000000 ]}];
                      "adsquad" := VList [VDict {[ "spend" := VInt 50000000 ]}] ]}]>
           (Examples.timeseries_stat "2021-11-01T00:00:00.000Z"
              "2021-11-02T00:00:00.000Z" "campaign" 50000000);
         Examples.timeseries_stat "2021-11-02T00:00:00.000Z"
           "2021-11-03T00:00:00.000Z" "campaign" 40000000 ].
Proof. reflexivity. Qed.

(** ** The cache of parent identifiers *)

Create HintDb cache discriminated.

Section cache.
Context `{Runtime}.

Lemma keeps_cache_ret {A : Type} (a : A) : keeps_cache (mret a).
Proof. intros w. done. Qed.

Lemma keeps_cache_lift {A : Type} (r : result A) : keeps_cache (lift r).
Proof. intros w. done. Qed.

Lemma keeps_cache_bind {A B : Type} (m : M A) (f : A → M B) :
  keeps_cache m → (∀ a, keeps_cache (f a)) → keeps_cache (m ≫= f).
Proof.
  intros Hm Hf w. unfold mbind, M_bind.
  specialize (Hm w). destruct (m w) as [[a|e] w']; simpl in *; [|done].
  etrans; [exact Hm|apply Hf].
Qed.

Lemma keeps_cache_http_read (self : stream) (s : option dict) :
  keeps_cache (http_read self s).
Proof. intros w. done. Qed.

Lemma keeps_cache_stats_fetch (self : stream) (s : option dict)
    (level fields : string) :
  keeps_cache (stats_fetch self s level fields).
Proof. intros w. done. Qed.

#[local] Hint Resolve keeps_cache_ret keeps_cache_lift keeps_cache_http_read
  keeps_cache_stats_fetch : cache.
#[local] Hint Extern 2 (keeps_cache (_ ≫= _)) =>
  apply keeps_cache_bind; [|intros ?] : cache.

Lemma keeps_cache_merge_breakdown_levels (self : stream)
    (s : option dict) (levels : list (string * string)) (merged : odict) :
  keeps_cache (merge_breakdown_levels self s levels merged).
Proof.
  revert merged. induction levels as [|[level fields] levels IH]; intros merged;
    simpl; auto with cache.
Qed.

Lemma keeps_cache_AdaccountStats_read_records (self : stream)
    (stream_state stream_slice : option dict) :
  keeps_cache (AdaccountStats_read_records self stream_state stream_slice).
Proof.
  unfold AdaccountStats_read_records.
  apply keeps_cache_bind; [apply keeps_cache_merge_breakdown_levels|].
  auto with cache.
Qed.

Lemma keeps_cache_read_records (self : stream)
    (stream_state stream_slice : option dict) :
  keeps_cache (read_records self stream_state stream_slice).
Proof.
  unfold read_records. destruct (base (cls self)).
  - auto with cache.
  - unfold Incremental_read_records.
    apply keeps_cache_bind; [auto with cache|].
    intros records. destruct stream_state as [state|];
      [destruct (dict_truthy state)|]; auto with cache.
  - intros w.
    pose proof (keeps_cache_AdaccountStats_read_records self stream_state
                  stream_slice w) as Hk.
    by destruct (AdaccountStats_read_records self stream_state stream_slice w)
      as [[records|e] w'].
Qed.

Lemma keeps_cache_read_slices (keys : list string)
    (slices : list (option dict)) (ending : option exn) :
  ∀ (depend_on_stream : stream) (acc : list (option dict)),
  keeps_cache (read_slices read_records keys depend_on_stream slices ending acc).
Proof.
  induction slices as [|s slices IH]; intros depend_on_stream acc; simpl.
  - destruct ending; auto with cache.
  - apply keeps_cache_bind.
    + destruct (opt_truthy s); apply keeps_cache_read_records.
    + intros [depend_on_stream' records]. auto with cache.
Qed.

(** Induction over a class and its chain of parents. *)
Lemma stream_class_parents_ind (P : stream_class → Prop) :
  (∀ c, (∀ parent, depends_on_stream c = Some parent → P parent) → P c) →
  ∀ c, P c.
Proof.
  intros Hstep. fix IH 1. intros c. apply Hstep.
  destruct c as [n nm b cf [parent|] keys]; simpl; intros q E.
  - injection E as <-. apply IH.
  - discriminate.
Qed.

Lemma stream_slices_of_unfold (c : stream_class) (self : stream) :
  stream_slices_of c self
  = match base c with
    | SnapchatMarketingStream => mret (self, Gen [None] None)
    | _ =>
        fun w =>
          match get_depend_on_records_with stream_slices_of (depends_on_stream c)
                  (StreamConfig (start_date self)) (slice_key_names c) w with
          | (Raise e, w') => (Ok (self, Gen [] (Some e)), w')
          | (Ok [], w') =>
              match depends_on_stream c with
              | None => (Ok (self, Gen [] (Some AttributeError)), w')
              | Some parent =>
                  (Ok (self, Gen [] (Some IndexError)),
                   World (auxiliary_record_map w')
                     (logger w' ++ [KeysNotFound (slice_key_names c)
                                      (__name__ parent) (name c)])
                     (reads w'))
              end
          | (Ok (s :: stream_slices), w') =>
              (Ok (set_last_slice self (List.last (s :: stream_slices) s),
                   Gen (s :: stream_slices) None), w')
          end
    end.
Proof. destruct c. reflexivity. Qed.

(** A miss stores under a name that was absent when the call began, so
    what was there at the beginning is still there at the end, even if a
    call further up the chain has written in between. *)
Lemma keeps_cache_get_depend_on_records_with
    (slices_of : stream_class → stream → M (stream * gen (option dict)))
    (d : option stream_class) (config : stream_config) (keys : list string) :
  (∀ parent, d = Some parent → ∀ self, keeps_cache (slices_of parent self)) →
  keeps_cache (get_depend_on_records_with slices_of d config keys).
Proof.
  intros Hslices. destruct d as [parent|]; [|apply keeps_cache_ret].
  intros w. unfold get_depend_on_records_with.
  destruct (auxiliary_record_map w !! __name__ parent) as [cached|] eqn:E;
    [done|].
  unfold mbind, M_bind, lift.
  destruct (new_stream parent config) as [dep|e]; [|done].
  pose proof (Hslices parent eq_refl dep w) as H1.
  destruct (slices_of parent dep w) as [[[dep' slices]|e] w1]; [|done].
  pose proof (keeps_cache_read_slices keys (yielded slices) (raised slices)
                dep' [] w1) as H2.
  destruct (read_slices read_records keys dep' (yielded slices)
              (raised slices) [] w1) as [[[|r records]|e] w2];
    simpl in *; try (by etrans).
  apply insert_subseteq_r; [done|by etrans].
Qed.

Lemma keeps_cache_stream_slices_of (c : stream_class) :
  ∀ self, keeps_cache (stream_slices_of c self).
Proof.
  induction c as [c IH] using stream_class_parents_ind. intros self w.
  rewrite stream_slices_of_unfold.
  destruct (base c); [done| |];
    (pose proof (keeps_cache_get_depend_on_records_with stream_slices_of
                   (depends_on_stream c) (StreamConfig (start_date self))
                   (slice_key_names c) IH w) as Hk;
     destruct (get_depend_on_records_with stream_slices_of (depends_on_stream c)
                 (StreamConfig (start_date self)) (slice_key_names c) w)
       as [[[|s slices]|e] w']; [|done|done];
     destruct (depends_on_stream c); exact Hk).
Qed.

Lemma keeps_cache_get_depend_on_records (d : option stream_class)
    (config : stream_config) (keys : list string) :
  keeps_cache (get_depend_on_records d config keys).
Proof.
  apply keeps_cache_get_depend_on_records_with.
  intros parent _. apply keeps_cache_stream_slices_of.
Qed.

Lemma run_keeps_cache (actions : list action) (w : world) :
  auxiliary_record_map w ⊆ auxiliary_record_map (run actions w).
Proof.
  revert w. induction actions as [|a actions IH]; intros w; [done|].
  simpl. etrans; [|apply IH].
  destruct a; simpl.
  - apply keeps_cache_get_depend_on_records.
  - apply keeps_cache_stream_slices_of.
  - apply keeps_cache_read_records.
Qed.

(** A call stores its result whenever that result is not empty. *)
Lemma get_depend_on_records_populates (parent : stream_class)
    (config : stream_config) (keys : list string) (w w' : world)
    (records : list (option dict)) :
  get_depend_on_records (Some parent) config keys w = (Ok records, w') →
  records ≠ [] →
  auxiliary_record_map w' !! __name__ parent = Some records.
Proof.
  unfold get_depend_on_records, get_depend_on_records_with.
  destruct (auxiliary_record_map w !! __name__ parent) as [cached|] eqn:E.
  - by intros [= <- <-].
  - unfold mbind, M_bind, lift.
    destruct (new_stream parent config) as [dep|e]; [|done].
    destruct (stream_slices_of parent dep w) as [[[dep' slices]|e] w1]; [|done].
    destruct (read_slices read_records keys dep' (yielded slices)
                (raised slices) [] w1) as [[[|r rs]|e] w2]; simpl.
    + by intros [= <- <-].
    + intros [= <- <-] _. simpl. apply lookup_insert_eq.
    + done.
Qed.

(** A call that finds its parent in the cache returns the cached sequence
    and leaves the world, reads included, as it was. *)
Lemma get_depend_on_records_hit (parent : stream_class)
    (config : stream_config) (keys : list string) (w : world)
    (cached : list (option dict)) :
  auxiliary_record_map w !! __name__ parent = Some cached →
  get_depend_on_records (Some parent) config keys w = (Ok cached, w).
Proof.
  intros E. unfold get_depend_on_records, get_depend_on_records_with.
  by rewrite E.
Qed.

(** C6.  Once a call for a parent class has stored its sequence of slices
    (which it does whenever the sequence is not empty), every later call
    for that class, whatever happened in between and whatever keys it asks
    for, returns that sequence and makes no read. *)
Theorem parent_fetched_at_most_once (parent : stream_class)
    (config : stream_config) (keys : list string) (w w' : world)
    (records : list (option dict)) :
  get_depend_on_records (Some parent) config keys w = (Ok records, w') →
  records ≠ [] →
  auxiliary_record_map w' !! __name__ parent = Some records ∧
  ∀ (actions : list action) (config' : stream_config) (keys' : list string),
    let later := run actions w' in
    get_depend_on_records (Some parent) config' keys' later
    = (Ok records, later).
Proof.
  intros Hcall Hne.
  pose proof (get_depend_on_records_populates _ _ _ _ _ _ Hcall Hne) as Hpop.
  split; [done|]. intros actions config' keys' later.
  apply get_depend_on_records_hit.
  eapply lookup_weaken; [exact Hpop|apply run_keeps_cache].
Qed.

End cache.

Lemma parent_fetched_at_most_once_witness :
  let first :=
    @get_depend_on_records Examples.mocked_api (Some Adaccounts)
      (StreamConfig "1970-01-01") ["id"; "timezone"] empty_world in
  let records :=
    [Some {[ "id" := VStr "8adc3db7-8148-4fbf-999c-8d2266369d74";
             "timezone" := VStr "UTC" ]};
     Some {[ "id" := VStr "81cf9302-764c-429a-8561-e3bc329cf987";
             "timezone" := VStr "UTC" ]}] in
  first.1 = Ok records ∧
  auxiliary_record_map first.2 !! "Adaccounts" = Some records ∧
  ∀ (actions : list action) (config' : stream_config) (keys' : list string),
    let later := @run Examples.mocked_api actions first.2 in
    @get_depend_on_records Examples.mocked_api (Some Adaccounts) config' keys'
      later = (Ok records, later).
Proof.
  intros first records.
  assert (first.1 = Ok records) as Hresult by reflexivity.
  split; [exact Hresult|].
  apply (@parent_fetched_at_most_once Examples.mocked_api Adaccounts
           (StreamConfig "1970-01-01") ["id"; "timezone"] empty_world
           first.2 records).
  - rewrite <- Hresult. apply surjective_pairing.
  - discriminate.
Defined.

(** The unit tests [test_get_depend_on_ids_none] and
    [test_get_depend_on_ids_1] on the mocked API. *)
Example test_get_depend_on_ids_none :
  (@get_depend_on_records Examples.mocked_api None (StreamConfig "1970-01-01")
     [] empty_world).1 = Ok [None].
Proof. reflexivity. Qed.

Example test_get_depend_on_ids_1 :
  (@get_depend_on_records Examples.mocked_api (Some Organizations)
     (StreamConfig "1970-01-01") ["id"] empty_world).1
  = Ok [Some {[ "id" := VStr "40d6719b-da09-410b-9185-0cc9c0dfed1d" ]};
        Some {[ "id" := VStr "507d7a57-94de-4239-8a74-e93c00ca53e6" ]}].
Proof. reflexivity. Qed.

(** A second stream asking for other keys of the same parent gets the
    slices of the first: the cache is keyed by the class name alone. *)
Example cache_ignores_slice_key_names :
  let first :=
    @get_depend_on_records Examples.mocked_api (Some Adaccounts)
      (StreamConfig "1970-01-01") ["id"] empty_world in
  (@get_depend_on_records Examples.mocked_api (Some Adaccounts)
     (StreamConfig "1970-01-01") ["id"; "timezone"] first.2).1
  = Ok [Some {[ "id" := VStr "8adc3db7-8148-4fbf-999c-8d2266369d74" ]};
        Some {[ "id" := VStr "81cf9302-764c-429a-8561-e3bc329cf987" ]}].
Proof. reflexivity. Qed.

(** A call that finds no parent record returns the empty list and stores
    nothing under the parent's name that was not there. *)
Lemma stream_slices_of_empty `{Runtime} (c parent : stream_class)
    (self : stream) (w w' : world) :
  base c ≠ SnapchatMarketingStream →
  depends_on_stream c = Some parent →
  get_depend_on_records (Some parent) (StreamConfig (start_date self))
    (slice_key_names c) w = (Ok [], w') →
  stream_slices_of c self w
  = (Ok (self, Gen [] (Some IndexError)),
     World (auxiliary_record_map w')
       (logger w' ++ [KeysNotFound (slice_key_names c) (__name__ parent) (name c)])
       (reads w')).
Proof.
  intros Hbase Hparent Hcall. rewrite stream_slices_of_unfold.
  unfold get_depend_on_records in Hcall.
  destruct (base c); [done| |]; by rewrite Hparent, Hcall.
Qed.

(** C5.  When the parent yields no record, [stream_slices] logs the keys
    and the parent and then fails: after [yield from []] it indexes the
    empty list, so the generator raises IndexError instead of ending. *)
Theorem stream_slices_raises_on_empty_parent :
  let resolved :=
    @get_depend_on_records Examples.no_adaccounts_api (Some Adaccounts)
      (StreamConfig "2021-01-01T00:00:00+00:00") ["id"] empty_world in
  let outcome :=
    @stream_slices Examples.no_adaccounts_api Examples.new_creatives empty_world in
  resolved.1 = Ok [] ∧
  outcome.1 = Ok (Examples.new_creatives, Gen [] (Some IndexError)) ∧
  logger outcome.2 = [KeysNotFound ["id"] "Adaccounts" "creatives"].
Proof. intros resolved outcome. split; [|split]; reflexivity. Qed.

(** ** Pagination *)

Lemma dict_truthy_lookup (d : dict) (k : string) (v : value) :
  d !! k = Some v → dict_truthy d = true.
Proof.
  intros Hk. unfold dict_truthy. rewrite bool_decide_eq_false_2; [done|].
  intros ->. by rewrite lookup_empty in Hk.
Qed.

(** C7, as the code has it.  Freshchat: the next token is
    [{page: current_page + 1}] exactly when [current_page < total_pages],
    and [None] otherwise.  Snapchat: no token when the paging object is
    absent or empty; the cursor parsed from [paging.next_link] when the
    paging object carries that link. *)
Theorem next_page_token_spec `{Runtime} :
  (∀ (body pagination : dict) (current_page total_pages : Z),
     dict_get body "pagination" (VDict ∅) = VDict pagination →
     Freshchat.py_int (dict_get pagination "current_page" VNone) = Ok current_page →
     Freshchat.py_int (dict_get pagination "total_pages" VNone) = Ok total_pages →
     Freshchat.next_page_token (VDict body)
     = Ok (if current_page <? total_pages
           then Some {[ "page" := VInt (current_page + 1) ]}
           else None)) ∧
  (∀ body : dict,
     truthy (dict_get body "paging" (VBool false)) = false →
     next_page_token (VDict body) = Ok None) ∧
  (∀ (body paging : dict) (next_link : value) (cursor : string),
     body !! "paging" = Some (VDict paging) →
     paging !! "next_link" = Some next_link →
     query_cursor next_link = Ok cursor →
     next_page_token (VDict body) = Ok (Some {[ "cursor" := VStr cursor ]})).
Proof.
  split; [|split].
  - intros body pagination current_page total_pages Hpg Hcur Htot.
    unfold Freshchat.next_page_token. simpl. rewrite Hpg. simpl.
    rewrite Hcur. simpl. rewrite Htot. simpl.
    by destruct (current_page <? total_pages).
  - intros body Hfalsy. unfold next_page_token. simpl. by rewrite Hfalsy.
  - intros body paging next_link cursor Hpaging Hlink Hcursor.
    pose proof (dict_truthy_lookup paging "next_link" next_link Hlink) as Ht.
    unfold dict_truthy in Ht.
    unfold next_page_token. simpl. unfold dict_get. rewrite Hpaging.
    simpl. rewrite Ht. simpl. unfold subscript. rewrite Hlink. simpl.
    by rewrite Hcursor.
Qed.

Lemma next_page_token_spec_witness :
  @Freshchat.next_page_token Examples.mocked_api (VDict Examples.page_2_of_5)
  = Ok (Some {[ "page" := VInt 3 ]}) ∧
  @next_page_token Examples.mocked_api (VDict ∅) = Ok None ∧
  @next_page_token Examples.mocked_api
    (VDict {[ "paging" := VDict Examples.paging_with_link ]})
  = Ok (Some {[ "cursor" := VStr "CMi7vOkBEg" ]}).
Proof.
  destruct (@next_page_token_spec Examples.mocked_api) as (Hfresh & Hnone & Hlink).
  split; [|split].
  - apply (Hfresh Examples.page_2_of_5
             {[ "current_page" := VInt 2; "total_pages" := VInt 5 ]} 2 5);
      reflexivity.
  - apply Hnone. reflexivity.
  - apply (Hlink _ Examples.paging_with_link
             (VStr "https://adsapi.snapchat.com/v1/me/organizations?cursor=CMi7vOkBEg"));
      reflexivity.
Defined.

(** C7 as stated fails for a paging object without [next_link]: the
    lookup raises instead of returning [None]. *)
Lemma next_page_token_without_link :
  @next_page_token Examples.mocked_api Examples.paging_without_link
  = Raise (KeyError "next_link") ∧
  @next_page_token Examples.mocked_api Examples.paging_without_link ≠ Ok None.
Proof.
  assert (@next_page_token Examples.mocked_api Examples.paging_without_link
          = Raise (KeyError "next_link")) as Hraise by reflexivity.
  split; [exact Hraise|]. rewrite Hraise. discriminate.
Qed.

(** ** Account statistics: requests *)

Lemma py_eq_text (v : value) (s : string) :
  py_eq v (VStr s) = true ↔ v = VStr s.
Proof.
  destruct v; simpl; try (split; [discriminate|discriminate]).
  rewrite String.eqb_eq. split; [by intros ->|by intros [= ->]].
Qed.

Lemma py_eq_text_false (v : value) (s : string) :
  v ≠ VStr s → py_eq v (VStr s) = false.
Proof.
  intros Hne. destruct (py_eq v (VStr s)) eqn:E; [|done].
  by apply py_eq_text in E.
Qed.

(** Lookup of a key in a dict display. *)
Ltac lookup_display :=
  repeat (rewrite lookup_insert_ne by done);
  first [apply lookup_insert_eq | apply lookup_singleton_eq].

(** The mapping [request_params] returns.  When the two [pendulum] calls
    succeed, the parameters are built; for every granularity but LIFETIME
    they hold a date-time under [start_time] and under [end_time]; for
    LIFETIME they hold both keys with the value [None]. *)
Theorem request_params_times `{Runtime} (self : stream) (stream_state : dict)
    (stream_slice next_page_token : option dict) (t1 t2 : datetime) :
  let tz := account_timezone stream_slice in
  (if negb (String.eqb (start_date self) "")
   then parse_in_timezone (start_date self) tz else now tz) = Ok t1 →
  now tz = Ok t2 →
  ∃ params,
    AdaccountStats_request_params self stream_state stream_slice next_page_token
    = Ok params ∧
    params !! "granularity" = Some (ParamValue (granularity self)) ∧
    (granularity self ≠ VStr "LIFETIME" →
     ∃ d1 d2, params !! "start_time" = Some (ParamDatetime d1) ∧
              params !! "end_time" = Some (ParamDatetime d2)) ∧
    (granularity self = VStr "LIFETIME" →
     params !! "start_time" = Some ParamNone ∧
     params !! "end_time" = Some ParamNone).
Proof.
  intros tz Hstart Hend.
  unfold AdaccountStats_request_params, _get_rounded_datetime.
  fold tz. rewrite Hstart. simpl. rewrite Hend. simpl.
  destruct (py_eq (granularity self) (VStr "LIFETIME")) eqn:E.
  - apply py_eq_text in E. simpl. eexists. split; [reflexivity|].
    split; [lookup_display|]. split; [done|]. intros _.
    split; lookup_display.
  - assert (granularity self ≠ VStr "LIFETIME") as Hne.
    { intros Heq. apply py_eq_text in Heq. congruence. }
    destruct (py_eq (granularity self) (VStr "DAY")); simpl;
      (eexists; split; [reflexivity|];
       split; [lookup_display|]; split; [|done]; intros _;
       eexists _, _; split; lookup_display).
Qed.

Lemma request_params_times_witness :
  ∃ params,
    @AdaccountStats_request_params Examples.mocked_api Examples.adaccount_stats
      ∅ (Some Examples.utc_account) None = Ok params ∧
    params !! "granularity" = Some (ParamValue (VStr "DAY")) ∧
    (VStr "DAY" ≠ VStr "LIFETIME" →
     ∃ d1 d2, params !! "start_time" = Some (ParamDatetime d1) ∧
              params !! "end_time" = Some (ParamDatetime d2)) ∧
    (VStr "DAY" = VStr "LIFETIME" →
     params !! "start_time" = Some ParamNone ∧
     params !! "end_time" = Some ParamNone).
Proof.
  apply (@request_params_times Examples.mocked_api Examples.adaccount_stats ∅
           (Some Examples.utc_account) None
           "2021-11-01T00:00:00+00:00" "2021-11-08T09:41:27");
    reflexivity.
Defined.

(** For LIFETIME the returned mapping still has the two keys, with the
    value [None]. *)
Lemma lifetime_params_keep_keys :
  ∃ params,
    @AdaccountStats_request_params Examples.mocked_api Examples.lifetime_stats
      ∅ (Some Examples.utc_account) None = Ok params ∧
    is_Some (params !! "start_time") ∧ is_Some (params !! "end_time").
Proof.
  exists (<["granularity" := ParamValue (VStr "LIFETIME")]>
            (<["end_time" := ParamNone]> {[ "start_time" := ParamNone ]})).
  split; [reflexivity|]. split; eexists; lookup_display.
Qed.

Lemma lookup_encode_params `{Runtime} (params : gmap string param)
    (k : string) :
  encode_params params !! k
  = match params !! k with
    | Some p => if param_is_none p then None else Some p
    | None => None
    end.
Proof.
  unfold encode_params. rewrite map_lookup_filter.
  destruct (params !! k) as [p|]; simpl; [|done].
  destruct (param_is_none p).
  - by rewrite option_guard_False.
  - by rewrite option_guard_True.
Qed.

(** C8.  The request a stats read sends.  When the two [pendulum] calls
    succeed the request is built; for every granularity but LIFETIME its
    query has a date-time, never [None], under [start_time] and under
    [end_time]; for LIFETIME the query has neither [start_time] nor
    [end_time]: [request_params] sets both to [None] and the encoding of
    the parameters leaves them out. *)
Theorem stats_request_times `{Runtime} (self : stream) (stream_state : dict)
    (stream_slice next_page_token : option dict)
    (breakdown_level stats_fields : string) (t1 t2 : datetime) :
  let tz := account_timezone stream_slice in
  (if negb (String.eqb (start_date self) "")
   then parse_in_timezone (start_date self) tz else now tz) = Ok t1 →
  now tz = Ok t2 →
  ∃ query,
    stats_request_query self stream_state stream_slice next_page_token
      breakdown_level stats_fields = Ok query ∧
    (granularity self ≠ VStr "LIFETIME" →
     ∃ d1 d2, query !! "start_time" = Some (ParamDatetime d1) ∧
              query !! "end_time" = Some (ParamDatetime d2)) ∧
    (granularity self = VStr "LIFETIME" →
     query !! "start_time" = None ∧ query !! "end_time" = None).
Proof.
  intros tz Hstart Hend.
  destruct (request_params_times self stream_state stream_slice
              next_page_token t1 t2 Hstart Hend)
    as (params & Hparams & _ & Hother & Hlifetime).
  unfold stats_request_query. rewrite Hparams. simpl.
  eexists. split; [reflexivity|]. split.
  - intros Hne. destruct (Hother Hne) as (d1 & d2 & H1 & H2).
    exists d1, d2.
    rewrite !lookup_insert_ne, !lookup_encode_params, H1, H2 by done. done.
  - intros Heq. destruct (Hlifetime Heq) as [H1 H2].
    rewrite !lookup_insert_ne, !lookup_encode_params, H1, H2 by done. done.
Qed.

Lemma stats_request_times_witness :
  (∃ query,
     @stats_request_query Examples.mocked_api Examples.adaccount_stats ∅
       (Some Examples.utc_account) None "campaign" "spend" = Ok query ∧
     (VStr "DAY" ≠ VStr "LIFETIME" →
      ∃ d1 d2, query !! "start_time" = Some (ParamDatetime d1) ∧
               query !! "end_time" = Some (ParamDatetime d2)) ∧
     (VStr "DAY" = VStr "LIFETIME" →
      query !! "start_time" = None ∧ query !! "end_time" = None)) ∧
  (∃ query,
     @stats_request_query Examples.mocked_api Examples.lifetime_stats ∅
       (Some Examples.utc_account) None "campaign" "spend" = Ok query ∧
     (VStr "LIFETIME" ≠ VStr "LIFETIME" →
      ∃ d1 d2, query !! "start_time" = Some (ParamDatetime d1) ∧
               query !! "end_time" = Some (ParamDatetime d2)) ∧
     (VStr "LIFETIME" = VStr "LIFETIME" →
      query !! "start_time" = None ∧ query !! "end_time" = None)).
Proof.
  split.
  - apply (@stats_request_times Examples.mocked_api Examples.adaccount_stats ∅
             (Some Examples.utc_account) None "campaign" "spend"
             "2021-11-01T00:00:00+00:00" "2021-11-08T09:41:27");
      reflexivity.
  - apply (@stats_request_times Examples.mocked_api Examples.lifetime_stats ∅
             (Some Examples.utc_account) None "campaign" "spend"
             "2021-11-01T00:00:00+00:00" "2021-11-08T09:41:27");
      reflexivity.
Defined.

(** C10.  For a granularity outside TOTAL, LIFETIME, DAY and HOUR the
    root name is [None] and nothing is raised. *)
Theorem response_root_name_unsupported (self : stream) :
  base (cls self) = AdaccountStatsStream →
  granularity self ≠ VStr "TOTAL" →
  granularity self ≠ VStr "LIFETIME" →
  granularity self ≠ VStr "DAY" →
  granularity self ≠ VStr "HOUR" →
  response_root_name self = Ok VNone.
Proof.
  intros Hbase Htotal Hlifetime Hday Hhour. unfold response_root_name.
  rewrite Hbase.
  by rewrite !py_eq_text_false.
Qed.

Lemma response_root_name_unsupported_witness :
  response_root_name
    (Stream AdaccountStats "2021-11-01T00:00:00+00:00" (VStr "WEEK") None None true)
  = Ok VNone.
Proof.
  apply response_root_name_unsupported; [reflexivity|discriminate..].
Defined.

(** The supported granularities, for comparison. *)
Lemma response_root_name_supported (self : stream) (g : string) :
  base (cls self) = AdaccountStatsStream →
  granularity self = VStr g →
  response_root_name self
  = Ok (if String.eqb g "TOTAL" then VStr "total_stats"
        else if String.eqb g "LIFETIME" then VStr "lifetime_stats"
        else if String.eqb g "DAY" || String.eqb g "HOUR"
        then VStr "timeseries_stats" else VNone).
Proof.
  intros Hbase Hg. unfold response_root_name. rewrite Hbase, Hg. reflexivity.
Qed.

(** ** Refreshing the access token *)

(** A response without error status and with both fields gives the pair. *)
Lemma refresh_access_token_success `{Runtime} (body : dict)
    (access_token expires_in : value) :
  body !! "access_token" = Some access_token →
  body !! "expires_in" = Some expires_in →
  refresh_access_token (Ok (HttpResponse (Ok (VDict body)) (Ok ())))
  = Ok (access_token, expires_in).
Proof.
  intros Ha He. unfold refresh_access_token. simpl. unfold subscript.
  by rewrite Ha, He.
Qed.

(** A failed request whose body has both fields raises with both. *)
Lemma refresh_access_token_error_body `{Runtime} (body : dict)
    (error error_description : value) (text : string) :
  body !! "error" = Some error →
  body !! "error_description" = Some error_description →
  refresh_access_token
    (Ok (HttpResponse (Ok (VDict body)) (Raise (RequestException text))))
  = Raise (Exception
             ("Error refreshing access token. Error: " +:+ py_str error +:+
              "; Error details: " +:+ py_str error_description +:+
              "; Exception: " +:+ text)).
Proof.
  intros He Hd.
  pose proof (dict_truthy_lookup body "error" error He) as Ht.
  unfold dict_truthy in Ht.
  unfold refresh_access_token, refresh_handler. simpl.
  rewrite Ht. simpl.
  rewrite bool_decide_eq_true_2 by (by rewrite He).
  unfold subscript. by rewrite He, Hd.
Qed.

(** A failed request whose body has no [error] raises with the text of
    the transport error. *)
Lemma refresh_access_token_transport_error `{Runtime} (body : dict)
    (text : string) :
  body !! "error" = None →
  refresh_access_token
    (Ok (HttpResponse (Ok (VDict body)) (Raise (RequestException text))))
  = Raise (Exception ("Error refreshing access token: " +:+ text)) ∧
  refresh_access_token (Raise (RequestException text))
  = Raise (Exception ("Error refreshing access token: " +:+ text)).
Proof.
  intros He. split; [|reflexivity].
  unfold refresh_access_token, refresh_handler. simpl.
  destruct (negb (bool_decide (body = ∅))); simpl; [|done].
  rewrite bool_decide_eq_false_2; [done|]. rewrite He. by intros [? ?].
Qed.

(** Every failure ends in an exception. *)
Lemma refresh_access_token_failure_raises `{Runtime}
    (request : result http_response) :
  (∀ response, request = Ok response →
     (∃ e, json response = Raise e) ∨ (∃ e, raise_for_status response = Raise e)) →
  ∃ e, refresh_access_token request = Raise e.
Proof.
  intros Hfail. unfold refresh_access_token.
  assert (∀ v e, ∃ e', refresh_handler v e = Raise e') as Hhandler.
  { intros v e. unfold refresh_handler. destruct e; eauto.
    destruct (truthy v); simpl; [|eauto].
    destruct (value_contains "error" v) as [[]|]; simpl; eauto.
    destruct (value_subscript v "error"); simpl; eauto.
    destruct (value_subscript v "error_description"); simpl; eauto. }
  destruct request as [response|e]; [|apply Hhandler].
  destruct (Hfail response eq_refl) as [[e He]|[e He]].
  - rewrite He. apply Hhandler.
  - destruct (json response); [|apply Hhandler]. rewrite He. apply Hhandler.
Qed.

(** C9.  A rejected refresh whose body has [error] but no
    [error_description] raises KeyError: neither the body's error nor the
    transport error reaches the caller. *)
Theorem refresh_access_token_loses_error :
  @refresh_access_token Examples.mocked_api Examples.invalid_grant
  = Raise (KeyError "error_description").
Proof. reflexivity. Qed.

(** ** Incremental state and reads: edge cases *)

(** X1.  A record without the cursor field leaves the cursor of the state
    where it is (the result still holds the cursor and nothing else); a
    record whose cursor is present but not text, [null] for one, makes
    [max] raise TypeError. *)
Theorem get_updated_state_odd_cursor (self : stream) (st r : dict) (b : string) :
  state_cursor self st = VStr b →
  (r !! cursor_field (cls self) = None →
   get_updated_state self st r = Ok {[ cursor_field (cls self) := VStr b ]}) ∧
  (∀ v, r !! cursor_field (cls self) = Some v → (∀ c, v ≠ VStr c) →
   get_updated_state self st r = Raise TypeError).
Proof.
  intros Hst. split.
  - intros Hr.
    rewrite (get_updated_state_str self st r b "" Hst)
      by (unfold record_cursor, dict_get; by rewrite Hr).
    by destruct b.
  - intros v Hr Hv. unfold get_updated_state.
    assert (dict_get
              (if negb (dict_truthy st)
               then {[ cursor_field (cls self) := VStr (start_date self) ]}
               else st) (cursor_field (cls self)) (VStr "") = VStr b) as ->.
    { unfold state_cursor in Hst. destruct (dict_truthy st); simpl; [done|].
      unfold dict_get. by rewrite lookup_singleton_eq. }
    unfold dict_get. rewrite Hr.
    destruct v; try reflexivity. by destruct (Hv s).
Qed.

Lemma get_updated_state_odd_cursor_witness :
  get_updated_state Examples.creatives Examples.persisted_state
    {[ "id" := VStr "c1" ]}
  = Ok {[ "updated_at" := VStr "2021-07-01T00:00:00.000Z" ]} ∧
  get_updated_state Examples.creatives Examples.persisted_state
    {[ "updated_at" := VNone ]}
  = Raise TypeError.
Proof.
  destruct (get_updated_state_odd_cursor Examples.creatives
              Examples.persisted_state {[ "id" := VStr "c1" ]}
              "2021-07-01T00:00:00.000Z" eq_refl) as [Hmissing _].
  destruct (get_updated_state_odd_cursor Examples.creatives
              Examples.persisted_state {[ "updated_at" := VNone ]}
              "2021-07-01T00:00:00.000Z" eq_refl) as [_ Hnull].
  split.
  - apply Hmissing. reflexivity.
  - apply (Hnull VNone); [reflexivity|discriminate].
Defined.

(** What the inherited [read_records] returns for a non-empty state. *)
Lemma read_records_incremental `{Runtime} (self : stream) (state : dict)
    (stream_slice : option dict) (w : world) :
  base (cls self) = IncrementalSnapchatMarketingStream →
  dict_truthy state = true →
  let self' := set_current_slice self stream_slice in
  let fetched := http_read_records (length (reads w)) self' stream_slice in
  read_records self (Some state) stream_slice w
  = (Ok (self', filter_by_cursor (cursor_field (cls self)) state
                  (yielded fetched) (raised fetched)),
     World (auxiliary_record_map w) (logger w)
       (reads w ++ [(__name__ (cls self), stream_slice)])).
Proof.
  intros Hbase Htruthy. unfold read_records. rewrite Hbase.
  unfold Incremental_read_records, mbind, M_bind, http_read. simpl.
  by rewrite Htruthy.
Qed.

(** The filter walks a prefix of text cursors as a list filter does. *)
Lemma filter_by_cursor_app (cf p : string) (state : dict)
    (pre rest : list dict) (ending : option exn) :
  state !! cf = Some (VStr p) →
  Forall (fun r => ∃ c, r !! cf = Some (VStr c)) pre →
  filter_by_cursor cf state (pre ++ rest) ending
  = Gen (List.filter (newer_than cf p) pre
           ++ yielded (filter_by_cursor cf state rest ending))
        (raised (filter_by_cursor cf state rest ending)).
Proof.
  intros Hst. induction 1 as [|r rs [c Hc] _ IH]; simpl.
  - by destruct (filter_by_cursor cf state rest ending).
  - unfold subscript, dict_get, newer_than. rewrite Hc, Hst. simpl.
    destruct (String.ltb p c); rewrite IH; reflexivity.
Qed.

(** X2.  A fetched record without the cursor field ends the read with
    KeyError; the records before it that are newer than the state have
    been yielded by then, the records after it are lost. *)
Theorem read_records_missing_cursor `{Runtime} (self : stream) (state : dict)
    (stream_slice : option dict) (w : world) (p : string)
    (pre post : list dict) (r : dict) :
  base (cls self) = IncrementalSnapchatMarketingStream →
  let self' := set_current_slice self stream_slice in
  let fetched := http_read_records (length (reads w)) self' stream_slice in
  let cf := cursor_field (cls self) in
  state !! cf = Some (VStr p) →
  yielded fetched = pre ++ r :: post →
  Forall (fun r => ∃ c, r !! cf = Some (VStr c)) pre →
  r !! cf = None →
  (read_records self (Some state) stream_slice w).1
  = Ok (self', Gen (List.filter (newer_than cf p) pre) (Some (KeyError cf))).
Proof.
  intros Hbase self' fetched cf Hst Hfetched Hpre Hr.
  rewrite read_records_incremental by eauto using dict_truthy_lookup.
  simpl. fold self' fetched cf. rewrite Hfetched.
  rewrite (filter_by_cursor_app cf p) by done.
  simpl. unfold subscript. rewrite Hr. simpl. by rewrite app_nil_r.
Qed.

(** X3.  A non-empty state that does not hold the cursor field stops the
    read at the first fetched record, before anything is yielded: the
    comparison with [None] raises TypeError (KeyError when the record has
    no cursor either). *)
Theorem read_records_state_without_cursor `{Runtime} (self : stream)
    (state : dict) (stream_slice : option dict) (w : world)
    (r : dict) (rest : list dict) :
  base (cls self) = IncrementalSnapchatMarketingStream →
  let self' := set_current_slice self stream_slice in
  let fetched := http_read_records (length (reads w)) self' stream_slice in
  let cf := cursor_field (cls self) in
  dict_truthy state = true →
  state !! cf = None →
  yielded fetched = r :: rest →
  (read_records self (Some state) stream_slice w).1
  = Ok (self', Gen [] (Some match r !! cf with
                            | Some _ => TypeError
                            | None => KeyError cf
                            end)).
Proof.
  intros Hbase self' fetched cf Htruthy Hst Hfetched.
  rewrite read_records_incremental by done.
  simpl. fold self' fetched cf. rewrite Hfetched. simpl.
  unfold subscript, dict_get. rewrite Hst.
  destruct (r !! cf) as [v|]; simpl; [|done]. by destruct v.
Qed.

(** What the inherited [read_records] returns for an empty state. *)
Lemma read_records_incremental_empty `{Runtime} (self : stream)
    (stream_slice : option dict) (w : world) :
  base (cls self) = IncrementalSnapchatMarketingStream →
  let self' := set_current_slice self stream_slice in
  read_records self (Some ∅) stream_slice w
  = (Ok (self', http_read_records (length (reads w)) self' stream_slice),
     World (auxiliary_record_map w) (logger w)
       (reads w ++ [(__name__ (cls self), stream_slice)])).
Proof. intros Hbase. unfold read_records. by rewrite Hbase. Qed.

Lemma cursors_of_records (self : stream) (rs : list dict) :
  Forall (fun r => ∃ c, r !! cursor_field (cls self) = Some (VStr c)) rs →
  Forall2 (fun r c => record_cursor self r = VStr c) rs
    ((fun r => text_of (r !! cursor_field (cls self))) <$> rs).
Proof.
  induction 1 as [|r rs [c Hc] _ IH]; [constructor|].
  rewrite fmap_cons. constructor; [|exact IH].
  unfold record_cursor, dict_get. by rewrite Hc.
Qed.

Lemma filter_newer_than_none (cf m : string) (rs : list dict) :
  (∀ r c, r ∈ rs → r !! cf = Some (VStr c) → String.leb c m = true) →
  List.filter (newer_than cf m) rs = [].
Proof.
  induction rs as [|r rs IH]; intros Hle; [done|]. simpl.
  rewrite IH by (intros r' c Hr'; apply Hle; by apply list_elem_of_further).
  unfold newer_than. destruct (r !! cf) as [[]|] eqn:Hr; try done.
  rewrite string_ltb_leb, (Hle r s); [done|apply list_elem_of_here|done].
Qed.

(** X4.  Reading again with the state the first read ends in yields
    nothing: fold [get_updated_state] over the records a read yielded, and
    a second read of the same fetched records against the resulting state
    suppresses every one of them. *)
Theorem second_read_yields_nothing `{Runtime} (self : stream) (pre : dict)
    (stream_slice : option dict) (w1 w2 : world) :
  base (cls self) = IncrementalSnapchatMarketingStream →
  let self' := set_current_slice self stream_slice in
  let cf := cursor_field (cls self) in
  let fetched1 := http_read_records (length (reads w1)) self' stream_slice in
  let fetched2 := http_read_records (length (reads w2)) self' stream_slice in
  yielded fetched2 = yielded fetched1 →
  Forall (fun r => ∃ c, r !! cf = Some (VStr c)) (yielded fetched1) →
  pre = ∅ ∨ (∃ b, pre !! cf = Some (VStr b)) →
  ∃ self1 records1 final records2,
    (read_records self (Some pre) stream_slice w1).1 = Ok (self1, records1) ∧
    fold_updated_state self1 pre (yielded records1) = Ok final ∧
    (read_records self1 (Some final) stream_slice w2).1 = Ok (self1, records2) ∧
    yielded records2 = [].
Proof.
  intros Hbase self' cf fetched1 fetched2 Hsame Htext Hpre.
  assert (∀ (b : string) (emitted : list dict),
            state_cursor self' pre = VStr b →
            (∀ r, r ∈ emitted → r ∈ yielded fetched1) →
            (∀ r c, r ∈ yielded fetched1 → r !! cf = Some (VStr c) →
                    r ∈ emitted ∨ String.leb c b = true) →
            (emitted = [] → dict_truthy pre = false → yielded fetched1 = []) →
            (emitted = [] → dict_truthy pre = true →
             filter_by_cursor cf pre (yielded fetched2) (raised fetched2)
             = Gen [] (raised fetched2)) →
            ∃ final records2,
              fold_updated_state self' pre emitted = Ok final ∧
              (read_records self' (Some final) stream_slice w2).1
              = Ok (self', records2) ∧
              yielded records2 = []) as Hsecond.
  { intros b emitted Hb Hsub Hcover Hnone_empty Hnone_state.
    assert (Forall (fun r => ∃ c, r !! cursor_field (cls self') = Some (VStr c))
              emitted) as Hemitted.
    { apply Forall_forall. intros r Hr. rewrite Forall_forall in Htext.
      by apply Htext, Hsub. }
    destruct (fold_updated_state_str self' emitted pre b _ Hb
                (cursors_of_records self' emitted Hemitted))
      as (final & Hfold & _ & Hnil & Hcons).
    exists final.
    destruct emitted as [|r0 emitted'] eqn:Eem.
    - rewrite (Hnil eq_refl).
      destruct (dict_truthy pre) eqn:Htruthy.
      + eexists. split; [done|].
        rewrite read_records_incremental by done. simpl.
        change (set_current_slice self' stream_slice) with self'.
        change (cursor_field (cls self)) with cf. fold fetched2.
        rewrite (Hnone_state eq_refl eq_refl). done.
      + assert (pre = ∅) as ->.
        { unfold dict_truthy in Htruthy.
          by apply negb_false_iff, bool_decide_eq_true in Htruthy. }
        eexists. split; [done|].
        rewrite read_records_incremental_empty by done. simpl.
        change (set_current_slice self' stream_slice) with self'.
        fold fetched2. split; [done|].
        rewrite Hsame. by apply Hnone_empty.
    - rewrite <- Eem in *.
      assert (emitted ≠ []) as Hne by (rewrite Eem; discriminate).
      specialize (Hcons Hne).
      set (m := fold_left (fun acc c => str_max c acc)
                  ((fun r => text_of (r !! cursor_field (cls self'))) <$> emitted)
                  b) in *.
      eexists. split; [done|]. rewrite Hcons.
      rewrite read_records_incremental by (done || apply dict_truthy_singleton).
      simpl. change (set_current_slice self' stream_slice) with self'.
      change (cursor_field (cls self)) with cf. fold fetched2.
      rewrite (filter_by_cursor_str cf m);
        [|apply lookup_singleton_eq|by rewrite Hsame].
      split; [done|]. simpl. rewrite Hsame.
      apply filter_newer_than_none. intros r c Hr Hc.
      pose proof (is_maximum_fold
                    ((fun r => text_of (r !! cursor_field (cls self'))) <$> emitted)
                    b) as [_ Hmax].
      fold m in Hmax.
      destruct (Hcover r c Hr Hc) as [Hin|Hle].
      + apply Hmax, list_elem_of_further.
        apply (list_elem_of_fmap_2' _ _ r); [done|].
        change (cursor_field (cls self')) with cf. by rewrite Hc.
      + eapply string_leb_trans; [exact Hle|].
        apply Hmax, list_elem_of_here. }
  destruct Hpre as [->|[b Hb]].
  - rewrite read_records_incremental_empty by done. simpl. fold self' fetched1.
    destruct (Hsecond (start_date self) (yielded fetched1) eq_refl)
      as (final & records2 & Hfold & Hread & Hnone); eauto.
    + done.
    + exists self', fetched1, final, records2. done.
  - assert (dict_truthy pre = true) as Htruthy by eauto using dict_truthy_lookup.
    rewrite read_records_incremental by done. simpl.
    change (cursor_field (cls self)) with cf. fold self' fetched1.
    rewrite (filter_by_cursor_str cf b) by done.
    destruct (Hsecond b (List.filter (newer_than cf b) (yielded fetched1)))
      as (final & records2 & Hfold & Hread & Hnone).
    + unfold state_cursor. simpl. rewrite Htruthy. unfold dict_get.
      change (cursor_field (cls self)) with cf. by rewrite Hb.
    + intros r Hr. apply list_elem_of_In, filter_In in Hr as [Hr _].
      by apply list_elem_of_In.
    + intros r c Hr Hc.
      destruct (newer_than cf b r) eqn:Hnew.
      * left. apply list_elem_of_In, filter_In. split; [|done].
        by apply list_elem_of_In.
      * right. unfold newer_than in Hnew. rewrite Hc in Hnew.
        by apply string_leb_ltb_false.
    + intros _ Hfalse. congruence.
    + intros Hnone _. rewrite (filter_by_cursor_str cf b); [|done|by rewrite Hsame].
      by rewrite Hsame, Hnone.
    + exists self', (Gen (List.filter (newer_than cf b) (yielded fetched1))
                       (raised fetched1)), final, records2.
      done.
Qed.

Lemma read_records_missing_cursor_witness :
  (@read_records MoreExamples.gappy_api Examples.new_creatives
     (Some Examples.persisted_state) (Some MoreExamples.first_account)
     empty_world).1
  = Ok (set_current_slice Examples.new_creatives
          (Some MoreExamples.first_account),
        Gen [Examples.updated_at "2021-07-22T10:32:05.719Z"]
          (Some (KeyError "updated_at"))).
Proof.
  apply (@read_records_missing_cursor MoreExamples.gappy_api
           Examples.new_creatives Examples.persisted_state
           (Some MoreExamples.first_account) empty_world
           "2021-07-01T00:00:00.000Z"
           [Examples.updated_at "2021-07-22T10:32:05.719Z";
            Examples.updated_at "2021-06-11T08:04:42.202Z"]
           [Examples.updated_at "2021-07-22T10:47:05.780Z"]
           {[ "id" := VStr "c3c2a3b0-79b1-4b57-b0ae-7a9a526ea8fd" ]}).
  - reflexivity.
  - reflexivity.
  - reflexivity.
  - repeat constructor; eexists; reflexivity.
  - reflexivity.
Defined.

Lemma read_records_state_without_cursor_witness :
  (@read_records Examples.mocked_api Examples.new_creatives
     (Some MoreExamples.foreign_state) (Some MoreExamples.first_account)
     empty_world).1
  = Ok (set_current_slice Examples.new_creatives
          (Some MoreExamples.first_account),
        Gen [] (Some TypeError)).
Proof.
  apply (@read_records_state_without_cursor Examples.mocked_api
           Examples.new_creatives MoreExamples.foreign_state
           (Some MoreExamples.first_account) empty_world
           (Examples.updated_at "2021-07-22T10:32:05.719Z")
           (tail Examples.slice_1)).
  - reflexivity.
  - reflexivity.
  - reflexivity.
  - reflexivity.
Defined.

Lemma second_read_yields_nothing_witness :
  ∃ self1 records1 final records2,
    (@read_records Examples.mocked_api Examples.new_creatives
       (Some Examples.persisted_state) (Some MoreExamples.first_account)
       empty_world).1 = Ok (self1, records1) ∧
    fold_updated_state self1 Examples.persisted_state (yielded records1)
    = Ok final ∧
    (@read_records Examples.mocked_api self1 (Some final)
       (Some MoreExamples.first_account) empty_world).1
    = Ok (self1, records2) ∧
    yielded records2 = [].
Proof.
  apply (@second_read_yields_nothing Examples.mocked_api
           Examples.new_creatives Examples.persisted_state
           (Some MoreExamples.first_account) empty_world empty_world).
  - reflexivity.
  - reflexivity.
  - repeat constructor; eexists; reflexivity.
  - right. eexists. reflexivity.
Defined.

(** ** Merging account statistics: order, fields and failures *)

Lemma merge_step_stats_record (merged : odict) (resp : dict) :
  Forall (fun kv => stats_record kv.2 = true) merged →
  stats_record resp = true →
  Forall (fun kv => stats_record kv.2 = true)
    match od_lookup (stats_key resp) merged with
    | Some existing => od_replace (stats_key resp) (absorb existing resp) merged
    | None => merged ++ [(stats_key resp, resp)]
    end.
Proof.
  intros Hall Hresp.
  destruct (od_lookup (stats_key resp) merged) as [existing|] eqn:E.
  - induction merged as [|[k v] d IHd]; [done|].
    apply Forall_cons in Hall as [Hv Hd]. simpl in *.
    case_decide.
    + injection E as <-. apply Forall_cons. split; [|done].
      by apply absorb_stats_record.
    + apply Forall_cons. split; [done|]. by apply IHd.
  - apply Forall_app. split; [done|]. by apply Forall_singleton.
Qed.

Lemma merge_responses_keys (parsed : list dict) :
  ∀ merged : odict,
  Forall (fun resp => stats_record resp = true) parsed →
  Forall (fun kv => stats_record kv.2 = true) merged →
  ∃ out,
    merge_responses merged parsed = Ok out ∧
    out.*1 = merged.*1
             ++ filter (fun k => k ∉ merged.*1)
                  (first_occurrences (stats_key <$> parsed)).
Proof.
  induction parsed as [|resp parsed IH]; intros merged Hwf Hall.
  - exists merged. split; [done|]. simpl. by rewrite filter_nil, app_nil_r.
  - apply Forall_cons in Hwf as [Hresp Hwf]. simpl.
    rewrite (merge_response_step merged resp Hall Hresp). simpl.
    destruct (IH _ Hwf (merge_step_stats_record merged resp Hall Hresp))
      as (out & Hout & Hkeys).
    exists out. split; [done|]. rewrite Hkeys.
    destruct (od_lookup (stats_key resp) merged) as [existing|] eqn:E.
    + assert (stats_key resp ∈ merged.*1) as Hin.
      { destruct (decide (stats_key resp ∈ merged.*1)) as [|Hn]; [done|].
        apply od_lookup_None in Hn. congruence. }
      rewrite od_replace_keys. f_equal.
      rewrite filter_cons_False by (intros Hn; by apply Hn).
      rewrite list_filter_filter_l; [done|].
      intros k Hk ->. by apply Hk.
    + apply od_lookup_None in E.
      rewrite fmap_app, <- app_assoc. f_equal. simpl.
      rewrite filter_cons_True by done. f_equal.
      rewrite list_filter_filter. apply list_filter_iff.
      intros k. rewrite elem_of_app, list_elem_of_singleton. tauto.
Qed.

(** X5.  The merged records come out in the order in which their keys
    first appear in the parsed responses, whatever breakdown level a
    record came with. *)
Theorem merge_keeps_first_occurrence_order (parsed_responses : list dict) :
  Forall (fun resp => stats_record resp = true) parsed_responses →
  ∃ merged_response,
    merge_responses [] parsed_responses = Ok merged_response ∧
    merged_response.*1 = first_occurrences (stats_key <$> parsed_responses).
Proof.
  intros Hwf.
  destruct (merge_responses_keys parsed_responses [] Hwf) as (out & Hout & Hkeys);
    [constructor|].
  exists out. split; [done|]. rewrite Hkeys. simpl. clear.
  induction (first_occurrences (stats_key <$> parsed_responses)) as [|k l IHl];
    [done|].
  rewrite filter_cons_True by apply not_elem_of_nil. by rewrite IHl.
Qed.

Lemma merge_keeps_first_occurrence_order_witness :
  ∃ merged_response,
    merge_responses [] Examples.parsed_stats = Ok merged_response ∧
    merged_response.*1
    = first_occurrences (stats_key <$> Examples.parsed_stats).
Proof.
  apply (merge_keeps_first_occurrence_order Examples.parsed_stats).
  repeat (constructor; [reflexivity|]). constructor.
Defined.

Lemma breakdown_stats_absorb (earlier later : dict) (level : string) :
  breakdown_stats (absorb earlier later) !! level
  = match breakdown_stats later !! level with
    | Some v => Some v
    | None => breakdown_stats earlier !! level
    end.
Proof.
  unfold absorb, breakdown_stats at 1.
  rewrite lookup_insert_eq, lookup_union.
  destruct (breakdown_stats later !! level), (breakdown_stats earlier !! level);
    reflexivity.
Qed.

Lemma fold_absorb_field (later : list dict) (first : dict) (field : string) :
  field ≠ "breakdown_stats" →
  fold_left absorb later first !! field = first !! field.
Proof.
  intros Hne. revert first.
  induction later as [|resp later IH]; intros first; simpl; [done|].
  rewrite IH. unfold absorb. by rewrite lookup_insert_ne.
Qed.

Lemma fold_absorb_level (later : list dict) (first : dict) (level : string) :
  breakdown_stats (fold_left absorb later first) !! level
  = level_after level later (breakdown_stats first !! level).
Proof.
  unfold level_after. revert first.
  induction later as [|resp later IH]; intros first; simpl; [done|].
  by rewrite IH, breakdown_stats_absorb.
Qed.

(** X6.  The record returned for a key is the first parsed record with
    that key in every field but [breakdown_stats]: whatever else the later
    records of the key carry is dropped.  Each breakdown level has the
    value of the last record of the key that holds it. *)
Theorem merge_keeps_first_record_fields (parsed_responses : list dict)
    (merged_response : odict) (k : string) (first : dict) (later : list dict) :
  Forall (fun resp => stats_record resp = true) parsed_responses →
  merge_responses [] parsed_responses = Ok merged_response →
  filter (fun resp => stats_key resp = k) parsed_responses = first :: later →
  ∃ record,
    od_lookup k merged_response = Some record ∧
    (∀ field, field ≠ "breakdown_stats" → record !! field = first !! field) ∧
    (∀ level, breakdown_stats record !! level
              = level_after level later (breakdown_stats first !! level)).
Proof.
  intros Hwf Hmerge Hgroup.
  destruct (merge_responses_inv parsed_responses [] [] Hwf)
    as (out & Hout & _ & _ & Hgroups); [constructor|apply merged_by_key_nil|].
  rewrite Hmerge in Hout. injection Hout as <-.
  exists (fold_left absorb later first). split; [by apply Hgroups|]. split.
  - intros field Hfield. by apply fold_absorb_field.
  - intros level. apply fold_absorb_level.
Qed.

Lemma merge_keeps_first_record_fields_witness :
  ∃ record,
    od_lookup
      (stats_key (Examples.timeseries_stat "2021-11-01T00:00:00.000Z"
                    "2021-11-02T00:00:00.000Z" "campaign" 50000000))
      [(stats_key (Examples.timeseries_stat "2021-11-01T00:00:00.000Z"
                     "2021-11-02T00:00:00.000Z" "campaign" 50000000),
        absorb (Examples.timeseries_stat "2021-11-01T00:00:00.000Z"
                  "2021-11-02T00:00:00.000Z" "campaign" 50000000)
               (Examples.timeseries_stat "2021-11-01T00:00:00.000Z"
                  "2021-11-02T00:00:00.000Z" "adsquad" 50000000));
       (stats_key (Examples.timeseries_stat "2021-11-02T00:00:00.000Z"
                     "2021-11-03T00:00:00.000Z" "campaign" 40000000),
        Examples.timeseries_stat "2021-11-02T00:00:00.000Z"
          "2021-11-03T00:00:00.000Z" "campaign" 40000000)]
    = Some record ∧
    (∀ field, field ≠ "breakdown_stats" →
       record !! field
       = Examples.timeseries_stat "2021-11-01T00:00:00.000Z"
           "2021-11-02T00:00:00.000Z" "campaign" 50000000 !! field) ∧
    (∀ level,
       breakdown_stats record !! level
       = level_after level
           [Examples.timeseries_stat "2021-11-01T00:00:00.000Z"
              "2021-11-02T00:00:00.000Z" "adsquad" 50000000]
           (breakdown_stats
              (Examples.timeseries_stat "2021-11-01T00:00:00.000Z"
                 "2021-11-02T00:00:00.000Z" "campaign" 50000000) !! level)).
Proof.
  apply (merge_keeps_first_record_fields Examples.parsed_stats).
  - repeat (constructor; [reflexivity|]). constructor.
  - reflexivity.
  - reflexivity.
Defined.

Lemma str_join_raises (parts : list value) (e : exn) :
  str_join parts = Raise e → e = TypeError.
Proof.
  induction parts as [|v parts IH]; [done|].
  destruct v; simpl; try (by intros [= <-]).
  destruct (str_join parts); simpl; [done|]. intros [= <-]. by apply IH.
Qed.

Lemma str_join_not_text (parts : list value) (v : value) :
  v ∈ parts → (∀ s, v ≠ VStr s) → str_join parts = Raise TypeError.
Proof.
  intros Hin Hv. induction parts as [|v' parts IH]; [by apply elem_of_nil in Hin|].
  apply elem_of_cons in Hin as [<-|Hin].
  - destruct v; try reflexivity. by destruct (Hv s).
  - destruct v'; try reflexivity. simpl. by rewrite (IH Hin).
Qed.

Lemma merge_response_raises (merged : odict) (resp : dict) (e : exn) :
  merge_response merged resp = Raise e → e = TypeError.
Proof.
  unfold merge_response.
  destruct (account_stats_key resp) as [k|e'] eqn:Hk; simpl.
  - destruct (od_lookup k merged) as [existing|]; [|done].
    destruct (dict_get existing "breakdown_stats" (VDict ∅)); simpl;
      try (by intros [= <-]).
    destruct (dict_get resp "breakdown_stats" (VDict ∅)); simpl;
      try (by intros [= <-]).
  - intros [= <-]. by apply str_join_raises in Hk.
Qed.

Lemma merge_responses_raises (parsed : list dict) :
  ∀ (merged : odict) (e : exn),
  merge_responses merged parsed = Raise e → e = TypeError.
Proof.
  induction parsed as [|resp parsed IH]; intros merged e; simpl; [done|].
  destruct (merge_response merged resp) as [merged'|e'] eqn:Hstep; simpl.
  - apply IH.
  - intros [= <-]. by apply merge_response_raises in Hstep.
Qed.

Lemma merge_parsed_responses_mappings (merged : odict) (parsed : list dict) :
  merge_parsed_responses merged (VDict <$> parsed)
  = merge_responses merged parsed.
Proof.
  revert merged. induction parsed as [|resp parsed IH]; intros merged; [done|].
  rewrite fmap_cons. simpl.
  destruct (merge_response merged resp) as [merged'|e]; simpl; [apply IH|done].
Qed.

Lemma merge_parsed_responses_raises (parsed : list value) :
  ∀ (merged : odict) (e : exn),
  merge_parsed_responses merged parsed = Raise e →
  e = TypeError ∨
  (e = AttributeError ∧ ∃ resp, resp ∈ parsed ∧ ∀ d, resp ≠ VDict d).
Proof.
  induction parsed as [|resp parsed IH]; intros merged e; simpl; [done|].
  destruct (merge_parsed_response merged resp) as [merged'|e'] eqn:Hstep; simpl.
  - intros Hrest. destruct (IH _ _ Hrest) as [->|(-> & v & Hv & Hnot)]; [by left|].
    right. split; [done|]. exists v. split; [by apply list_elem_of_further|done].
  - intros [= <-]. destruct resp; simpl in Hstep;
      try (injection Hstep as <-; right; split; [done|];
           eexists; split; [apply list_elem_of_here|discriminate]).
    left. by apply merge_response_raises in Hstep.
Qed.

(** X7.  One parsed record that is a JSON object without a text [id],
    [type], [start_time] or [end_time] makes the whole merge fail, whatever
    the other parsed items are: with TypeError, unless an item that is not
    a JSON object comes first and its [get] raises AttributeError.  The
    merge raises nothing but TypeError, and AttributeError for an item that
    is not a JSON object. *)
Theorem merge_rejects_record_without_key_field (merged_response : odict)
    (parsed_responses : list value) (resp : dict) (field : string) :
  VDict resp ∈ parsed_responses →
  field ∈ ["id"; "type"; "start_time"; "end_time"] →
  is_text (resp !! field) = false →
  (∃ e, merge_parsed_responses merged_response parsed_responses = Raise e ∧
        (e = TypeError ∨ e = AttributeError) ∧
        (Forall (fun item => ∃ d, item = VDict d) parsed_responses →
         e = TypeError)) ∧
  ∀ (merged : odict) (parsed : list value) (e : exn),
    merge_parsed_responses merged parsed = Raise e →
    e = TypeError ∨
    (e = AttributeError ∧ ∃ item, item ∈ parsed ∧ ∀ d, item ≠ VDict d).
Proof.
  intros Hin Hfield Htext.
  split; [|intros merged parsed e; apply merge_parsed_responses_raises].
  assert (account_stats_key resp = Raise TypeError) as Hkey.
  { apply (str_join_not_text _ (dict_get resp field VNone)).
    - unfold account_stats_key.
      repeat (apply elem_of_cons in Hfield as [->|Hfield];
              [eauto using list_elem_of_here, list_elem_of_further|]).
      by apply elem_of_nil in Hfield.
    - intros s E. unfold dict_get in E.
      destruct (resp !! field) as [v|]; [|done]. by subst v. }
  assert (∃ e, merge_parsed_responses merged_response parsed_responses = Raise e)
    as [e He].
  { revert merged_response.
    induction parsed_responses as [|item parsed IH]; intros merged;
      [by apply elem_of_nil in Hin|].
    simpl. destruct (merge_parsed_response merged item) as [merged'|e] eqn:Hstep;
      simpl; [|eauto].
    apply elem_of_cons in Hin as [<-|Hin]; [|by apply IH].
    simpl in Hstep. unfold merge_response in Hstep. by rewrite Hkey in Hstep. }
  exists e. split; [done|].
  destruct (merge_parsed_responses_raises _ _ _ He)
    as [->|(-> & item & Hitem & Hnot)].
  - split; [by left|done].
  - split; [by right|]. intros Hall. rewrite Forall_forall in Hall.
    destruct (Hall item Hitem) as [d ->]. by destruct (Hnot d).
Qed.

Lemma merge_rejects_record_without_key_field_witness :
  (∃ e, merge_parsed_responses [] [VDict MoreExamples.total_stat] = Raise e ∧
        (e = TypeError ∨ e = AttributeError) ∧
        (Forall (fun item => ∃ d, item = VDict d) [VDict MoreExamples.total_stat] →
         e = TypeError)) ∧
  ∀ (merged : odict) (parsed : list value) (e : exn),
    merge_parsed_responses merged parsed = Raise e →
    e = TypeError ∨
    (e = AttributeError ∧ ∃ item, item ∈ parsed ∧ ∀ d, item ≠ VDict d).
Proof.
  apply (merge_rejects_record_without_key_field [] [VDict MoreExamples.total_stat]
           MoreExamples.total_stat "start_time").
  - apply list_elem_of_here.
  - do 2 apply list_elem_of_further. apply list_elem_of_here.
  - reflexivity.
Defined.

(** A [null] among the parsed items ends the merge with AttributeError. *)
Example merge_null_item :
  merge_parsed_responses []
    [VDict (Examples.timeseries_stat "2021-11-01T00:00:00.000Z"
              "2021-11-02T00:00:00.000Z" "campaign" 50000000); VNone]
  = Raise AttributeError.
Proof. reflexivity. Qed.

(** ** Slices: keys, the cache and the generator *)

Lemma extract_slice_lookup (record : dict) (keys : list string) :
  ∀ acc : dict,
  (∀ k, k ∈ keys → is_Some (record !! k)) →
  ∃ s, extract_slice record keys acc = Ok s ∧
       ∀ k, s !! k = if decide (k ∈ keys) then record !! k else acc !! k.
Proof.
  induction keys as [|key keys IH]; intros acc Hkeys; cbn [extract_slice].
  - exists acc. split; [done|]. intros k.
    destruct (decide (k ∈ [])) as [Hin|]; [by apply elem_of_nil in Hin|done].
  - destruct (Hkeys key (list_elem_of_here _ _)) as [v Hv].
    unfold subscript. rewrite Hv. cbn [mbind result_bind].
    destruct (IH (<[key := v]> acc)) as (s & Hs & Hlookup).
    { intros k Hk. by apply Hkeys, list_elem_of_further. }
    exists s. split; [done|]. intros k. rewrite Hlookup.
    destruct (decide (k ∈ keys)) as [Hin|Hnotin].
    + rewrite decide_True; [done|by apply list_elem_of_further].
    + destruct (decide (k = key)) as [->|Hne].
      * rewrite decide_True by apply list_elem_of_here.
        by rewrite lookup_insert_eq.
      * rewrite decide_False by (by intros [?|?]%elem_of_cons).
        by rewrite lookup_insert_ne.
Qed.

Lemma extract_slice_missing (record : dict) (pre : list string) :
  ∀ (k : string) (post : list string) (acc : dict),
  (∀ k', k' ∈ pre → is_Some (record !! k')) →
  record !! k = None →
  extract_slice record (pre ++ k :: post) acc = Raise (KeyError k).
Proof.
  induction pre as [|key pre IH]; intros k post acc Hpre Hk; simpl.
  - unfold subscript. by rewrite Hk.
  - destruct (Hpre key (list_elem_of_here _ _)) as [v Hv].
    unfold subscript. rewrite Hv. simpl. apply IH; [|done].
    intros k' Hk'. by apply Hpre, list_elem_of_further.
Qed.

Lemma extract_slice_dom (record : dict) (keys : list string) :
  ∀ acc s : dict,
  extract_slice record keys acc = Ok s →
  dom s = (list_to_set keys ∪ dom acc : gset string).
Proof.
  induction keys as [|key keys IH]; intros acc s; simpl.
  - intros [= <-]. by rewrite (left_id_L ∅ (∪)).
  - destruct (subscript record key) as [v|e]; simpl; [|done].
    intros Hs. rewrite (IH _ _ Hs), dom_insert_L.
    rewrite (assoc_L (∪)). f_equal. apply (comm_L (∪)).
Qed.

(** X8.  A slice is the parent record cut down to the requested keys: it
    has exactly those keys, each with the record's value.  A record that
    lacks one of them raises KeyError for the first key it lacks. *)
Theorem extract_slice_projects (record : dict) (slice_key_names : list string) :
  ((∀ k, k ∈ slice_key_names → is_Some (record !! k)) →
   ∃ stream_slice,
     extract_slice record slice_key_names ∅ = Ok stream_slice ∧
     dom stream_slice = (list_to_set slice_key_names : gset string) ∧
     ∀ k, k ∈ slice_key_names → stream_slice !! k = record !! k) ∧
  (∀ pre k post,
     slice_key_names = pre ++ k :: post →
     (∀ k', k' ∈ pre → is_Some (record !! k')) →
     record !! k = None →
     extract_slice record slice_key_names ∅ = Raise (KeyError k)).
Proof.
  split.
  - intros Hkeys.
    destruct (extract_slice_lookup record slice_key_names ∅ Hkeys)
      as (s & Hs & Hlookup).
    exists s. split; [done|]. split.
    + rewrite (extract_slice_dom _ _ _ _ Hs), dom_empty_L.
      apply (right_id_L ∅ (∪)).
    + intros k Hk. by rewrite Hlookup, decide_True.
  - intros pre k post -> Hpre Hk. by apply extract_slice_missing.
Qed.

Lemma extract_slice_projects_witness :
  (∃ stream_slice,
     extract_slice
       (Examples.adaccount "8adc3db7-8148-4fbf-999c-8d2266369d74"
          "2016-08-11T22:03:58.869Z") ["id"; "timezone"] ∅ = Ok stream_slice ∧
     dom stream_slice = (list_to_set ["id"; "timezone"] : gset string) ∧
     ∀ k, k ∈ ["id"; "timezone"] →
          stream_slice !! k
          = Examples.adaccount "8adc3db7-8148-4fbf-999c-8d2266369d74"
              "2016-08-11T22:03:58.869Z" !! k) ∧
  extract_slice
    (Examples.organization "40d6719b-da09-410b-9185-0cc9c0dfed1d")
    ["id"; "timezone"] ∅ = Raise (KeyError "timezone").
Proof.
  split.
  - apply (extract_slice_projects
             (Examples.adaccount "8adc3db7-8148-4fbf-999c-8d2266369d74"
                "2016-08-11T22:03:58.869Z") ["id"; "timezone"]).
    intros k Hk.
    apply elem_of_cons in Hk as [->|Hk]; [by eexists|].
    apply elem_of_cons in Hk as [->|Hk]; [by eexists|].
    by apply elem_of_nil in Hk.
  - apply (extract_slice_projects
             (Examples.organization "40d6719b-da09-410b-9185-0cc9c0dfed1d")
             ["id"; "timezone"]) with (pre := ["id"]) (post := []).
    + reflexivity.
    + intros k Hk. apply list_elem_of_singleton in Hk as ->. by eexists.
    + reflexivity.
Defined.

Lemma append_slices_with_keys (keys : list string) (records : list dict)
    (ending : option exn) :
  ∀ acc out : list (option dict),
  append_slices keys records ending acc = Ok out →
  slices_with_keys keys acc → slices_with_keys keys out.
Proof.
  induction records as [|record records IH]; intros acc out; simpl.
  - destruct ending; [done|]. by intros [= <-].
  - destruct (extract_slice record keys ∅) as [s|e] eqn:Hs; simpl; [|done].
    intros Hout Hacc. apply (IH _ _ Hout).
    apply Forall_app. split; [done|]. apply Forall_singleton.
    exists s. split; [done|].
    rewrite (extract_slice_dom _ _ _ _ Hs), dom_empty_L.
    apply (right_id_L ∅ (∪)).
Qed.

Section cache_invariant.
Context `{Runtime}.

Lemma same_cache_ret {A : Type} (a : A) : same_cache (mret a).
Proof. intros w. done. Qed.

Lemma same_cache_lift {A : Type} (r : result A) : same_cache (lift r).
Proof. intros w. done. Qed.

Lemma same_cache_bind {A B : Type} (m : M A) (f : A → M B) :
  same_cache m → (∀ a, same_cache (f a)) → same_cache (m ≫= f).
Proof.
  intros Hm Hf w. unfold mbind, M_bind.
  specialize (Hm w). destruct (m w) as [[a|e] w']; simpl in *; [|done].
  by rewrite Hf.
Qed.

Lemma same_cache_http_read (self : stream) (s : option dict) :
  same_cache (http_read self s).
Proof. intros w. done. Qed.

Lemma same_cache_stats_fetch (self : stream) (s : option dict)
    (level fields : string) :
  same_cache (stats_fetch self s level fields).
Proof. intros w. done. Qed.

#[local] Hint Resolve same_cache_ret same_cache_lift same_cache_http_read
  same_cache_stats_fetch : cache.
#[local] Hint Extern 2 (same_cache (_ ≫= _)) =>
  apply same_cache_bind; [|intros ?] : cache.

Lemma same_cache_merge_breakdown_levels (self : stream)
    (s : option dict) (levels : list (string * string)) (merged : odict) :
  same_cache (merge_breakdown_levels self s levels merged).
Proof.
  revert merged. induction levels as [|[level fields] levels IH]; intros merged;
    simpl; auto with cache.
Qed.

(** Reading records never writes to [auxiliary_record_map]. *)
Lemma same_cache_read_records (self : stream)
    (stream_state stream_slice : option dict) :
  same_cache (read_records self stream_state stream_slice).
Proof.
  unfold read_records. destruct (base (cls self)).
  - auto with cache.
  - unfold Incremental_read_records.
    apply same_cache_bind; [auto with cache|].
    intros records. destruct stream_state as [state|];
      [destruct (dict_truthy state)|]; auto with cache.
  - intros w.
    assert (same_cache (AdaccountStats_read_records self stream_state
                          stream_slice)) as Hk.
    { unfold AdaccountStats_read_records.
      apply same_cache_bind; [apply same_cache_merge_breakdown_levels|].
      auto with cache. }
    specialize (Hk w).
    by destruct (AdaccountStats_read_records self stream_state stream_slice w)
      as [[records|e] w'].
Qed.

Lemma same_cache_read_slices (keys : list string)
    (slices : list (option dict)) (ending : option exn) :
  ∀ (depend_on_stream : stream) (acc : list (option dict)),
  same_cache (read_slices read_records keys depend_on_stream slices ending acc).
Proof.
  induction slices as [|s slices IH]; intros depend_on_stream acc; simpl.
  - destruct ending; auto with cache.
  - apply same_cache_bind.
    + destruct (opt_truthy s); apply same_cache_read_records.
    + intros [depend_on_stream' records]. auto with cache.
Qed.

Lemma read_slices_with_keys (keys : list string) (slices : list (option dict))
    (ending : option exn) :
  ∀ (depend_on_stream : stream) (acc out : list (option dict)) (w w' : world),
  read_slices read_records keys depend_on_stream slices ending acc w
  = (Ok out, w') →
  slices_with_keys keys acc → slices_with_keys keys out.
Proof.
  induction slices as [|s slices IH]; intros dep acc out w w'; simpl.
  - destruct ending; [done|]. by intros [= <- _].
  - unfold mbind at 1, M_bind at 1.
    destruct ((if opt_truthy s then read_records dep None s
               else read_records dep None None) w)
      as [[[dep' records]|e] w1]; [|done].
    unfold mbind at 1, M_bind at 1, lift.
    destruct (append_slices keys (yielded records) (raised records) acc)
      as [acc'|e] eqn:Happ; [|done].
    intros Hout Hacc. apply (IH _ _ _ _ _ Hout).
    by apply (append_slices_with_keys _ _ _ _ _ Happ).
Qed.

Lemma cache_well_formed_get_depend_on_records_with
    (slices_of : stream_class → stream → M (stream * gen (option dict)))
    (d : option stream_class) (config : stream_config) (keys : list string)
    (w : world) :
  (∀ parent self w, d = Some parent → cache_well_formed w →
                    cache_well_formed (slices_of parent self w).2) →
  cache_well_formed w →
  cache_well_formed (get_depend_on_records_with slices_of d config keys w).2.
Proof.
  intros Hslices Hw. destruct d as [parent|]; [|done].
  unfold get_depend_on_records_with.
  destruct (auxiliary_record_map w !! __name__ parent) as [cached|] eqn:E;
    [done|].
  unfold mbind, M_bind, lift.
  destruct (new_stream parent config) as [dep|e]; [|done].
  pose proof (Hslices parent dep w eq_refl Hw) as H1.
  destruct (slices_of parent dep w) as [[[dep' slices]|e] w1]; [|done].
  pose proof (same_cache_read_slices keys (yielded slices) (raised slices)
                dep' [] w1) as H2.
  destruct (read_slices read_records keys dep' (yielded slices)
              (raised slices) [] w1) as [[[|r records]|e] w2] eqn:Hread;
    simpl in H2 |- *; unfold cache_well_formed in *; try (by rewrite H2).
  apply map_Forall_insert_2; [|by rewrite H2].
  split; [done|]. exists keys.
  eapply read_slices_with_keys; [exact Hread|constructor].
Qed.

Lemma cache_well_formed_stream_slices_of (c : stream_class) :
  ∀ self w, cache_well_formed w →
            cache_well_formed (stream_slices_of c self w).2.
Proof.
  induction c as [c IH] using stream_class_parents_ind. intros self w Hw.
  rewrite stream_slices_of_unfold.
  destruct (base c); [done| |];
    (pose proof (cache_well_formed_get_depend_on_records_with stream_slices_of
                   (depends_on_stream c) (StreamConfig (start_date self))
                   (slice_key_names c) w
                   (fun parent self w E => IH parent E self w) Hw) as Hk;
     destruct (get_depend_on_records_with stream_slices_of (depends_on_stream c)
                 (StreamConfig (start_date self)) (slice_key_names c) w)
       as [[[|s slices]|e] w']; [|done|done];
     destruct (depends_on_stream c); exact Hk).
Qed.

(** X9.  Whatever the connector's entry points are called with, every
    list in [auxiliary_record_map] stays non-empty and holds only mappings
    that all have the same keys: an empty result is never stored, and
    [None] never enters a stored list. *)
Theorem run_keeps_cache_well_formed (actions : list action) (w : world) :
  cache_well_formed w → cache_well_formed (run actions w).
Proof.
  revert w. induction actions as [|a actions IH]; intros w Hw; [done|].
  simpl. apply IH. destruct a; simpl.
  - apply cache_well_formed_get_depend_on_records_with; [|done].
    intros parent self w' _. apply cache_well_formed_stream_slices_of.
  - by apply cache_well_formed_stream_slices_of.
  - unfold cache_well_formed. by rewrite same_cache_read_records.
Qed.

End cache_invariant.

Lemma run_keeps_cache_well_formed_witness :
  cache_well_formed
    (@run Examples.mocked_api
       [CallStreamSlices Examples.new_creatives;
        CallStreamSlices Examples.adaccount_stats] empty_world).
Proof.
  apply (@run_keeps_cache_well_formed Examples.mocked_api).
  apply map_Forall_empty.
Defined.

(** X10.  The slices a miss stores have exactly the keys that call asked
    for, and every later call for the same parent receives them whatever
    keys it asks for.  So when a stream that needs only [id] has resolved
    the ad accounts first, the stats requests that follow find no
    [timezone] in their slices and take [None] as the time zone. *)
Theorem cached_slices_keep_first_keys `{Runtime} (parent : stream_class)
    (config : stream_config) (keys : list string) (w w' : world)
    (records : list (option dict)) :
  auxiliary_record_map w !! __name__ parent = None →
  get_depend_on_records (Some parent) config keys w = (Ok records, w') →
  records ≠ [] →
  slices_with_keys keys records ∧
  (∀ (actions : list action) (config' : stream_config) (keys' : list string),
     (get_depend_on_records (Some parent) config' keys' (run actions w')).1
     = Ok records) ∧
  ("timezone" ∉ keys →
   Forall (fun stream_slice => account_timezone stream_slice = VNone) records).
Proof.
  intros Hmiss Hcall Hne.
  assert (slices_with_keys keys records) as Hkeys.
  { revert Hcall. unfold get_depend_on_records, get_depend_on_records_with.
    rewrite Hmiss. unfold mbind, M_bind, lift.
    destruct (new_stream parent config) as [dep|e]; [|done].
    destruct (stream_slices_of parent dep w) as [[[dep' slices]|e] w1]; [|done].
    destruct (read_slices read_records keys dep' (yielded slices)
                (raised slices) [] w1) as [[out|e] w2] eqn:Hread; [|done].
    assert (slices_with_keys keys out) as Hout
      by (eapply read_slices_with_keys; [exact Hread|constructor]).
    destruct out; by intros [= <- _]. }
  split; [done|]. split.
  - intros actions config' keys'.
    rewrite (get_depend_on_records_hit parent config' keys' _ records); [done|].
    eapply lookup_weaken; [|apply run_keeps_cache].
    by eapply get_depend_on_records_populates.
  - intros Htz. eapply Forall_impl; [exact Hkeys|].
    intros s (d & -> & Hdom). simpl.
    assert (d !! "timezone" = None) as Hnone.
    { apply not_elem_of_dom. rewrite Hdom. by rewrite elem_of_list_to_set. }
    unfold dict_get. rewrite Hnone. by destruct (dict_truthy d).
Qed.

Lemma cached_slices_keep_first_keys_witness :
  let first :=
    @get_depend_on_records Examples.mocked_api (Some Adaccounts)
      (StreamConfig "2021-01-01T00:00:00+00:00") ["id"] empty_world in
  let records :=
    [Some {[ "id" := VStr "8adc3db7-8148-4fbf-999c-8d2266369d74" ]};
     Some {[ "id" := VStr "81cf9302-764c-429a-8561-e3bc329cf987" ]}] in
  slices_with_keys ["id"] records ∧
  (∀ (actions : list action) (config' : stream_config) (keys' : list string),
     (@get_depend_on_records Examples.mocked_api (Some Adaccounts) config' keys'
        (@run Examples.mocked_api actions first.2)).1 = Ok records) ∧
  ("timezone" ∉ ["id"] →
   Forall (fun stream_slice => account_timezone stream_slice = VNone) records).
Proof.
  intros first records.
  apply (@cached_slices_keep_first_keys Examples.mocked_api Adaccounts
           (StreamConfig "2021-01-01T00:00:00+00:00") ["id"] empty_world
           first.2 records).
  - reflexivity.
  - assert (first.1 = Ok records) as Hresult by reflexivity.
    rewrite <- Hresult. apply surjective_pairing.
  - discriminate.
Defined.

Lemma last_default {A : Type} (x : A) (l : list A) (d d' : A) :
  List.last (x :: l) d = List.last (x :: l) d'.
Proof.
  revert x. induction l as [|y l IH]; intros x; [done|].
  change (List.last (y :: l) d = List.last (y :: l) d'). apply IH.
Qed.

(** X11.  [stream_slices] is all or nothing: either it yields at least one
    slice and ends normally, with [last_slice] set to the last slice it
    yields (the base class yields the single slice [None] and sets
    nothing), or it raises before it yields anything and leaves the stream
    object as it was.  It never ends normally without a slice. *)
Theorem stream_slices_all_or_nothing `{Runtime} (self : stream) (w : world) :
  ∃ self' slices w',
    stream_slices self w = (Ok (self', slices), w') ∧
    ((raised slices = None ∧ yielded slices ≠ [] ∧
      match base (cls self) with
      | SnapchatMarketingStream => self' = self ∧ yielded slices = [None]
      | _ => self' = set_last_slice self (List.last (yielded slices) None)
      end) ∨
     (∃ e, raised slices = Some e) ∧ yielded slices = [] ∧ self' = self).
Proof.
  unfold stream_slices. rewrite stream_slices_of_unfold.
  destruct (base (cls self)) eqn:Hbase.
  - do 3 eexists. split; [reflexivity|]. left. done.
  - destruct (get_depend_on_records_with stream_slices_of
                (depends_on_stream (cls self)) (StreamConfig (start_date self))
                (slice_key_names (cls self)) w) as [[[|s slices]|e] w'].
    + destruct (depends_on_stream (cls self));
        do 3 eexists; (split; [reflexivity|]); right; eauto.
    + do 3 eexists. split; [reflexivity|]. left. simpl.
      split; [done|]. split; [done|]. f_equal. apply last_default.
    + do 3 eexists. split; [reflexivity|]. right. eauto.
  - destruct (get_depend_on_records_with stream_slices_of
                (depends_on_stream (cls self)) (StreamConfig (start_date self))
                (slice_key_names (cls self)) w) as [[[|s slices]|e] w'].
    + destruct (depends_on_stream (cls self));
        do 3 eexists; (split; [reflexivity|]); right; eauto.
    + do 3 eexists. split; [reflexivity|]. left. simpl.
      split; [done|]. split; [done|]. f_equal. apply last_default.
    + do 3 eexists. split; [reflexivity|]. right. eauto.
Qed.

(** ** Parsing responses *)

Lemma string_concat_cons (x : string) (l : list string) :
  String.concat "" (x :: l) = x +:+ String.concat "" l.
Proof. destruct l; [|done]. simpl. by rewrite string_app_empty. Qed.

Lemma code_points_snoc (s : string) (a : Ascii.ascii) :
  is_continuation a = false →
  code_points (s +:+ String a "")
  = ((code_points s).1, (code_points s).2 ++ [String a ""]).
Proof.
  intros Ha. induction s as [|b s IH].
  - change (code_points (String a "") = ("", [String a ""])).
    simpl. by rewrite Ha.
  - change (code_points (String b (s +:+ String a ""))
            = ((code_points (String b s)).1,
               (code_points (String b s)).2 ++ [String a ""])).
    simpl. rewrite IH. destruct (code_points s) as [c l]. simpl.
    by destruct (is_continuation b).
Qed.

Lemma characters_snoc (s : string) (a : Ascii.ascii) :
  is_continuation a = false →
  characters (s +:+ String a "") = characters s ++ [String a ""].
Proof.
  intros Ha. unfold characters. rewrite (code_points_snoc s a Ha).
  destruct (code_points s) as [c l]. simpl. by destruct c.
Qed.

(** The characters of a text, put together again, are the text. *)
Lemma concat_characters (s : string) : String.concat "" (characters s) = s.
Proof.
  assert ((code_points s).1 +:+ String.concat "" (code_points s).2 = s) as Hs.
  { induction s as [|a s IH]; [done|]. cbn [code_points].
    destruct (code_points s) as [c l]. cbn [fst snd] in IH.
    destruct (is_continuation a); cbn [fst snd].
    - change (String a (c +:+ String.concat "" l) = String a s). by rewrite IH.
    - rewrite string_concat_cons.
      change (String a (c +:+ String.concat "" l) = String a s). by rewrite IH. }
  unfold characters. destruct (code_points s) as [c l]. simpl in Hs.
  destruct c; [done|]. by rewrite string_concat_cons.
Qed.

Lemma drop_last_char_snoc (s : string) (a : Ascii.ascii) :
  is_continuation a = false → drop_last_char (s +:+ String a "") = s.
Proof.
  intros Ha. unfold drop_last_char.
  by rewrite (characters_snoc s a Ha), removelast_last, concat_characters.
Qed.

(** X12.  The item name is the stream name without its last character
    (for every name that ends in a one-byte character), except for Media,
    whose items go by the root name itself, and for AdaccountStats, whose
    items are [total_stat], [lifetime_stat] or [timeseries_stat]; with an
    unsupported granularity there is no root name to cut and the property
    raises TypeError. *)
Theorem response_item_name_spec (self : stream) :
  match base (cls self) with
  | AdaccountStatsStream =>
      response_item_name self
      = if py_eq (granularity self) (VStr "TOTAL") then Ok "total_stat"
        else if py_eq (granularity self) (VStr "LIFETIME") then Ok "lifetime_stat"
        else if py_eq (granularity self) (VStr "DAY")
                || py_eq (granularity self) (VStr "HOUR")
        then Ok "timeseries_stat"
        else Raise TypeError
  | _ =>
      if overrides_response_item_name (cls self)
      then response_item_name self = Ok (name (cls self))
      else ∀ stem a, name (cls self) = stem +:+ String a "" →
                     is_continuation a = false →
                     response_item_name self = Ok stem
  end.
Proof.
  unfold response_item_name, response_root_name.
  destruct (base (cls self)) eqn:Hbase; simpl.
  - unfold overrides_response_item_name. rewrite Hbase, andb_false_r.
    intros stem a -> Ha. by rewrite drop_last_char_snoc.
  - destruct (overrides_response_item_name (cls self)); [done|].
    intros stem a -> Ha. by rewrite drop_last_char_snoc.
  - unfold overrides_response_item_name. rewrite Hbase, andb_false_r.
    destruct (py_eq (granularity self) (VStr "TOTAL")); [done|].
    destruct (py_eq (granularity self) (VStr "LIFETIME")); [done|].
    by destruct (py_eq (granularity self) (VStr "DAY")
                 || py_eq (granularity self) (VStr "HOUR")).
Qed.

Lemma response_root_name_cases (self : stream) :
  response_root_name self = Ok VNone ∨
  ∃ root_name, response_root_name self = Ok (VStr root_name).
Proof.
  unfold response_root_name. destruct (base (cls self)); eauto.
  destruct (py_eq (granularity self) (VStr "TOTAL")); eauto.
  destruct (py_eq (granularity self) (VStr "LIFETIME")); eauto.
  destruct (py_eq (granularity self) (VStr "DAY")
            || py_eq (granularity self) (VStr "HOUR")); eauto.
Qed.

(** The loop over a run of entries that hold the item. *)
Lemma parse_items_app (self : stream) (item_name : string)
    (entries : list value) (items : list value) (rest : list value) :
  response_item_name self = Ok item_name →
  Forall2 (fun resp item => ∃ d : dict, resp = VDict d ∧ d !! item_name = Some item)
    entries items →
  parse_items self (entries ++ rest)
  = (Gen (items ++ yielded (parse_items self rest).1)
       (raised (parse_items self rest).1),
     (parse_items self rest).2).
Proof.
  intros Hname. induction 1 as [|resp item entries items (d & -> & Hd) _ IH].
  - simpl. by destruct (parse_items self rest) as [[] ?].
  - simpl. rewrite Hname. simpl.
    rewrite bool_decide_eq_true_2 by (by rewrite Hd).
    unfold dict_get. rewrite Hd, IH. reflexivity.
Qed.

(** X13.  A response whose root list holds one object per entry, each
    with the item under the item name, yields those items in order, logs
    nothing and ends normally. *)
Theorem parse_response_yields_items `{Iteration} (self : stream) (body : dict)
    (root_name item_name : string) (entries items : list value) :
  response_root_name self = Ok (VStr root_name) →
  response_item_name self = Ok item_name →
  body !! root_name = Some (VList entries) →
  Forall2 (fun resp item => ∃ d : dict, resp = VDict d ∧ d !! item_name = Some item)
    entries items →
  parse_response self (VDict body) = (Gen items None, []).
Proof.
  intros Hroot Hitem Hbody Hentries. unfold parse_response.
  rewrite Hroot. simpl. unfold dict_get. rewrite Hbody. simpl.
  rewrite <- (app_nil_r entries), (parse_items_app self item_name _ items) by done.
  simpl. by rewrite app_nil_r.
Qed.

(** X14.  The first entry without the item ends the generator: the items
    of the entries before it have been yielded, the error text naming the
    item and the stream is logged once and raised as
    SnapchatMarketingException, and the entries after it are not read. *)
Theorem parse_response_absent_item `{Iteration} (self : stream) (body : dict)
    (root_name item_name : string) (entries rest items : list value)
    (entry : dict) :
  response_root_name self = Ok (VStr root_name) →
  response_item_name self = Ok item_name →
  body !! root_name = Some (VList (entries ++ VDict entry :: rest)) →
  Forall2 (fun resp item => ∃ d : dict, resp = VDict d ∧ d !! item_name = Some item)
    entries items →
  entry !! item_name = None →
  let error_text :=
    "JSON field named '" +:+ item_name +:+ "' is absent in the response for "
    +:+ name (cls self) +:+ " stream" in
  parse_response self (VDict body)
  = (Gen items (Some (SnapchatMarketingException error_text)), [error_text]).
Proof.
  intros Hroot Hitem Hbody Hentries Hentry error_text. unfold parse_response.
  rewrite Hroot. simpl. unfold dict_get. rewrite Hbody. simpl.
  rewrite (parse_items_app self item_name _ items) by done.
  simpl. rewrite Hitem. simpl.
  rewrite bool_decide_eq_false_2 by (rewrite Hentry; by intros [? ?]).
  simpl. by rewrite app_nil_r.
Qed.

(** X15.  A response without the root key is not an empty page: [get]
    returns [None] and the loop over it raises TypeError before anything
    is yielded.  The same happens for every response when the granularity
    is unsupported, since the root name itself is [None] then. *)
Theorem parse_response_without_root `{Iteration} (self : stream) (body : dict) :
  (∀ root_name, response_root_name self = Ok (VStr root_name) →
                body !! root_name = None) →
  parse_response self (VDict body) = (Gen [] (Some TypeError), []).
Proof.
  intros Habsent. unfold parse_response.
  destruct (response_root_name_cases self) as [Hnone|[root_name Hroot]].
  - by rewrite Hnone.
  - rewrite Hroot. simpl. unfold dict_get. by rewrite (Habsent _ Hroot).
Qed.

Lemma response_item_name_spec_witness :
  response_item_name MoreExamples.organizations_stream = Ok "organization".
Proof.
  exact (response_item_name_spec MoreExamples.organizations_stream
           "organization" (Ascii.ascii_of_nat 115) eq_refl eq_refl).
Defined.

(** The item names of Media and of the statistics streams. *)
Example response_item_name_overridden :
  response_item_name
    (Stream Media "2021-01-01T00:00:00+00:00" VNone None None true)
  = Ok "media" ∧
  response_item_name Examples.adaccount_stats = Ok "timeseries_stat" ∧
  response_item_name
    (Stream AdaccountStats "2021-11-01T00:00:00+00:00" (VStr "WEEK") None None true)
  = Raise TypeError.
Proof. split; [|split]; reflexivity. Qed.

Lemma parse_response_yields_items_witness :
  @parse_response MoreExamples.enumerated_keys MoreExamples.organizations_stream
    (VDict MoreExamples.organizations_response)
  = (Gen [VDict (Examples.organization "40d6719b-da09-410b-9185-0cc9c0dfed1d");
          VDict (Examples.organization "507d7a57-94de-4239-8a74-e93c00ca53e6")]
       None, []).
Proof.
  apply (@parse_response_yields_items MoreExamples.enumerated_keys
           MoreExamples.organizations_stream MoreExamples.organizations_response
           "organizations" "organization"
           [VDict {[ "sub_request_status" := VStr "success";
                     "organization" :=
                       VDict (Examples.organization
                                "40d6719b-da09-410b-9185-0cc9c0dfed1d") ]};
            VDict {[ "sub_request_status" := VStr "success";
                     "organization" :=
                       VDict (Examples.organization
                                "507d7a57-94de-4239-8a74-e93c00ca53e6") ]}]).
  - reflexivity.
  - reflexivity.
  - reflexivity.
  - repeat constructor; eexists; (split; [reflexivity|reflexivity]).
Defined.

Lemma parse_response_absent_item_witness :
  @parse_response MoreExamples.enumerated_keys MoreExamples.organizations_stream
    (VDict MoreExamples.organizations_partial_response)
  = (Gen [VDict (Examples.organization "40d6719b-da09-410b-9185-0cc9c0dfed1d")]
       (Some (SnapchatMarketingException
                "JSON field named 'organization' is absent in the response for organizations stream")),
     ["JSON field named 'organization' is absent in the response for organizations stream"]).
Proof.
  apply (@parse_response_absent_item MoreExamples.enumerated_keys
           MoreExamples.organizations_stream
           MoreExamples.organizations_partial_response
           "organizations" "organization"
           [VDict {[ "sub_request_status" := VStr "success";
                     "organization" :=
                       VDict (Examples.organization
                                "40d6719b-da09-410b-9185-0cc9c0dfed1d") ]}]
           []
           [VDict (Examples.organization "40d6719b-da09-410b-9185-0cc9c0dfed1d")]
           {[ "sub_request_status" := VStr "ERROR" ]}).
  - reflexivity.
  - reflexivity.
  - reflexivity.
  - repeat constructor; eexists; (split; [reflexivity|reflexivity]).
  - reflexivity.
Defined.

Lemma parse_response_without_root_witness :
  @parse_response MoreExamples.enumerated_keys Examples.adaccount_stats
    (VDict MoreExamples.empty_stats_response)
  = (Gen [] (Some TypeError), []) ∧
  @parse_response MoreExamples.enumerated_keys
    (Stream AdaccountStats "2021-11-01T00:00:00+00:00" (VStr "WEEK") None None true)
    (VDict MoreExamples.organizations_response)
  = (Gen [] (Some TypeError), []).
Proof.
  split.
  - apply (@parse_response_without_root MoreExamples.enumerated_keys
             Examples.adaccount_stats MoreExamples.empty_stats_response).
    intros root_name [= <-]. reflexivity.
  - apply (@parse_response_without_root MoreExamples.enumerated_keys
             (Stream AdaccountStats "2021-11-01T00:00:00+00:00" (VStr "WEEK")
                None None true)
             MoreExamples.organizations_response).
    intros root_name [=].
Defined.

(** ** Checking the connection *)

Lemma refresh_handler_raises `{Runtime} (response_json : value) (e e' : exn) :
  refresh_handler response_json e = Raise e' →
  (∀ text, e ≠ RequestException text) ∨ (∀ text, e' ≠ RequestException text).
Proof.
  unfold refresh_handler. destruct e; try (left; discriminate).
  intros Hraise. right. intros text' ->. revert Hraise.
  destruct (if truthy response_json
            then value_contains "error" response_json else Ok false)
    as [[]|e0] eqn:Hcontains; simpl; [| |].
  - destruct response_json; simpl; try discriminate.
    unfold subscript.
    destruct (m !! "error"); simpl; [|discriminate].
    destruct (m !! "error_description"); simpl; discriminate.
  - discriminate.
  - intros [= ->].
    destruct (truthy response_json); [|done].
    by destruct response_json.
Qed.

Lemma value_subscript_raises (v : value) (k : string) (e : exn) :
  value_subscript v k = Raise e → ∀ text, e ≠ RequestException text.
Proof.
  destruct v; simpl; try (intros [= <-]; discriminate).
  unfold subscript. destruct (m !! k); [done|]. intros [= <-]. discriminate.
Qed.

(** The token refresh never fails with a RequestException of its own. *)
Lemma refresh_access_token_raises `{Runtime} (request : result http_response)
    (e : exn) :
  refresh_access_token request = Raise e → ∀ text, e ≠ RequestException text.
Proof.
  assert (∀ v e0, refresh_handler v e0 = Raise e →
                  ∀ text, e ≠ RequestException text) as Hhandler.
  { intros v e0 Hraise.
    destruct (refresh_handler_raises v e0 e Hraise) as [Hne|Hne]; [|done].
    destruct e0; try (by destruct (Hne text)); simpl in Hraise;
      injection Hraise as <-; discriminate. }
  unfold refresh_access_token.
  destruct request as [response|e0]; [|apply Hhandler].
  destruct (json response) as [response_json|e0]; [|apply Hhandler].
  destruct (raise_for_status response) as [[]|e0]; [|apply Hhandler].
  destruct (value_subscript response_json "access_token") eqn:Ha; simpl.
  - destruct (value_subscript response_json "expires_in") eqn:Hx; simpl;
      [done|].
    intros [= <-]. by eapply value_subscript_raises.
  - intros [= <-]. by eapply value_subscript_raises.
Qed.

(** X16.  Whatever makes the token refresh fail, [check_connection] does
    not report it.  [refresh_access_token] turns every RequestException
    into a plain Exception (or fails with a KeyError or TypeError of its
    own) and [check_connection] catches RequestException only; so when
    [get_access_token] has to refresh the token, as it does on a new
    authenticator, and the refresh fails, the exception leaves
    [check_connection] instead of [(False, error)]. *)
Theorem check_connection_raises_on_failed_refresh `{Runtime} (config : dict)
    (request : result http_response)
    (requests_get : string → value → result http_response) (e : exn) :
  is_Some (config !! "client_id") →
  is_Some (config !! "client_secret") →
  is_Some (config !! "refresh_token") →
  refresh_access_token request = Raise e →
  (∀ text, e ≠ RequestException text) ∧
  check_connection config (fst <$> refresh_access_token request) requests_get
  = Raise e.
Proof.
  intros [id Hid] [secret Hsecret] [token Htoken] Hrefresh.
  pose proof (refresh_access_token_raises request e Hrefresh) as Hne.
  split; [done|].
  unfold check_connection, SnapchatAdsOauth2Authenticator, subscript.
  rewrite Hid, Hsecret, Htoken, Hrefresh. simpl.
  destruct e; try reflexivity. by destruct (Hne text).
Qed.

Lemma check_connection_raises_on_failed_refresh_witness :
  (∀ text, KeyError "error_description" ≠ RequestException text) ∧
  check_connection MoreExamples.snapchat_config
    (fst <$> @refresh_access_token Examples.mocked_api Examples.invalid_grant)
    MoreExamples.always_ok
  = Raise (KeyError "error_description").
Proof.
  apply (@check_connection_raises_on_failed_refresh Examples.mocked_api
           MoreExamples.snapchat_config Examples.invalid_grant
           MoreExamples.always_ok).
  - by eexists.
  - by eexists.
  - by eexists.
  - reflexivity.
Defined.

(** X17.  [check_connection] answers [(True, None)] only when the settings
    hold the three credentials, the token was obtained and the request to
    [/me] succeeded with a good status; it answers [(False, e)] only for a
    RequestException [e] raised by one of those steps; every other failure,
    a missing credential included, is raised, and what it raises is never
    a RequestException. *)
Theorem check_connection_outcomes (config : dict)
    (get_access_token : result value)
    (requests_get : string → value → result http_response) :
  match check_connection config get_access_token requests_get with
  | Ok (true, error) =>
      error = None ∧
      (∃ auth, SnapchatAdsOauth2Authenticator config = Ok auth) ∧
      ∃ token session,
        get_access_token = Ok token ∧
        requests_get "https://adsapi.snapchat.com/v1/me" token = Ok session ∧
        raise_for_status session = Ok ()
  | Ok (false, error) =>
      ∃ text,
        error = Some (RequestException text) ∧
        (get_access_token = Raise (RequestException text) ∨
         ∃ token,
           get_access_token = Ok token ∧
           (requests_get "https://adsapi.snapchat.com/v1/me" token
            = Raise (RequestException text) ∨
            ∃ session,
              requests_get "https://adsapi.snapchat.com/v1/me" token = Ok session ∧
              raise_for_status session = Raise (RequestException text)))
  | Raise e => ∀ text, e ≠ RequestException text
  end.
Proof.
  unfold check_connection.
  destruct (SnapchatAdsOauth2Authenticator config) as [auth|e] eqn:Hauth; simpl.
  - destruct get_access_token as [token|e]; simpl.
    + destruct (requests_get "https://adsapi.snapchat.com/v1/me" token)
        as [session|e] eqn:Hget; simpl.
      * destruct (raise_for_status session) as [[]|e] eqn:Hstatus; simpl.
        -- eauto 10.
        -- destruct e; try discriminate. eauto 10.
      * destruct e; try discriminate. eauto 10.
    + destruct e; try discriminate. eauto.
  - unfold SnapchatAdsOauth2Authenticator, subscript in Hauth.
    destruct (config !! "client_id"); simpl in Hauth;
      [|injection Hauth as <-; discriminate].
    destruct (config !! "client_secret"); simpl in Hauth;
      [|injection Hauth as <-; discriminate].
    destruct (config !! "refresh_token"); simpl in Hauth;
      [done|injection Hauth as <-; discriminate].
Qed.

(** ** source-freshchat *)

(** X18.  The parameters of a Freshchat request.  Without a page token,
    which is how the first request of a stream is built, [request_params]
    raises AttributeError.  With the token [next_page_token] returned for
    the previous response it asks for that page, one past the page of the
    response, with [items_per_page] and, when the stream has an order
    field, the two sort parameters. *)
Theorem freshchat_request_params_pages `{Runtime}
    (self : FreshchatStream.stream) (response_json : value) :
  FreshchatStream.request_params self None = Raise AttributeError ∧
  ∀ token,
    Freshchat.next_page_token response_json = Ok (Some token) →
    ∃ pagination current_page params,
      value_get response_json "pagination" (VDict ∅) = Ok pagination ∧
      value_get pagination "current_page" VNone ≫= Freshchat.py_int
      = Ok current_page ∧
      FreshchatStream.request_params self (Some token) = Ok params ∧
      params !! "page" = Some (VInt (current_page + 1)) ∧
      params !! "items_per_page"
      = Some (VInt (FreshchatStream.items_per_page self)) ∧
      params !! "sort_by"
      = (if truthy (FreshchatStream.order_field self)
         then Some (FreshchatStream.order_field self) else None) ∧
      params !! "sort_order"
      = (if truthy (FreshchatStream.order_field self)
         then Some (VStr (FreshchatStream.order_type self)) else None).
Proof.
  split; [reflexivity|]. intros token. unfold Freshchat.next_page_token.
  destruct (value_get response_json "pagination" (VDict ∅))
    as [pagination|e]; simpl; [|done].
  destruct (value_get pagination "current_page" VNone ≫= Freshchat.py_int)
    as [current_page|e] eqn:Hcurrent; simpl; [|done].
  destruct (value_get pagination "total_pages" VNone ≫= Freshchat.py_int)
    as [total_pages|e]; simpl; [|done].
  destruct (current_page <? total_pages); [|done]. intros [= <-].
  exists pagination, current_page. rewrite Hcurrent.
  unfold FreshchatStream.request_params.
  unfold dict_get. rewrite lookup_singleton_eq.
  destruct (truthy (FreshchatStream.order_field self)); eexists;
    (split; [reflexivity|]); (split; [reflexivity|]);
    (split; [reflexivity|]); repeat split; by lookup_display.
Qed.

Lemma freshchat_request_params_pages_witness :
  ∃ pagination current_page params,
    value_get (VDict MoreExamples.agents_page) "pagination" (VDict ∅)
    = Ok pagination ∧
    value_get pagination "current_page" VNone ≫= @Freshchat.py_int Examples.mocked_api
    = Ok current_page ∧
    FreshchatStream.request_params FreshchatStream.Agents
      (Some {[ "page" := VInt 2 ]}) = Ok params ∧
    params !! "page" = Some (VInt (current_page + 1)) ∧
    params !! "items_per_page" = Some (VInt 100) ∧
    params !! "sort_by" = None ∧
    params !! "sort_order" = None.
Proof.
  apply (@freshchat_request_params_pages Examples.mocked_api
           FreshchatStream.Agents (VDict MoreExamples.agents_page)).
  reflexivity.
Defined.

(** X19.  A Freshchat page yields the entries of the list under the
    stream's records key, in order; a response without that key is an
    empty page and no error; [null] under the key raises TypeError. *)
Theorem freshchat_parse_response_records `{Iteration}
    (self : FreshchatStream.stream) (body : dict) :
  (body !! FreshchatStream.records_key self = None →
   FreshchatStream.parse_response self (VDict body) = Gen [] None) ∧
  (∀ records,
     body !! FreshchatStream.records_key self = Some (VList records) →
     FreshchatStream.parse_response self (VDict body) = Gen records None) ∧
  (body !! FreshchatStream.records_key self = Some VNone →
   FreshchatStream.parse_response self (VDict body) = Gen [] (Some TypeError)).
Proof.
  unfold FreshchatStream.parse_response. simpl. unfold dict_get.
  split; [|split].
  - by intros ->.
  - by intros records ->.
  - by intros ->.
Qed.

Lemma freshchat_parse_response_records_witness :
  @FreshchatStream.parse_response MoreExamples.enumerated_keys
    FreshchatStream.Agents (VDict MoreExamples.agents_page)
  = Gen [VDict {[ "id" := VStr "a-1" ]}; VDict {[ "id" := VStr "a-2" ]}] None ∧
  @FreshchatStream.parse_response MoreExamples.enumerated_keys
    FreshchatStream.Channels (VDict MoreExamples.agents_page)
  = Gen [] None.
Proof.
  split.
  - apply (@freshchat_parse_response_records MoreExamples.enumerated_keys
             FreshchatStream.Agents MoreExamples.agents_page).
    reflexivity.
  - destruct (@freshchat_parse_response_records MoreExamples.enumerated_keys
                FreshchatStream.Channels MoreExamples.agents_page)
      as [Hnone _].
    apply Hnone. reflexivity.
Defined.

Lemma api_regions_unknown (region : string) :
  region ∉ ["United States"; "Europe"; "India"; "Australia"] →
  SourceFreshchat.API_REGIONS !! region = None.
Proof.
  intros Hnotin. unfold SourceFreshchat.API_REGIONS.
  repeat (rewrite lookup_insert_ne;
          [|intros <-; apply Hnotin;
            eauto 6 using list_elem_of_here, list_elem_of_further]).
  apply lookup_singleton_ne. intros <-. apply Hnotin.
  eauto 6 using list_elem_of_here, list_elem_of_further.
Qed.

(** X20.  The Freshchat connection check does not validate the region: for
    a region name that is not one of the four in [API_REGIONS] it sends
    the request to the host [None.freshchat.com] and reports whatever that
    request does.  A missing [api_key] or [region] setting is read outside
    the [try] statement and raises KeyError instead of returning
    [(False, error)]. *)
Theorem freshchat_check_connection_region (config : dict)
    (requests_get : string → value → result http_response) :
  (∀ token region,
     config !! "api_key" = Some token →
     config !! "region" = Some (VStr region) →
     region ∉ ["United States"; "Europe"; "India"; "Australia"] →
     SourceFreshchat.check_connection config requests_get
     = try_request
         (session ← requests_get "https://None.freshchat.com/v2/channels" token;
          raise_for_status session)) ∧
  (config !! "api_key" = None →
   SourceFreshchat.check_connection config requests_get
   = Raise (KeyError "api_key")) ∧
  (is_Some (config !! "api_key") → config !! "region" = None →
   SourceFreshchat.check_connection config requests_get
   = Raise (KeyError "region")).
Proof.
  unfold SourceFreshchat.check_connection, subscript. split; [|split].
  - intros token region -> -> Hregion. simpl.
    by rewrite (api_regions_unknown region Hregion).
  - by intros ->.
  - by intros [token ->] ->.
Qed.

Lemma freshchat_check_connection_region_witness :
  SourceFreshchat.check_connection MoreExamples.freshchat_config
    (fun url token =>
       if String.eqb url "https://None.freshchat.com/v2/channels"
       then Raise (RequestException "Name or service not known")
       else MoreExamples.always_ok url token)
  = Ok (false, Some (RequestException "Name or service not known")).
Proof.
  destruct (freshchat_check_connection_region MoreExamples.freshchat_config
              (fun url token =>
                 if String.eqb url "https://None.freshchat.com/v2/channels"
                 then Raise (RequestException "Name or service not known")
                 else MoreExamples.always_ok url token)) as [Hregion _].
  apply (Hregion (VStr "api-key") "Canada").
  - reflexivity.
  - reflexivity.
  - intros Hin. repeat (apply elem_of_cons in Hin as [[=]|Hin]).
    by apply elem_of_nil in Hin.
Defined.

(** ** Account statistics: the time zone of a request *)

(** X21.  The parameters of a stats request cannot be built when
    [pendulum] rejects the start date or the time zone of the slice, and
    that holds for LIFETIME too, where the parsed time is thrown away. *)
Theorem request_params_needs_time_zone `{Runtime} (self : stream)
    (stream_state : dict) (stream_slice next_page_token : option dict)
    (e : exn) :
  start_date self ≠ "" →
  (parse_in_timezone (start_date self) (account_timezone stream_slice) = Raise e →
   AdaccountStats_request_params self stream_state stream_slice next_page_token
   = Raise e) ∧
  (∀ d, parse_in_timezone (start_date self) (account_timezone stream_slice) = Ok d →
        now (account_timezone stream_slice) = Raise e →
        AdaccountStats_request_params self stream_state stream_slice
          next_page_token = Raise e).
Proof.
  intros Hdate.
  unfold AdaccountStats_request_params, _get_rounded_datetime.
  assert (negb (String.eqb (start_date self) "") = true) as ->.
  { apply negb_true_iff, String.eqb_neq. exact Hdate. }
  split.
  - by intros ->.
  - intros d -> Hnow. simpl. rewrite Hnow.
    destruct (py_eq (granularity self) (VStr "LIFETIME")); [done|].
    by destruct (py_eq (granularity self) (VStr "DAY")).
Qed.

Lemma request_params_needs_time_zone_witness :
  @AdaccountStats_request_params MoreExamples.strict_time_zones
    Examples.lifetime_stats ∅ (Some MoreExamples.misplaced_account) None
  = Raise ValueError.
Proof.
  apply (@request_params_needs_time_zone MoreExamples.strict_time_zones
           Examples.lifetime_stats ∅ (Some MoreExamples.misplaced_account)
           None ValueError).
  - discriminate.
  - reflexivity.
Defined.

(** ** Resolving the identifiers of a parent without slices *)

Lemma extract_slice_project (record : dict) (keys : list string) :
  (∀ k, k ∈ keys → is_Some (record !! k)) →
  extract_slice record keys ∅ = Ok (project keys record).
Proof.
  intros Hkeys.
  destruct (extract_slice_lookup record keys ∅ Hkeys) as (s & -> & Hlookup).
  f_equal. apply map_eq. intros k. unfold project.
  rewrite Hlookup, map_lookup_filter, lookup_empty.
  destruct (record !! k) as [v|]; simpl.
  - destruct (decide (k ∈ keys)).
    + by rewrite option_guard_True.
    + by rewrite option_guard_False.
  - by destruct (decide (k ∈ keys)).
Qed.

Lemma append_slices_project (keys : list string) (records : list dict) :
  ∀ acc : list (option dict),
  Forall (fun record => ∀ k, k ∈ keys → is_Some (record !! k)) records →
  append_slices keys records None acc
  = Ok (acc ++ ((fun record => Some (project keys record)) <$> records)).
Proof.
  induction records as [|record records IH]; intros acc Hall; simpl.
  - by rewrite app_nil_r.
  - apply Forall_cons in Hall as [Hrecord Hall].
    rewrite (extract_slice_project record keys Hrecord). simpl.
    rewrite (IH _ Hall), <- app_assoc. reflexivity.
Qed.

(** X22.  A stream whose parent has no slices of its own (Adaccounts, whose
    parent is Organizations) resolves its slices, on a miss, with one read
    of the parent, without a slice: one slice per record in the order
    read, each the record cut down to the stream's [slice_key_names].  The
    result is stored under the parent's class name exactly when it is not
    empty, and [stream_slices] then yields it and keeps its last slice. *)
Theorem stream_slices_one_level `{Runtime} (self : stream)
    (parent : stream_class) (w : world) :
  base (cls self) ≠ SnapchatMarketingStream →
  depends_on_stream (cls self) = Some parent →
  base parent = SnapchatMarketingStream →
  auxiliary_record_map w !! __name__ parent = None →
  let keys := slice_key_names (cls self) in
  let depend_on_stream :=
    Stream parent (to_rfc3339_string (start_date self)) VNone None None true in
  let fetched := http_read_records (length (reads w)) depend_on_stream None in
  raised fetched = None →
  Forall (fun record => ∀ k, k ∈ keys → is_Some (record !! k)) (yielded fetched) →
  let slices := (fun record => Some (project keys record)) <$> yielded fetched in
  let resolved :=
    World (match slices with
           | [] => auxiliary_record_map w
           | _ :: _ => <[__name__ parent := slices]> (auxiliary_record_map w)
           end)
      (logger w) (reads w ++ [(__name__ parent, None)]) in
  get_depend_on_records (Some parent) (StreamConfig (start_date self)) keys w
  = (Ok slices, resolved) ∧
  (slices ≠ [] →
   stream_slices self w
   = (Ok (set_last_slice self (List.last slices None), Gen slices None),
      resolved)).
Proof.
  intros Hbase Hparent Hpbase Hmiss keys depend_on_stream fetched Hraised Hkeys
    slices resolved.
  assert (get_depend_on_records (Some parent) (StreamConfig (start_date self))
            keys w = (Ok slices, resolved)) as Hcall.
  { unfold get_depend_on_records, get_depend_on_records_with. rewrite Hmiss.
    unfold new_stream. rewrite Hpbase.
    unfold mbind at 1, M_bind at 1, lift. cbn [config_start_date].
    fold depend_on_stream.
    unfold mbind at 1, M_bind at 1.
    rewrite stream_slices_of_unfold, Hpbase.
    unfold mret at 1, M_ret at 1. cbn [yielded raised read_slices opt_truthy].
    unfold read_records. cbn [cls depend_on_stream]. rewrite Hpbase.
    unfold mbind, M_bind, http_read, mret, M_ret, lift. cbn [fst snd].
    fold depend_on_stream fetched. rewrite Hraised.
    rewrite (append_slices_project keys _ [] Hkeys). cbn [app]. fold slices.
    subst resolved. by destruct slices. }
  split; [done|]. intros Hne.
  unfold stream_slices. rewrite stream_slices_of_unfold.
  unfold get_depend_on_records in Hcall. fold keys.
  destruct (base (cls self)); [done| |];
    rewrite Hparent, Hcall; (destruct slices as [|s slices']; [done|]);
    by rewrite (last_default s slices' s None).
Qed.

Lemma stream_slices_one_level_witness :
  let adaccounts :=
    Stream Adaccounts "2021-01-01T00:00:00+00:00" VNone None None true in
  let slices :=
    (fun record => Some (project ["id"] record)) <$> Examples.organizations in
  let resolved :=
    World (<["Organizations" := slices]> ∅) [] [("Organizations", None)] in
  @get_depend_on_records Examples.mocked_api (Some Organizations)
    (StreamConfig "2021-01-01T00:00:00+00:00") ["id"] empty_world
  = (Ok slices, resolved) ∧
  (slices ≠ [] →
   @stream_slices Examples.mocked_api adaccounts empty_world
   = (Ok (set_last_slice adaccounts (List.last slices None), Gen slices None),
      resolved)).
Proof.
  intros adaccounts slices resolved.
  apply (@stream_slices_one_level Examples.mocked_api adaccounts Organizations
           empty_world).
  - discriminate.
  - reflexivity.
  - reflexivity.
  - reflexivity.
  - reflexivity.
  - repeat constructor; intros k Hk;
      apply list_elem_of_singleton in Hk as ->; by eexists.
Defined.

(** ** Pagination and the next request *)

(** X23.  A page token is never falsy: whenever [next_page_token] of
    either connector returns a token, the token is a non-empty mapping, so
    a caller that stops on a falsy token stops exactly on [None]; and the
    Snapchat [request_params] sends that token unchanged, the cursor of
    the next page as its only parameter. *)
Theorem page_tokens_are_truthy `{Runtime} (response_json : value)
    (token : dict) :
  next_page_token response_json = Ok (Some token) ∨
  Freshchat.next_page_token response_json = Ok (Some token) →
  dict_truthy token = true ∧
  request_params (Some token) = token ∧
  request_params None = ∅.
Proof.
  intros Htoken.
  assert (dict_truthy token = true) as Htruthy.
  { destruct Htoken as [Hsnap|Hfresh].
    - unfold next_page_token in Hsnap.
      destruct (value_get response_json "paging" (VBool false)) as [paging|];
        simpl in Hsnap; [|done].
      destruct (truthy paging); [|done].
      destruct (value_subscript paging "next_link") as [next_link|];
        simpl in Hsnap; [|done].
      destruct (query_cursor next_link); simpl in Hsnap; [|done].
      injection Hsnap as <-. apply dict_truthy_singleton.
    - unfold Freshchat.next_page_token in Hfresh.
      destruct (value_get response_json "pagination" (VDict ∅))
        as [pagination|]; simpl in Hfresh; [|done].
      destruct (value_get pagination "current_page" VNone ≫= Freshchat.py_int)
        as [current_page|]; simpl in Hfresh; [|done].
      destruct (value_get pagination "total_pages" VNone ≫= Freshchat.py_int)
        as [total_pages|]; simpl in Hfresh; [|done].
      destruct (current_page <? total_pages); [|done].
      injection Hfresh as <-. apply dict_truthy_singleton. }
  split; [done|]. split; [|done].
  unfold request_params. simpl. by rewrite Htruthy.
Qed.

Lemma page_tokens_are_truthy_witness :
  dict_truthy {[ "cursor" := VStr "CMi7vOkBEg" ]} = true ∧
  request_params (Some {[ "cursor" := VStr "CMi7vOkBEg" ]})
  = {[ "cursor" := VStr "CMi7vOkBEg" ]} ∧
  request_params None = ∅.
Proof.
  apply (@page_tokens_are_truthy Examples.mocked_api
           (VDict {[ "paging" := VDict Examples.paging_with_link ]})).
  left. reflexivity.
Defined.

(** ** Account statistics: the read as a whole *)

Lemma merge_breakdown_levels_result `{Runtime} (self : stream)
    (stream_slice : option dict) (levels : list (string * string)) :
  ∀ (merged : odict) (w : world) (parsed_lists : list (list dict)),
  levels_answer (length (reads w)) self stream_slice levels parsed_lists →
  (merge_breakdown_levels self stream_slice levels merged w).1
  = merge_responses merged (concat parsed_lists).
Proof.
  induction levels as [|[level fields] levels IH];
    intros merged w [|parsed parsed_lists]; simpl; try done.
  intros [Hfetch Hrest].
  unfold mbind at 1, M_bind at 1, stats_fetch. rewrite Hfetch.
  rewrite merge_responses_app.
  unfold mbind at 1, M_bind at 1, lift.
  destruct (merge_responses merged parsed) as [merged'|e]; simpl; [|done].
  apply IH. simpl. rewrite length_app. simpl.
  by rewrite Nat.add_1_r.
Qed.

(** X24.  [AdaccountStats.read_records] returns the merge of everything
    the breakdown levels answered, the levels taken in the order of the
    schema and their records in the order received; an error of the merge
    is the error of the read.  The stream state it is called with does not
    enter the result. *)
Theorem adaccount_stats_read_merges_levels `{Runtime} (self : stream)
    (stream_state stream_slice : option dict) (w : world)
    (parsed_lists : list (list dict)) :
  base (cls self) = AdaccountStatsStream →
  levels_answer (length (reads w)) self stream_slice breakdown_entities
    parsed_lists →
  (read_records self stream_state stream_slice w).1
  = Ok (self,
        match merge_responses [] (concat parsed_lists) with
        | Ok merged_response => Gen merged_response.*2 None
        | Raise e => Gen [] (Some e)
        end).
Proof.
  intros Hbase Hanswer. unfold read_records. rewrite Hbase.
  unfold AdaccountStats_read_records, mbind, M_bind.
  pose proof (merge_breakdown_levels_result self stream_slice
                breakdown_entities [] w parsed_lists Hanswer) as Hmerge.
  destruct (merge_breakdown_levels self stream_slice breakdown_entities [] w)
    as [[merged|e] w']; simpl in Hmerge; rewrite <- Hmerge; reflexivity.
Qed.

Lemma adaccount_stats_read_merges_levels_witness :
  (@read_records Examples.mocked_api Examples.adaccount_stats
     (Some (Examples.end_time "2021-11-05T00:00:00+00:00"))
     (Some Examples.utc_account) empty_world).1
  = Ok (Examples.adaccount_stats,
        match merge_responses []
                (List.concat
                   [[Examples.timeseries_stat "2021-11-01T00:00:00+00:00"
                       "2021-11-02T00:00:00+00:00" "campaign" 50000000];
                    [Examples.timeseries_stat "2021-11-01T00:00:00+00:00"
                       "2021-11-02T00:00:00+00:00" "adsquad" 50000000]]) with
        | Ok merged_response => Gen merged_response.*2 None
        | Raise e => Gen [] (Some e)
        end).
Proof.
  apply (@adaccount_stats_read_merges_levels Examples.mocked_api
           Examples.adaccount_stats
           (Some (Examples.end_time "2021-11-05T00:00:00+00:00"))
           (Some Examples.utc_account) empty_world).
  - reflexivity.
  - repeat split.
Defined.

(** ** Failures while resolving the parent *)

Lemma append_slices_missing (keys : list string) (pre : list dict) :
  ∀ (record : dict) (post : list dict) (ending : option exn)
    (acc : list (option dict)) (before : list string) (k : string)
    (after : list string),
  Forall (fun record => ∀ k, k ∈ keys → is_Some (record !! k)) pre →
  keys = before ++ k :: after →
  (∀ k', k' ∈ before → is_Some (record !! k')) →
  record !! k = None →
  append_slices keys (pre ++ record :: post) ending acc = Raise (KeyError k).
Proof.
  induction pre as [|r pre IH];
    intros record post ending acc before k after Hpre Hkeys Hbefore Hk; simpl.
  - rewrite Hkeys, (extract_slice_missing record before k after ∅) by done.
    done.
  - apply Forall_cons in Hpre as [Hr Hpre].
    rewrite (extract_slice_project r keys Hr). simpl. by eapply IH.
Qed.

(** X25.  One parent record without a requested key loses the whole
    resolution.  For a stream whose parent has no slices of its own, the
    call raises KeyError for the first key the record lacks, the slices
    already built from the records before it are dropped and nothing is
    stored; [stream_slices] raises that KeyError before it yields a slice
    and logs nothing. *)
Theorem stream_slices_missing_key `{Runtime} (self : stream)
    (parent : stream_class) (w : world)
    (pre post : list dict) (record : dict)
    (before after : list string) (k : string) :
  base (cls self) ≠ SnapchatMarketingStream →
  depends_on_stream (cls self) = Some parent →
  base parent = SnapchatMarketingStream →
  auxiliary_record_map w !! __name__ parent = None →
  let keys := slice_key_names (cls self) in
  let depend_on_stream :=
    Stream parent (to_rfc3339_string (start_date self)) VNone None None true in
  let fetched := http_read_records (length (reads w)) depend_on_stream None in
  yielded fetched = pre ++ record :: post →
  Forall (fun record => ∀ k, k ∈ keys → is_Some (record !! k)) pre →
  keys = before ++ k :: after →
  (∀ k', k' ∈ before → is_Some (record !! k')) →
  record !! k = None →
  let failed :=
    World (auxiliary_record_map w) (logger w)
      (reads w ++ [(__name__ parent, None)]) in
  get_depend_on_records (Some parent) (StreamConfig (start_date self)) keys w
  = (Raise (KeyError k), failed) ∧
  stream_slices self w = (Ok (self, Gen [] (Some (KeyError k))), failed).
Proof.
  intros Hbase Hparent Hpbase Hmiss keys depend_on_stream fetched Hfetched Hpre
    Hkeys Hbefore Hk failed.
  assert (get_depend_on_records (Some parent) (StreamConfig (start_date self))
            keys w = (Raise (KeyError k), failed)) as Hcall.
  { unfold get_depend_on_records, get_depend_on_records_with. rewrite Hmiss.
    unfold new_stream. rewrite Hpbase.
    unfold mbind at 1, M_bind at 1, lift. cbn [config_start_date].
    fold depend_on_stream.
    unfold mbind at 1, M_bind at 1.
    rewrite stream_slices_of_unfold, Hpbase.
    unfold mret at 1, M_ret at 1. cbn [yielded raised read_slices opt_truthy].
    unfold read_records. cbn [cls depend_on_stream]. rewrite Hpbase.
    unfold mbind, M_bind, http_read, mret, M_ret, lift. cbn [fst snd].
    fold depend_on_stream fetched. rewrite Hfetched.
    by rewrite (append_slices_missing keys pre record post (raised fetched) []
                  before k after). }
  split; [done|].
  unfold stream_slices. rewrite stream_slices_of_unfold.
  unfold get_depend_on_records in Hcall. fold keys.
  destruct (base (cls self)); [done| |]; by rewrite Hparent, Hcall.
Qed.

Lemma stream_slices_missing_key_witness :
  let adaccounts :=
    Stream Adaccounts "2021-01-01T00:00:00+00:00" VNone None None true in
  @get_depend_on_records MoreExamples.nameless_organization_api
    (Some Organizations) (StreamConfig "2021-01-01T00:00:00+00:00") ["id"]
    empty_world
  = (Raise (KeyError "id"), World ∅ [] [("Organizations", None)]) ∧
  @stream_slices MoreExamples.nameless_organization_api adaccounts empty_world
  = (Ok (adaccounts, Gen [] (Some (KeyError "id"))),
     World ∅ [] [("Organizations", None)]).
Proof.
  intros adaccounts.
  apply (@stream_slices_missing_key
           MoreExamples.nameless_organization_api adaccounts Organizations
           empty_world
           [Examples.organization "40d6719b-da09-410b-9185-0cc9c0dfed1d"]
           [Examples.organization "507d7a57-94de-4239-8a74-e93c00ca53e6"]
           {[ "type" := VStr "ENTERPRISE" ]} [] []).
  - discriminate.
  - reflexivity.
  - reflexivity.
  - reflexivity.
  - reflexivity.
  - repeat constructor; intros k Hk;
      apply list_elem_of_singleton in Hk as ->; by eexists.
  - reflexivity.
  - intros k Hk. by apply elem_of_nil in Hk.
  - reflexivity.
Defined.

(** X26.  When the grandparent has no records, the failure of the parent's
    [stream_slices] travels up: resolving the parent raises the parent's
    IndexError, and so does [stream_slices] of every stream that depends
    on the parent, before it yields a slice.  The only error logged is the
    parent's; nothing is stored for the parent. *)
Theorem empty_grandparent_propagates `{Runtime} (self : stream)
    (parent grandparent : stream_class) (w w1 : world) :
  base (cls self) ≠ SnapchatMarketingStream →
  depends_on_stream (cls self) = Some parent →
  base parent = IncrementalSnapchatMarketingStream →
  depends_on_stream parent = Some grandparent →
  auxiliary_record_map w !! __name__ parent = None →
  get_depend_on_records (Some grandparent)
    (StreamConfig (to_rfc3339_string (start_date self)))
    (slice_key_names parent) w = (Ok [], w1) →
  let failed :=
    World (auxiliary_record_map w1)
      (logger w1 ++ [KeysNotFound (slice_key_names parent)
                       (__name__ grandparent) (name parent)])
      (reads w1) in
  get_depend_on_records (Some parent) (StreamConfig (start_date self))
    (slice_key_names (cls self)) w = (Raise IndexError, failed) ∧
  stream_slices self w = (Ok (self, Gen [] (Some IndexError)), failed).
Proof.
  intros Hbase Hparent Hpbase Hgrand Hmiss Hempty failed.
  assert (get_depend_on_records (Some parent) (StreamConfig (start_date self))
            (slice_key_names (cls self)) w = (Raise IndexError, failed)) as Hcall.
  { unfold get_depend_on_records, get_depend_on_records_with. rewrite Hmiss.
    unfold new_stream. rewrite Hpbase.
    unfold mbind at 1, M_bind at 1, lift.
    unfold mbind at 1, M_bind at 1.
    rewrite (stream_slices_of_empty parent grandparent _ w w1);
      [done|by rewrite Hpbase|done|done]. }
  split; [done|].
  unfold stream_slices. rewrite stream_slices_of_unfold.
  unfold get_depend_on_records in Hcall.
  destruct (base (cls self)); [done| |]; by rewrite Hparent, Hcall.
Qed.

Lemma empty_grandparent_propagates_witness :
  @get_depend_on_records MoreExamples.no_organizations_api (Some Adaccounts)
    (StreamConfig "2021-01-01T00:00:00+00:00") ["id"] empty_world
  = (Raise IndexError,
     World ∅ [KeysNotFound ["id"] "Organizations" "adaccounts"]
       [("Organizations", None)]) ∧
  @stream_slices MoreExamples.no_organizations_api Examples.new_creatives
    empty_world
  = (Ok (Examples.new_creatives, Gen [] (Some IndexError)),
     World ∅ [KeysNotFound ["id"] "Organizations" "adaccounts"]
       [("Organizations", None)]).
Proof.
  apply (@empty_grandparent_propagates MoreExamples.no_organizations_api
           Examples.new_creatives Adaccounts Organizations empty_world
           (World ∅ [] [("Organizations", None)])).
  - discriminate.
  - reflexivity.
  - reflexivity.
  - reflexivity.
  - reflexivity.
  - reflexivity.
Defined.
